(** * Ledger and fraud engine of the maya-send backend

    A shallow embedding of the request handlers that move value between
    accounts (P2P transfer, email payments, dispute refunds, admin refunds)
    and of the fraud service (rule evaluation and risk score), followed by
    the properties of the specification that concern them.

    Modelling conventions.
    - The database is a record of tables; a table is a list of rows and the
      primary key of a row is its position.  No handler modelled here
      deletes a row (the hard delete of [deleteUser] and [deleteRule] are
      left out), and [create] appends, so generated keys are fresh.
    - [prisma.$transaction] is a computation in the [Tx] monad: any failing
      statement aborts the whole body and the store is rolled back.
    - A handler is a function from the store (and the clock reading [now],
      in milliseconds) to a response and the new store.  Handlers run one
      at a time; interleavings of concurrent requests are not modelled.
    - Amounts are integers (whole units of the settlement currency);
      binary floating point rounding is outside the model.
    - A date is its time value in milliseconds.  Where a handler moves a
      date by calendar days, the time zone of the process is an argument of
      the handler, and an invalid date makes the database statement throw.
    - Free-text columns that no handler branches on (description, message,
      notes, names) are left out of the rows. *)

From Stdlib Require Import ZArith QArith String Ascii Lia Bool.
From stdpp Require Import base list strings.

Local Open Scope Z_scope.

(** ** Data model *)

Inductive KycStatus := KYC_NONE | KYC_UNVERIFIED | KYC_PENDING | KYC_VERIFIED | KYC_REJECTED.

Inductive TransactionStatus := TX_PENDING | TX_COMPLETED | TX_FAILED.

Inductive TransactionType := P2P | EMAIL_PAYMENT | REFUND.

Inductive EmailPaymentStatus := EP_PENDING | EP_CLAIMED | EP_CANCELLED.

Inductive DisputeStatus := OPEN | IN_PROGRESS | RESOLVED | CLOSED.

Module User.
Record t := mk {
  email : string;
  balance : Z;
  isSuspended : bool;
  isDeleted : bool;
  kycStatus : KycStatus;
  isFlagged : bool;
  createdAt : Z
}.

(** [balance: { increment: d }] (and [decrement] with [- d]). *)
Definition increment (d : Z) (u : t) : t :=
  mk (email u) (balance u + d) (isSuspended u) (isDeleted u)
     (kycStatus u) (isFlagged u) (createdAt u).
End User.

Module Metadata.
Record t := mk {
  originalTransactionId : option nat;
  emailPaymentId : option nat;
  disputeId : option nat
}.
Definition empty : t := mk None None None.
End Metadata.

Module Transaction.
Record t := mk {
  senderId : nat;
  recipientId : nat;
  amount : Z;
  currency : string;
  transactionType : TransactionType;
  status : TransactionStatus;
  isFlagged : bool;
  isRefunded : bool;
  createdAt : Z;
  metadata : Metadata.t
}.

Definition markRefunded (x : t) : t :=
  mk (senderId x) (recipientId x) (amount x) (currency x)
     (transactionType x) (status x) (isFlagged x) true (createdAt x)
     (metadata x).
End Transaction.

Module EmailPayment.
Record t := mk {
  senderId : nat;
  recipientEmail : string;
  amount : Z;
  currency : string;
  claimCode : string;
  expiresAt : Z;
  status : EmailPaymentStatus;
  claimedById : option nat
}.

Definition claim (by_ : nat) (p : t) : t :=
  mk (senderId p) (recipientEmail p) (amount p) (currency p)
     (claimCode p) (expiresAt p) EP_CLAIMED (Some by_).

Definition cancel (p : t) : t :=
  mk (senderId p) (recipientEmail p) (amount p) (currency p)
     (claimCode p) (expiresAt p) EP_CANCELLED (claimedById p).
End EmailPayment.

Module Dispute.
Record t := mk {
  userId : nat;
  transactionId : nat;
  status : DisputeStatus;
  resolution : option string;
  refundAmount : option Z
}.
End Dispute.

Module FraudRule.
(** [conditions] is a JSON object; only numeric members are read. *)
Record t := mk {
  ruleType : string;
  conditions : list (string * Z);
  severity : string;
  isActive : bool
}.
End FraudRule.

Module FraudAlert.
Record t := mk {
  transactionId : nat;
  userId : nat;
  ruleId : nat;
  alertType : string;
  severity : string
}.
End FraudAlert.

Record Store := mkStore {
  users : list User.t;
  transactions : list Transaction.t;
  emailPayments : list EmailPayment.t;
  disputes : list Dispute.t;
  fraudRules : list FraudRule.t;
  fraudAlerts : list FraudAlert.t
}.

Definition with_users (us : list User.t) (s : Store) : Store :=
  mkStore us (transactions s) (emailPayments s) (disputes s) (fraudRules s) (fraudAlerts s).
Definition with_transactions (ts : list Transaction.t) (s : Store) : Store :=
  mkStore (users s) ts (emailPayments s) (disputes s) (fraudRules s) (fraudAlerts s).
Definition with_emailPayments (ps : list EmailPayment.t) (s : Store) : Store :=
  mkStore (users s) (transactions s) ps (disputes s) (fraudRules s) (fraudAlerts s).
Definition with_disputes (ds : list Dispute.t) (s : Store) : Store :=
  mkStore (users s) (transactions s) (emailPayments s) ds (fraudRules s) (fraudAlerts s).
Definition with_fraudAlerts (als : list FraudAlert.t) (s : Store) : Store :=
  mkStore (users s) (transactions s) (emailPayments s) (disputes s) (fraudRules s) als.

(** ** Responses *)

Inductive ErrorCode :=
  | NO_TOKEN | INVALID_TOKEN | USER_NOT_FOUND | ACCOUNT_SUSPENDED | ACCOUNT_DELETED
  | MISSING_FIELDS | INVALID_AMOUNT | SENDER_NOT_FOUND | INSUFFICIENT_BALANCE
  | RECIPIENT_NOT_FOUND | RECIPIENT_UNAVAILABLE | CANNOT_SEND_TO_SELF | SEND_MONEY_FAILED
  | SEND_VIA_EMAIL_FAILED
  | MISSING_CLAIM_CODE | PAYMENT_NOT_FOUND | PAYMENT_EXPIRED | UNAUTHORIZED | CLAIM_PAYMENT_FAILED
  | PAYMENT_NOT_PENDING | CANCEL_PAYMENT_FAILED
  | MISSING_REASON | EMAIL_PAYMENT_NOT_FOUND | INVALID_PAYMENT_STATUS | CANCEL_EMAIL_PAYMENT_FAILED
  | TRANSACTION_NOT_FOUND | DISPUTE_EXISTS | FILE_DISPUTE_FAILED
  | MISSING_RESOLUTION | DISPUTE_NOT_FOUND | DISPUTE_ALREADY_RESOLVED | INVALID_REFUND_AMOUNT
  | RESOLVE_DISPUTE_FAILED
  | INVALID_TRANSACTION_STATUS | ALREADY_REFUNDED | REFUND_FAILED.

(** [res.status(n).json({ success, data | error })]. *)
Inductive Response (A : Type) :=
  | Success (httpStatus : nat) (data : A)
  | Failure (httpStatus : nat) (code : ErrorCode).
Arguments Success {A} httpStatus data.
Arguments Failure {A} httpStatus code.

Definition isSuccess {A} (r : Response A) : bool :=
  match r with Success _ _ => true | Failure _ _ => false end.

(** ** Database statements *)

(** A statement inside [prisma.$transaction]: [None] is a thrown error. *)
Definition Tx (A : Type) : Type := Store -> option (A * Store).

Definition tx_ret {A} (a : A) : Tx A := fun s => Some (a, s).
Definition tx_bind {A B} (m : Tx A) (k : A -> Tx B) : Tx B :=
  fun s => match m s with
           | Some (a, s') => k a s'
           | None => None
           end.

Notation "'run' x <- m ; k" := (tx_bind m (fun x => k))
  (at level 10, x name, m at level 100, k at level 200).
Notation "'exec' m ; k" := (tx_bind m (fun _ => k))
  (at level 10, m at level 100, k at level 200).

(** [tx.user.update({ where: { id }, data: { balance: { increment: d } } })];
    updating a missing row throws. *)
Definition user_update_balance (id : nat) (d : Z) : Tx unit :=
  fun s => match users s !! id with
           | Some u => Some (tt, with_users (<[id := User.increment d u]> (users s)) s)
           | None => None
           end.

(** [tx.transaction.create({ data })]: the new row and its key. *)
Definition transaction_create (row : Transaction.t) : Tx nat :=
  fun s => Some (length (transactions s), with_transactions (transactions s ++ [row]) s).

(** [tx.transaction.update({ where: { id }, data })]. *)
Definition transaction_update (id : nat) (f : Transaction.t -> Transaction.t) : Tx Transaction.t :=
  fun s => match transactions s !! id with
           | Some x => Some (f x, with_transactions (<[id := f x]> (transactions s)) s)
           | None => None
           end.

(** [tx.emailPayment.create({ data })]. *)
Definition emailPayment_create (row : EmailPayment.t) : Tx nat :=
  fun s => Some (length (emailPayments s), with_emailPayments (emailPayments s ++ [row]) s).

(** [tx.emailPayment.update({ where: { id }, data })]. *)
Definition emailPayment_update (id : nat) (f : EmailPayment.t -> EmailPayment.t) : Tx EmailPayment.t :=
  fun s => match emailPayments s !! id with
           | Some p => Some (f p, with_emailPayments (<[id := f p]> (emailPayments s)) s)
           | None => None
           end.

(** [prisma.$transaction(body)]: commit, or roll back and rethrow. *)
Definition prisma_transaction {A} (body : Tx A) (s : Store) : option A * Store :=
  match body s with
  | Some (a, s') => (Some a, s')
  | None => (None, s)
  end.

(** First row satisfying a predicate, with its key ([findFirst], and
    [findUnique] on a unique column). *)
Fixpoint find_from {A} (p : A -> bool) (i : nat) (l : list A) : option (nat * A) :=
  match l with
  | [] => None
  | x :: r => if p x then Some (i, x) else find_from p (S i) r
  end.
Definition findFirst {A} (p : A -> bool) (l : list A) : option (nat * A) := find_from p 0 l.

(** [String.prototype.toLowerCase] on ASCII strings, where the letters A to
    Z are all it changes; the lower case of other letters is outside the
    model. *)
Definition lower_ascii (c : ascii) : ascii :=
  let n := nat_of_ascii c in
  if ((65 <=? n) && (n <=? 90))%nat then ascii_of_nat (n + 32) else c.
Fixpoint toLowerCase (s : string) : string :=
  match s with
  | EmptyString => EmptyString
  | String c r => String (lower_ascii c) (toLowerCase r)
  end.

(** ** Authentication middleware (user routes) *)

(** The [Authorization] header after JWT verification: absent, rejected by
    [jwt.verify], or verified with the [userId] of its payload. *)
Inductive Credentials := NoHeader | BadToken | Token (userId : nat).

(** [authenticateUser]: the attached [req.user.id], or the response sent. *)
Definition authenticateUser (s : Store) (c : Credentials) : nat + (nat * ErrorCode) :=
  match c with
  | NoHeader => inr (401%nat, NO_TOKEN)
  | BadToken => inr (401%nat, INVALID_TOKEN)
  | Token uid =>
      match users s !! uid with
      | None => inr (401%nat, USER_NOT_FOUND)
      | Some u =>
          if User.isSuspended u then inr (403%nat, ACCOUNT_SUSPENDED)
          else if User.isDeleted u then inr (403%nat, ACCOUNT_DELETED)
          else inl uid
      end
  end.

(** [router.post(path, authenticateUser, handler)]. *)
Definition authenticated {B A} (handler : Store -> Z -> nat -> B -> Response A * Store)
    (s : Store) (now : Z) (c : Credentials) (body : B) : Response A * Store :=
  match authenticateUser s c with
  | inl uid => handler s now uid body
  | inr (st, code) => (Failure st code, s)
  end.

(** ** P2P transfer: [UserTransactionsController.sendMoney] *)

Module SendMoneyBody.
(** [amount] is the JSON number of the body, [None] when absent;
    an absent [currency] defaults to USDC. *)
Record t := mk {
  recipientEmail : string;
  amount : option Z;
  currency : option string
}.
End SendMoneyBody.

(** [!amount]: absent, or the number zero. *)
Definition falsy_amount (a : option Z) : bool :=
  match a with
  | None => true
  | Some v => v =? 0
  end.

Definition currency_or_default (c : option string) : string :=
  match c with Some x => x | None => "USDC" end.

(** The handler up to its response.  The fraud check it starts afterwards
    without awaiting it, [checkTransaction(result.id)], is not part of this
    store effect; [checkTransaction] is modelled on its own below. *)
Definition sendMoney (s : Store) (now : Z) (senderId : nat) (body : SendMoneyBody.t)
  : Response (nat * Transaction.t) * Store :=
  let recipientEmail := SendMoneyBody.recipientEmail body in
  if String.eqb recipientEmail "" || falsy_amount (SendMoneyBody.amount body)
  then (Failure 400 MISSING_FIELDS, s) else
  let amountNum := default 0 (SendMoneyBody.amount body) in
  if amountNum <=? 0 then (Failure 400 INVALID_AMOUNT, s) else
  match users s !! senderId with
  | None => (Failure 404 SENDER_NOT_FOUND, s)
  | Some sender =>
    if User.balance sender <? amountNum then (Failure 400 INSUFFICIENT_BALANCE, s) else
    match findFirst (fun u => String.eqb (User.email u) (toLowerCase recipientEmail)) (users s) with
    | None => (Failure 404 RECIPIENT_NOT_FOUND, s)
    | Some (recipientId, recipient) =>
      if User.isSuspended recipient || User.isDeleted recipient
      then (Failure 400 RECIPIENT_UNAVAILABLE, s) else
      if Nat.eqb senderId recipientId then (Failure 400 CANNOT_SEND_TO_SELF, s) else
      let row := Transaction.mk senderId recipientId amountNum
                   (currency_or_default (SendMoneyBody.currency body))
                   P2P TX_COMPLETED false false now Metadata.empty in
      match prisma_transaction
              (exec user_update_balance senderId (- amountNum);
               exec user_update_balance recipientId amountNum;
               run id <- transaction_create row;
               tx_ret (id, row)) s with
      | (Some result, s') => (Success 201 result, s')
      | (None, s') => (Failure 500 SEND_MONEY_FAILED, s')
      end
    end
  end.

(** [POST /transactions/send]. *)
Definition route_transactions_send := authenticated sendMoney.

(** ** Email payments: [UserEmailPaymentsController] *)

Module SendViaEmailBody.
Record t := mk {
  recipientEmail : string;
  amount : option Z;
  expiryDays : option Z;
  currency : option string
}.
End SendViaEmailBody.

(** JavaScript [v || d] on a number that may be absent. *)
Definition or_default (v : option Z) (d : Z) : Z :=
  match v with
  | Some x => if x =? 0 then d else x
  | None => d
  end.

Definition msPerDay : Z := 24 * 60 * 60 * 1000.

(** *** Dates

    A [Date] is its time value, in milliseconds of UTC; [None] stands for
    NaN, the time value of an invalid Date. *)

(** The time zone of the process as [Date] sees it, ECMAScript's
    [LocalTZA(t, isUTC)]: the offset of local time, in milliseconds, at the
    UTC time [t] ([atUTC]) and at the local time [t] ([atLocal]). *)
Module TimeZone.
Record t := mk {
  atUTC : Z -> Z;
  atLocal : Z -> Z
}.
End TimeZone.

(** A process running in UTC. *)
Definition utc : TimeZone.t := TimeZone.mk (fun _ => 0) (fun _ => 0).

Definition LocalTime (zone : TimeZone.t) (t : Z) : Z := t + TimeZone.atUTC zone t.

Definition UTC (zone : TimeZone.t) (t : Z) : Z := t - TimeZone.atLocal zone t.

Definition TimeClip (time : Z) : option Z :=
  if 8640000000000000 <? Z.abs time then None else Some time.

(** [d.setDate(d.getDate() + days)] for the Date [d] of time value [t] and
    an integer [days]: [MakeDay] moves the day of local time by [days],
    [MakeDate] keeps the time within the day, and the result is taken back
    to UTC and clipped. *)
Definition addDays (zone : TimeZone.t) (t : Z) (days : Z) : option Z :=
  TimeClip (UTC zone (LocalTime zone t + days * msPerDay)).

(** A [Date] passed to the database client as a column value: an invalid
    Date makes the statement throw. *)
Definition date_value (d : option Z) : Tx Z :=
  fun s => match d with
           | Some t => Some (t, s)
           | None => None
           end.

(** [claimCode] is the value drawn by [crypto.randomBytes(16)] and [zone]
    the time zone in which the expiry date is computed. *)
Definition sendViaEmail (zone : TimeZone.t) (claimCode : string) (s : Store) (now : Z)
    (senderId : nat) (body : SendViaEmailBody.t) : Response (nat * EmailPayment.t) * Store :=
  let recipientEmail := SendViaEmailBody.recipientEmail body in
  if String.eqb recipientEmail "" || falsy_amount (SendViaEmailBody.amount body)
  then (Failure 400 MISSING_FIELDS, s) else
  let amountNum := default 0 (SendViaEmailBody.amount body) in
  if amountNum <=? 0 then (Failure 400 INVALID_AMOUNT, s) else
  match users s !! senderId with
  | None => (Failure 404 SENDER_NOT_FOUND, s)
  | Some sender =>
    if User.balance sender <? amountNum then (Failure 400 INSUFFICIENT_BALANCE, s) else
    let expiresAt := addDays zone now (or_default (SendViaEmailBody.expiryDays body) 7) in
    match prisma_transaction
            (exec user_update_balance senderId (- amountNum);
             run expiresAt <- date_value expiresAt;
             let row := EmailPayment.mk senderId (toLowerCase recipientEmail) amountNum
                          (currency_or_default (SendViaEmailBody.currency body))
                          claimCode expiresAt EP_PENDING None in
             run id <- emailPayment_create row;
             tx_ret (id, row)) s with
    | (Some result, s') => (Success 201 result, s')
    | (None, s') => (Failure 500 SEND_VIA_EMAIL_FAILED, s')
    end
  end.

Definition isPending (p : EmailPayment.t) : bool :=
  match EmailPayment.status p with EP_PENDING => true | _ => false end.

Definition claimPayment (s : Store) (now : Z) (userId : nat) (claimCode : string)
  : Response EmailPayment.t * Store :=
  if String.eqb claimCode "" then (Failure 400 MISSING_CLAIM_CODE, s) else
  match findFirst (fun p => String.eqb (EmailPayment.claimCode p) claimCode && isPending p)
                  (emailPayments s) with
  | None => (Failure 404 PAYMENT_NOT_FOUND, s)
  | Some (paymentId, emailPayment) =>
    if EmailPayment.expiresAt emailPayment <? now then (Failure 400 PAYMENT_EXPIRED, s) else
    match users s !! userId with
    | None => (Failure 404 USER_NOT_FOUND, s)
    | Some user =>
      if negb (String.eqb (User.email user) (EmailPayment.recipientEmail emailPayment))
      then (Failure 403 UNAUTHORIZED, s) else
      let row := Transaction.mk (EmailPayment.senderId emailPayment) userId
                   (EmailPayment.amount emailPayment) (EmailPayment.currency emailPayment)
                   EMAIL_PAYMENT TX_COMPLETED false false now
                   (Metadata.mk None (Some paymentId) None) in
      match prisma_transaction
              (run updatedPayment <- emailPayment_update paymentId (EmailPayment.claim userId);
               exec user_update_balance userId (EmailPayment.amount emailPayment);
               exec transaction_create row;
               tx_ret updatedPayment) s with
      | (Some result, s') => (Success 200 result, s')
      | (None, s') => (Failure 500 CLAIM_PAYMENT_FAILED, s')
      end
    end
  end.

Definition cancelPayment (s : Store) (now : Z) (userId : nat) (id : nat)
  : Response EmailPayment.t * Store :=
  match emailPayments s !! id with
  | None => (Failure 404 PAYMENT_NOT_FOUND, s)
  | Some emailPayment =>
    if negb (Nat.eqb (EmailPayment.senderId emailPayment) userId)
    then (Failure 404 PAYMENT_NOT_FOUND, s) else
    if negb (isPending emailPayment) then (Failure 400 PAYMENT_NOT_PENDING, s) else
    match prisma_transaction
            (run updatedPayment <- emailPayment_update id EmailPayment.cancel;
             exec user_update_balance userId (EmailPayment.amount emailPayment);
             tx_ret updatedPayment) s with
    | (Some result, s') => (Success 200 result, s')
    | (None, s') => (Failure 500 CANCEL_PAYMENT_FAILED, s')
    end
  end.

(** [AdminEmailPaymentsController.cancelEmailPayment]. *)
Definition cancelEmailPayment (s : Store) (now : Z) (id : nat) (reason : string)
  : Response EmailPayment.t * Store :=
  if String.eqb reason "" then (Failure 400 MISSING_REASON, s) else
  match emailPayments s !! id with
  | None => (Failure 404 EMAIL_PAYMENT_NOT_FOUND, s)
  | Some emailPayment =>
    if negb (isPending emailPayment) then (Failure 400 INVALID_PAYMENT_STATUS, s) else
    match prisma_transaction
            (run updatedPayment <- emailPayment_update id EmailPayment.cancel;
             exec user_update_balance (EmailPayment.senderId emailPayment)
                    (EmailPayment.amount emailPayment);
             tx_ret updatedPayment) s with
    | (Some result, s') => (Success 200 result, s')
    | (None, s') => (Failure 500 CANCEL_EMAIL_PAYMENT_FAILED, s')
    end
  end.

(** ** Disputes *)

Module FileDisputeBody.
Record t := mk {
  transactionId : option nat;
  reason : string;
  description : string
}.
End FileDisputeBody.

(** [UserDisputesController.fileDispute]. *)
Definition fileDispute (s : Store) (now : Z) (userId : nat) (body : FileDisputeBody.t)
  : Response (nat * Dispute.t) * Store :=
  match FileDisputeBody.transactionId body with
  | None => (Failure 400 MISSING_FIELDS, s)
  | Some transactionId =>
    if String.eqb (FileDisputeBody.reason body) ""
       || String.eqb (FileDisputeBody.description body) ""
    then (Failure 400 MISSING_FIELDS, s) else
    match transactions s !! transactionId with
    | None => (Failure 404 TRANSACTION_NOT_FOUND, s)
    | Some transaction =>
      if negb (Nat.eqb (Transaction.senderId transaction) userId
               || Nat.eqb (Transaction.recipientId transaction) userId)
      then (Failure 404 TRANSACTION_NOT_FOUND, s) else
      match findFirst (fun d => Nat.eqb (Dispute.transactionId d) transactionId
                                && Nat.eqb (Dispute.userId d) userId) (disputes s) with
      | Some _ => (Failure 400 DISPUTE_EXISTS, s)
      | None =>
        let row := Dispute.mk userId transactionId OPEN None None in
        (Success 201 (length (disputes s), row), with_disputes (disputes s ++ [row]) s)
      end
    end
  end.

Module ResolveDisputeBody.
Record t := mk {
  resolution : string;
  refundAmount : option Z
}.
End ResolveDisputeBody.

(** [refundAmount ? parseFloat(refundAmount) : null]. *)
Definition truthy_amount (a : option Z) : option Z :=
  match a with
  | Some v => if v =? 0 then None else Some v
  | None => None
  end.

Definition isClosedStatus (st : DisputeStatus) : bool :=
  match st with RESOLVED | CLOSED => true | _ => false end.

(** The refund of [AdminDisputesController.resolveDispute]: the body of its
    [prisma.$transaction], reading the disputed transaction loaded with the
    dispute. *)
Definition disputeRefund (disputeId : nat) (original : Transaction.t) (originalId : nat)
    (refundAmountNum : Z) (now : Z) : Tx nat :=
  exec user_update_balance (Transaction.senderId original) refundAmountNum;
  exec user_update_balance (Transaction.recipientId original) (- refundAmountNum);
  transaction_create
    (Transaction.mk (Transaction.recipientId original) (Transaction.senderId original)
       refundAmountNum (Transaction.currency original) REFUND TX_COMPLETED false false now
       (Metadata.mk (Some originalId) None (Some disputeId))).

Definition resolved (body : ResolveDisputeBody.t) (d : Dispute.t) : Dispute.t :=
  Dispute.mk (Dispute.userId d) (Dispute.transactionId d) RESOLVED
    (Some (ResolveDisputeBody.resolution body))
    (truthy_amount (ResolveDisputeBody.refundAmount body)).

(** The response carries the updated dispute and [refundTransactionId]. *)
Definition resolveDispute (s : Store) (now : Z) (id : nat) (body : ResolveDisputeBody.t)
  : Response (Dispute.t * option nat) * Store :=
  if String.eqb (ResolveDisputeBody.resolution body) "" then (Failure 400 MISSING_RESOLUTION, s) else
  match disputes s !! id with
  | None => (Failure 404 DISPUTE_NOT_FOUND, s)
  | Some dispute =>
    if isClosedStatus (Dispute.status dispute) then (Failure 400 DISPUTE_ALREADY_RESOLVED, s) else
    let finish (refundTransactionId : option nat) (s1 : Store) :=
      (Success 200 (resolved body dispute, refundTransactionId),
       with_disputes (<[id := resolved body dispute]> (disputes s1)) s1) in
    match ResolveDisputeBody.refundAmount body with
    | Some refundAmountNum =>
      if 0 <? refundAmountNum then
        match transactions s !! Dispute.transactionId dispute with
        | None => (Failure 500 RESOLVE_DISPUTE_FAILED, s)
        | Some original =>
          if Transaction.amount original <? refundAmountNum
          then (Failure 400 INVALID_REFUND_AMOUNT, s) else
          match prisma_transaction
                  (disputeRefund id original (Dispute.transactionId dispute) refundAmountNum now) s with
          | (Some refundResult, s1) => finish (Some refundResult) s1
          | (None, s1) => (Failure 500 RESOLVE_DISPUTE_FAILED, s1)
          end
        end
      else finish None s
    | None => finish None s
    end
  end.

(** [AdminTransactionsController.refundTransaction]. *)
Definition refundTransaction (s : Store) (now : Z) (id : nat) (reason : string)
  : Response (Transaction.t * nat) * Store :=
  if String.eqb reason "" then (Failure 400 MISSING_REASON, s) else
  match transactions s !! id with
  | None => (Failure 404 TRANSACTION_NOT_FOUND, s)
  | Some transaction =>
    match Transaction.status transaction with
    | TX_COMPLETED =>
      if Transaction.isRefunded transaction then (Failure 400 ALREADY_REFUNDED, s) else
      match prisma_transaction
              (run updatedTransaction <- transaction_update id Transaction.markRefunded;
               exec user_update_balance (Transaction.senderId transaction)
                      (Transaction.amount transaction);
               exec user_update_balance (Transaction.recipientId transaction)
                      (- Transaction.amount transaction);
               run refundId <- transaction_create
                 (Transaction.mk (Transaction.recipientId transaction)
                    (Transaction.senderId transaction) (Transaction.amount transaction)
                    (Transaction.currency transaction) REFUND TX_COMPLETED false false now
                    (Metadata.mk (Some id) None None));
               tx_ret (updatedTransaction, refundId)) s with
      | (Some result, s') => (Success 200 result, s')
      | (None, s') => (Failure 500 REFUND_FAILED, s')
      end
    | _ => (Failure 400 INVALID_TRANSACTION_STATUS, s)
    end
  end.

(** ** Fraud service: [AdminFraudService] *)

(** Member [k] of a JSON object. *)
Fixpoint json_get (k : string) (o : list (string * Z)) : option Z :=
  match o with
  | [] => None
  | (k', v) :: r => if String.eqb k' k then Some v else json_get k r
  end.

(** The [transaction] argument of [checkTransaction]: a transaction row with
    its key and, when the caller loaded it, the [sender] relation. *)
Module CheckedTransaction.
Record t := mk {
  id : nat;
  row : Transaction.t;
  sender : option User.t
}.
End CheckedTransaction.

(** [prisma.transaction.count({ where: { senderId, createdAt: { gte } } })]. *)
Definition countRecentTransactions (senderId : nat) (startTime : Z) (ts : list Transaction.t) : Z :=
  Z.of_nat (length (List.filter
    (fun x => Nat.eqb (Transaction.senderId x) senderId && (startTime <=? Transaction.createdAt x))
    ts)).

Definition checkVelocity (s : Store) (now : Z) (conditions : list (string * Z))
    (transaction : CheckedTransaction.t) : bool :=
  let timeWindow := or_default (json_get "timeWindowMinutes" conditions) 60 in
  let maxTransactions := or_default (json_get "maxTransactions" conditions) 10 in
  let startTime := now - timeWindow * 60 * 1000 in
  let recentTransactions :=
    countRecentTransactions (Transaction.senderId (CheckedTransaction.row transaction))
      startTime (transactions s) in
  recentTransactions >=? maxTransactions.

Definition checkAmountThreshold (conditions : list (string * Z))
    (transaction : CheckedTransaction.t) : bool :=
  let threshold := or_default (json_get "threshold" conditions) 10000 in
  Transaction.amount (CheckedTransaction.row transaction) >=? threshold.

Definition checkGeographicAnomaly (conditions : list (string * Z))
    (transaction : CheckedTransaction.t) : bool :=
  false.

(** Reading [transaction.sender.createdAt] throws when [sender] was not loaded. *)
Definition checkNewUserHighAmount (now : Z) (conditions : list (string * Z))
    (transaction : CheckedTransaction.t) : option bool :=
  match CheckedTransaction.sender transaction with
  | None => None
  | Some sender =>
    let accountAge := now - User.createdAt sender in
    let maxAge := or_default (json_get "maxAccountAgeDays" conditions) 7 * msPerDay in
    let minAmount := or_default (json_get "minAmount" conditions) 1000 in
    Some ((accountAge <? maxAge)
          && (Transaction.amount (CheckedTransaction.row transaction) >=? minAmount))
  end.

(** The [switch] on the rule type; [None] is a thrown error. *)
Definition evaluateRule (s : Store) (now : Z) (rule : FraudRule.t)
    (transaction : CheckedTransaction.t) : option bool :=
  let conditions := FraudRule.conditions rule in
  if String.eqb (FraudRule.ruleType rule) "VELOCITY"
  then Some (checkVelocity s now conditions transaction)
  else if String.eqb (FraudRule.ruleType rule) "AMOUNT_THRESHOLD"
  then Some (checkAmountThreshold conditions transaction)
  else if String.eqb (FraudRule.ruleType rule) "GEOGRAPHIC_ANOMALY"
  then Some (checkGeographicAnomaly conditions transaction)
  else if String.eqb (FraudRule.ruleType rule) "NEW_USER_HIGH_AMOUNT"
  then checkNewUserHighAmount now conditions transaction
  else Some false.

(** Rows of a table paired with their keys, from key [i] on. *)
Fixpoint keyed_from {A} (i : nat) (l : list A) : list (nat * A) :=
  match l with
  | [] => []
  | x :: r => (i, x) :: keyed_from (S i) r
  end.

(** [prisma.fraudRule.findMany({ where: { isActive: true } })]. *)
Definition activeRules (s : Store) : list (nat * FraudRule.t) :=
  List.filter (fun r => FraudRule.isActive (snd r)) (keyed_from 0 (fraudRules s)).

Definition alertFor (transaction : CheckedTransaction.t) (ruleId : nat) (rule : FraudRule.t)
  : FraudAlert.t :=
  FraudAlert.mk (CheckedTransaction.id transaction)
    (Transaction.senderId (CheckedTransaction.row transaction))
    ruleId (FraudRule.ruleType rule) (FraudRule.severity rule).

(** The [for ... of rules] loop.  Alerts are written one by one outside any
    database transaction, so those created before a throw stay. *)
Fixpoint checkRules (rules : list (nat * FraudRule.t)) (now : Z)
    (transaction : CheckedTransaction.t) (alerts : list FraudAlert.t) (s : Store)
  : option (list FraudAlert.t) * Store :=
  match rules with
  | [] => (Some alerts, s)
  | (ruleId, rule) :: rest =>
    match evaluateRule s now rule transaction with
    | None => (None, s)
    | Some true =>
      let alert := alertFor transaction ruleId rule in
      checkRules rest now transaction (alerts ++ [alert])
        (with_fraudAlerts (fraudAlerts s ++ [alert]) s)
    | Some false => checkRules rest now transaction alerts s
    end
  end.

Definition checkTransaction (s : Store) (now : Z) (transaction : CheckedTransaction.t)
  : option (list FraudAlert.t) * Store :=
  checkRules (activeRules s) now transaction [] s.



(** *** Risk score *)

Section RiskScore.

(** The [transactions] relation of the [User] model is declared in the
    Prisma schema; [userTransactions userId x] says that row [x] belongs to
    it for the user [userId]. *)
Variable userTransactions : nat -> Transaction.t -> bool.

(** [include: { transactions: { where: { createdAt: { gte } } } }]. *)
Definition includedTransactions (s : Store) (now : Z) (userId : nat) : list Transaction.t :=
  List.filter
    (fun x => userTransactions userId x && (now - 30 * msPerDay <=? Transaction.createdAt x))
    (transactions s).

(** [include: { disputes: { where: { status: { in: [OPEN, IN_PROGRESS] } } } }]. *)
Definition includedDisputes (s : Store) (userId : nat) : list Dispute.t :=
  List.filter
    (fun d => Nat.eqb (Dispute.userId d) userId
              && match Dispute.status d with OPEN | IN_PROGRESS => true | _ => false end)
    (disputes s).

Definition accountAgeDays (now : Z) (user : User.t) : Q :=
  Qmake (now - User.createdAt user) 86400000.

Definition ageFactor (now : Z) (user : User.t) : Z :=
  if Qlt_le_dec (accountAgeDays now user) (inject_Z 7) then 20
  else if Qlt_le_dec (accountAgeDays now user) (inject_Z 30) then 10
  else if Qlt_le_dec (accountAgeDays now user) (inject_Z 90) then 5
  else 0.

Definition kycFactor (user : User.t) : Z :=
  match User.kycStatus user with
  | KYC_UNVERIFIED => 15
  | KYC_PENDING => 10
  | _ => 0
  end.

Definition failedTxCount (txs : list Transaction.t) : Z :=
  Z.of_nat (length (List.filter
    (fun x => match Transaction.status x with TX_FAILED => true | _ => false end) txs)).

Definition flaggedTxCount (txs : list Transaction.t) : Z :=
  Z.of_nat (length (List.filter Transaction.isFlagged txs)).

Definition flaggedFactor (user : User.t) : Z :=
  if User.isFlagged user then 15 else 0.

Definition velocityFactor (txCount : Z) : Z :=
  (if 20 <? txCount then 10 else 0) + (if 50 <? txCount then 15 else 0).

(** The value of [score] before the cap. *)
Definition rawScore (s : Store) (now : Z) (userId : nat) (user : User.t) : Z :=
  let txs := includedTransactions s now userId in
  let score := 0 in
  let score := score + ageFactor now user in
  let score := score + kycFactor user in
  let score := score + failedTxCount txs * 3 in
  let score := score + flaggedTxCount txs * 5 in
  let score := score + Z.of_nat (length (includedDisputes s userId)) * 10 in
  let score := score + flaggedFactor user in
  let score := score + velocityFactor (Z.of_nat (length txs)) in
  score.

(** The method only reads; it is run as a store transformer so that this
    can be stated. *)
Definition calculateUserRiskScore (s : Store) (now : Z) (userId : nat) : Z * Store :=
  match users s !! userId with
  | None => (0, s)
  | Some user => (Z.min (rawScore s now userId user) 100, s)
  end.

End RiskScore.

(** The risk score in the words of the specification: an additive weighting
    over the account age, the KYC state, the failed and the flagged
    movements of the trailing 30 days, the open disputes, the flagged state
    and the number of movements over two thresholds, clamped at 100.  The
    weights are those of the source; the age is measured in milliseconds. *)
Definition countIf {A} (p : A -> bool) (l : list A) : Z :=
  foldr (fun x n => if p x then n + 1 else n) 0 l.

Definition score_spec (userTransactions : nat -> Transaction.t -> bool)
    (s : Store) (now : Z) (account : nat) : Z :=
  match users s !! account with
  | None => 0
  | Some user =>
    let age := now - User.createdAt user in
    let trailing x :=
      userTransactions account x && (now - 2592000000 <=? Transaction.createdAt x) in
    let failed x := match Transaction.status x with TX_FAILED => true | _ => false end in
    let open d := match Dispute.status d with OPEN | IN_PROGRESS => true | _ => false end in
    let movements := countIf trailing (transactions s) in
    let ageWeight :=
      if age <? 604800000 then 20
      else if age <? 2592000000 then 10
      else if age <? 7776000000 then 5
      else 0 in
    let kycWeight :=
      match User.kycStatus user with KYC_UNVERIFIED => 15 | KYC_PENDING => 10 | _ => 0 end in
    let failedCount := countIf (fun x => trailing x && failed x) (transactions s) in
    let flaggedCount := countIf (fun x => trailing x && Transaction.isFlagged x) (transactions s) in
    let openDisputes :=
      countIf (fun d => Nat.eqb (Dispute.userId d) account && open d) (disputes s) in
    let flaggedBonus := if User.isFlagged user then 15 else 0 in
    let velocity := if 50 <? movements then 25 else if 20 <? movements then 10 else 0 in
    Z.min 100 (ageWeight + kycWeight + 3 * failedCount + 5 * flaggedCount
               + 10 * openDisputes + flaggedBonus + velocity)
  end.

(** ** Value held by the system *)

Definition sumBalances (us : list User.t) : Z :=
  foldr (fun u acc => User.balance u + acc) 0 us.

(** What an email payment still holds in escrow. *)
Definition held (p : EmailPayment.t) : Z :=
  if isPending p then EmailPayment.amount p else 0.

Definition sumHeld (ps : list EmailPayment.t) : Z :=
  foldr (fun p acc => held p + acc) 0 ps.

(** All account balances plus all pending email payments. *)
Definition totalValue (s : Store) : Z :=
  sumBalances (users s) + sumHeld (emailPayments s).

(** ** Requests *)

(** The balance-affecting requests of the API, as routed. *)
Inductive Request :=
  | PostTransactionsSend (c : Credentials) (body : SendMoneyBody.t)
  | PostEmailPaymentsSend (zone : TimeZone.t) (claimCode : string) (c : Credentials)
      (body : SendViaEmailBody.t)
  | PostEmailPaymentsClaim (c : Credentials) (claimCode : string)
  | PostEmailPaymentsCancel (c : Credentials) (id : nat)
  | AdminCancelEmailPayment (id : nat) (reason : string)
  | AdminResolveDispute (id : nat) (body : ResolveDisputeBody.t)
  | AdminRefundTransaction (id : nat) (reason : string).

(** Serves one request at time [now]: whether it succeeded, and the store. *)
Definition serve (s : Store) (now : Z) (r : Request) : bool * Store :=
  match r with
  | PostTransactionsSend c body =>
      let '(res, s') := authenticated sendMoney s now c body in (isSuccess res, s')
  | PostEmailPaymentsSend zone claimCode c body =>
      let '(res, s') := authenticated (sendViaEmail zone claimCode) s now c body in
      (isSuccess res, s')
  | PostEmailPaymentsClaim c claimCode =>
      let '(res, s') := authenticated claimPayment s now c claimCode in (isSuccess res, s')
  | PostEmailPaymentsCancel c id =>
      let '(res, s') := authenticated cancelPayment s now c id in (isSuccess res, s')
  | AdminCancelEmailPayment id reason =>
      let '(res, s') := cancelEmailPayment s now id reason in (isSuccess res, s')
  | AdminResolveDispute id body =>
      let '(res, s') := resolveDispute s now id body in (isSuccess res, s')
  | AdminRefundTransaction id reason =>
      let '(res, s') := refundTransaction s now id reason in (isSuccess res, s')
  end.

(** Serves timed requests in order; [None] as soon as one is rejected. *)
Fixpoint serveAll (s : Store) (rs : list (Z * Request)) : option Store :=
  match rs with
  | [] => Some s
  | (now, r) :: rest =>
      match serve s now r with
      | (true, s') => serveAll s' rest
      | (false, _) => None
      end
  end.

(** Balance of an account, when it exists. *)
Definition balanceOf (s : Store) (id : nat) : option Z :=
  User.balance <$> users s !! id.

(** ** Predicates used in the statements *)

(** The claim code of every email payment is its own (the codes are random
    128-bit values). *)
Fixpoint uniqueClaimCodes (ps : list EmailPayment.t) : bool :=
  match ps with
  | [] => true
  | p :: r =>
      forallb (fun q => negb (String.eqb (EmailPayment.claimCode q) (EmailPayment.claimCode p))) r
      && uniqueClaimCodes r
  end.

Definition isParty (userId : nat) (x : Transaction.t) : bool :=
  Nat.eqb (Transaction.senderId x) userId || Nat.eqb (Transaction.recipientId x) userId.

(** No dispute of [userId] on [transactionId] is open or in progress. *)
Definition noActiveDispute (s : Store) (userId transactionId : nat) : bool :=
  forallb (fun d => negb (Nat.eqb (Dispute.transactionId d) transactionId
                          && Nat.eqb (Dispute.userId d) userId
                          && match Dispute.status d with OPEN | IN_PROGRESS => true | _ => false end))
          (disputes s).

(** No dispute of [userId] on [transactionId] exists, whatever its status. *)
Definition noDispute (s : Store) (userId transactionId : nat) : bool :=
  forallb (fun d => negb (Nat.eqb (Dispute.transactionId d) transactionId
                          && Nat.eqb (Dispute.userId d) userId))
          (disputes s).

(** No account is overdrawn and no email payment has a negative amount. *)
Definition nonNegative (s : Store) : Prop :=
  Forall (fun u => 0 <= User.balance u) (users s)
  /\ Forall (fun p => 0 <= EmailPayment.amount p) (emailPayments s).

(** The two refunds of the administration. *)
Definition isRefund (r : Request) : bool :=
  match r with
  | AdminResolveDispute _ _ | AdminRefundTransaction _ _ => true
  | _ => false
  end.

Definition knownRuleType (ty : string) : bool :=
  String.eqb ty "VELOCITY" || String.eqb ty "AMOUNT_THRESHOLD"
  || String.eqb ty "NEW_USER_HIGH_AMOUNT".

(** ** Sample data *)

Module Sample.
Definition userA : User.t := User.mk "a@x.com" 100 false false KYC_VERIFIED false 0.
Definition userB : User.t := User.mk "b@x.com" 0 false false KYC_VERIFIED false 0.
Definition userC : User.t := User.mk "c@x.com" 0 false false KYC_NONE false 0.
Definition suspended : User.t := User.mk "s@x.com" 500 true false KYC_VERIFIED false 0.

Definition a : nat := 0.
Definition b : nat := 1.
Definition c : nat := 2.

(** A has 100, B and C have nothing; the fourth account is suspended. *)
Definition store : Store := mkStore [userA; userB; userC; suspended] [] [] [] [] [].

Definition send (to : string) (amount : Z) : SendMoneyBody.t :=
  SendMoneyBody.mk to (Some amount) None.

Definition sendByEmail (to : string) (amount days : Z) : SendViaEmailBody.t :=
  SendViaEmailBody.mk to (Some amount) (Some days) None.

(** A transfer, two email payments, a claim and a cancellation. *)
Definition requests : list (Z * Request) :=
  [ (1000, PostTransactionsSend (Token a) (send "b@x.com" 40));
    (2000, PostEmailPaymentsSend utc "c0de01" (Token a) (sendByEmail "B@x.com" 25 7));
    (3000, PostEmailPaymentsClaim (Token b) "c0de01");
    (4000, PostEmailPaymentsSend utc "c0de02" (Token b) (sendByEmail "c@x.com" 10 7));
    (5000, PostEmailPaymentsCancel (Token b) 1%nat) ].
End Sample.

Module SampleEscrow.
(** A created an email payment of 25 for b@x.com out of a balance of 60;
    it expires at time 5000. *)
Definition hold : EmailPayment.t :=
  EmailPayment.mk Sample.a "b@x.com" 25 "USDC" "c0de01" 5000 EP_PENDING None.

Definition store : Store :=
  mkStore [User.increment (-65) Sample.userA; User.increment 40 Sample.userB]
          [] [hold] [] [] [].
End SampleEscrow.

Module SampleFraud.
Definition velocityRule : FraudRule.t :=
  FraudRule.mk "VELOCITY" [("windowMinutes", 60); ("maxTransactions", 3)] "HIGH" true.

Definition geographicRule : FraudRule.t :=
  FraudRule.mk "GEOGRAPHIC_ANOMALY" [] "MEDIUM" true.

Definition initial : Store :=
  mkStore [Sample.userA; Sample.userB] [] [] [] [velocityRule] [].

(** Four transfers of 10 from A to B, one minute apart. *)
Definition transfers : list (Z * Request) :=
  [ (60000, PostTransactionsSend (Token Sample.a) (Sample.send "b@x.com" 10));
    (120000, PostTransactionsSend (Token Sample.a) (Sample.send "b@x.com" 10));
    (180000, PostTransactionsSend (Token Sample.a) (Sample.send "b@x.com" 10));
    (240000, PostTransactionsSend (Token Sample.a) (Sample.send "b@x.com" 10)) ].

Definition store : Store := default initial (serveAll initial transfers).

(** The fourth transfer, loaded with its sender. *)
Definition fourth : CheckedTransaction.t :=
  CheckedTransaction.mk 3
    (Transaction.mk Sample.a Sample.b 10 "USDC" P2P TX_COMPLETED false false 240000
       Metadata.empty)
    (users store !! Sample.a).

(** The same ledger with a second active rule. *)
Definition twoRules : Store :=
  mkStore (users store) (transactions store) [] [] [velocityRule; geographicRule] [].

(** A ledger whose only rows of sender A are three failed transactions. *)
Definition failed (createdAt : Z) : Transaction.t :=
  Transaction.mk Sample.a Sample.b 10 "USDC" P2P TX_FAILED false false createdAt
    Metadata.empty.


End SampleFraud.

Module SampleDispute.
(** A sends 100 to B, B sends the 100 on to C, and A disputes the first
    transfer. *)
Definition transfers : list (Z * Request) :=
  [ (1000, PostTransactionsSend (Token Sample.a) (Sample.send "b@x.com" 100));
    (2000, PostTransactionsSend (Token Sample.b) (Sample.send "c@x.com" 100)) ].

Definition ledger : Store := default Sample.store (serveAll Sample.store transfers).

Definition disputed : Store :=
  snd (fileDispute ledger 3000 Sample.a (FileDisputeBody.mk (Some 0%nat) "fraud" "not received")).

(** The administration grants a refund of 30 on the dispute. *)
Definition refunded : Store :=
  snd (resolveDispute disputed 4000 0 (ResolveDisputeBody.mk "partial refund" (Some 30))).

(** The administration closes the dispute without a refund. *)
Definition dismissed : Store :=
  snd (resolveDispute disputed 4000 0 (ResolveDisputeBody.mk "dismissed" None)).

(** The administration refunds the first transfer in full. *)
Definition reversed : Store :=
  snd (refundTransaction ledger 3000 0 "sent by mistake").
End SampleDispute.

(** ** Further handlers *)

(** The response of the handlers below, over the error codes of their own
    controller. *)
Inductive Reply (E A : Type) :=
  | Accepted (httpStatus : nat) (data : A)
  | Rejected (httpStatus : nat) (code : E).
Arguments Accepted {E A} httpStatus data.
Arguments Rejected {E A} httpStatus code.

Definition isAccepted {E A} (r : Reply E A) : bool :=
  match r with Accepted _ _ => true | Rejected _ _ => false end.

(** *** [AdminUsersController]: suspension and balance adjustment *)

Module AdminUsers.
Inductive Error :=
  | MISSING_REASON | SUSPEND_USER_FAILED | UNSUSPEND_USER_FAILED
  | MISSING_FIELDS | INVALID_AMOUNT | ADJUST_BALANCE_FAILED.

(** [data: { isSuspended: b, ... }]. *)
Definition setSuspended (b : bool) (u : User.t) : User.t :=
  User.mk (User.email u) (User.balance u) b (User.isDeleted u)
    (User.kycStatus u) (User.isFlagged u) (User.createdAt u).

(** [prisma.user.update] throws on a missing row; the handler answers 500. *)
Definition suspendUser (s : Store) (id : nat) (reason : string) : Reply Error User.t * Store :=
  if String.eqb reason "" then (Rejected 400 MISSING_REASON, s) else
  match users s !! id with
  | None => (Rejected 500 SUSPEND_USER_FAILED, s)
  | Some u =>
      (Accepted 200 (setSuspended true u),
       with_users (<[id := setSuspended true u]> (users s)) s)
  end.

Definition unsuspendUser (s : Store) (id : nat) : Reply Error User.t * Store :=
  match users s !! id with
  | None => (Rejected 500 UNSUSPEND_USER_FAILED, s)
  | Some u =>
      (Accepted 200 (setSuspended false u),
       with_users (<[id := setSuspended false u]> (users s)) s)
  end.

(** [amount] is the JSON number of the body; it may be negative. *)
Definition adjustBalance (s : Store) (id : nat) (amount : option Z) (reason : string)
  : Reply Error User.t * Store :=
  if falsy_amount amount || String.eqb reason "" then (Rejected 400 MISSING_FIELDS, s) else
  let amountNum := default 0 amount in
  match users s !! id with
  | None => (Rejected 500 ADJUST_BALANCE_FAILED, s)
  | Some u =>
      (Accepted 200 (User.increment amountNum u),
       with_users (<[id := User.increment amountNum u]> (users s)) s)
  end.
End AdminUsers.

(** *** [AdminEmailPaymentsController.extendEmailPayment] and the expiry
    mark of [getSentPayments] *)

(** The number a JSON integer denotes: the double nearest to it, ties to
    even.  From [2 ^ 1024] on that is Infinity. *)
Definition toDouble (x : Z) : Z :=
  let e := Z.log2 x in
  if e <? 53 then x else
  let sh := e - 52 in
  let q := Z.shiftr x sh in
  let r := x - Z.shiftl q sh in
  let half := Z.shiftl 1 (sh - 1) in
  Z.shiftl (if (half <? r) || ((r =? half) && Z.odd q) then q + 1 else q) sh.

(** The largest power of ten that is not above [x], from [p] upwards. *)
Fixpoint powerOfTen (fuel : nat) (x p : Z) : Z :=
  match fuel with
  | O => p
  | S fuel => if x <? 10 * p then p else powerOfTen fuel x (10 * p)
  end.

(** [parseInt(days, 10)] for a positive integer [days] of the body.  The
    number is first turned into a string.  Below [10 ^ 21] that is its
    decimal notation, which is read back in full.  From [10 ^ 21] on it is
    the exponent notation with the fewest digits that still denote the
    number, and [parseInt] stops at the point or at the [e]: it reads the
    first digit, which is that of the number unless the number is written
    as the next power of ten times a digit.  [None] is NaN, the result for
    Infinity. *)
Definition parseInt10 (days : Z) : option Z :=
  let x := toDouble days in
  if 2 ^ 1024 <=? x then None
  else if x <? 10 ^ 21 then Some x
  else
    let p := powerOfTen 310 x 1 in
    let d := x / p in
    Some (if toDouble ((d + 1) * p) =? x then (if d =? 9 then 1 else d + 1) else d).

Module AdminEmailPayments.
Inductive Error :=
  | INVALID_DAYS | EMAIL_PAYMENT_NOT_FOUND | INVALID_PAYMENT_STATUS
  | EXTEND_EMAIL_PAYMENT_FAILED.

(** [data: { expiresAt: newExpiryDate }]. *)
Definition extend (newExpiryDate : Z) (p : EmailPayment.t) : EmailPayment.t :=
  EmailPayment.mk (EmailPayment.senderId p) (EmailPayment.recipientEmail p)
    (EmailPayment.amount p) (EmailPayment.currency p) (EmailPayment.claimCode p)
    newExpiryDate (EmailPayment.status p) (EmailPayment.claimedById p).

(** [days] is the integer of the body.  The new expiry date is the old one
    moved by [parseInt(days, 10)] days of the local calendar; when it is not
    a valid date, [prisma.emailPayment.update] throws and the handler
    answers 500. *)
Definition extendEmailPayment (zone : TimeZone.t) (s : Store) (id : nat) (days : option Z)
  : Reply Error EmailPayment.t * Store :=
  if falsy_amount days || (default 0 days <=? 0) then (Rejected 400 INVALID_DAYS, s) else
  match emailPayments s !! id with
  | None => (Rejected 404 EMAIL_PAYMENT_NOT_FOUND, s)
  | Some emailPayment =>
    if negb (isPending emailPayment) then (Rejected 400 INVALID_PAYMENT_STATUS, s) else
    let newExpiryDate :=
      match parseInt10 (default 0 days) with
      | Some daysNum => addDays zone (EmailPayment.expiresAt emailPayment) daysNum
      | None => None
      end in
    match newExpiryDate with
    | Some newExpiryDate =>
        (Accepted 200 (extend newExpiryDate emailPayment),
         with_emailPayments (<[id := extend newExpiryDate emailPayment]> (emailPayments s)) s)
    | None => (Rejected 500 EXTEND_EMAIL_PAYMENT_FAILED, s)
    end
  end.
End AdminEmailPayments.

(** [isExpired: payment.expiresAt < now && payment.status === 'PENDING'], the
    mark [getSentPayments] puts on each payment it lists. *)
Definition isExpired (now : Z) (payment : EmailPayment.t) : bool :=
  (EmailPayment.expiresAt payment <? now) && isPending payment.

(** *** Withdrawals *)

Inductive WithdrawalStatus := W_PENDING | W_APPROVED | W_REJECTED.

Module Withdrawal.
Record t := mk {
  userId : nat;
  amount : Z;
  solanaAddress : string;
  status : WithdrawalStatus
}.

Definition setStatus (st : WithdrawalStatus) (w : t) : t :=
  mk (userId w) (amount w) (solanaAddress w) st.
End Withdrawal.

(** The store together with the withdrawal table. *)
Record Bank := mkBank {
  ledger : Store;
  withdrawals : list Withdrawal.t
}.

Module Withdrawals.
Inductive Error :=
  | MISSING_FIELDS | INVALID_AMOUNT | USER_NOT_FOUND | KYC_REQUIRED | INSUFFICIENT_BALANCE
  | MISSING_REASON | WITHDRAWAL_NOT_FOUND | INVALID_WITHDRAWAL_STATUS
  | APPROVE_WITHDRAWAL_FAILED.

Definition isVerified (u : User.t) : bool :=
  match User.kycStatus u with KYC_VERIFIED => true | _ => false end.

Definition isPendingW (w : Withdrawal.t) : bool :=
  match Withdrawal.status w with W_PENDING => true | _ => false end.

(** [UserWithdrawalsController.requestWithdrawal]. *)
Definition requestWithdrawal (b : Bank) (userId : nat) (amount : option Z)
    (solanaAddress : string) : Reply Error (nat * Withdrawal.t) * Bank :=
  if falsy_amount amount || String.eqb solanaAddress "" then (Rejected 400 MISSING_FIELDS, b) else
  let amountNum := default 0 amount in
  if amountNum <=? 0 then (Rejected 400 INVALID_AMOUNT, b) else
  match users (ledger b) !! userId with
  | None => (Rejected 404 USER_NOT_FOUND, b)
  | Some user =>
    if negb (isVerified user) then (Rejected 403 KYC_REQUIRED, b) else
    if User.balance user <? amountNum then (Rejected 400 INSUFFICIENT_BALANCE, b) else
    let row := Withdrawal.mk userId amountNum solanaAddress W_PENDING in
    (Accepted 201 (length (withdrawals b), row),
     mkBank (ledger b) (withdrawals b ++ [row]))
  end.

(** [AdminWithdrawalsController.approveWithdrawal]; the withdrawal is loaded
    with its user, and reading the balance of a missing user throws. *)
Definition approveWithdrawal (b : Bank) (id : nat) : Reply Error Withdrawal.t * Bank :=
  match withdrawals b !! id with
  | None => (Rejected 404 WITHDRAWAL_NOT_FOUND, b)
  | Some withdrawal =>
    if negb (isPendingW withdrawal) then (Rejected 400 INVALID_WITHDRAWAL_STATUS, b) else
    match users (ledger b) !! Withdrawal.userId withdrawal with
    | None => (Rejected 500 APPROVE_WITHDRAWAL_FAILED, b)
    | Some user =>
      if User.balance user <? Withdrawal.amount withdrawal
      then (Rejected 400 INSUFFICIENT_BALANCE, b) else
      match prisma_transaction
              (user_update_balance (Withdrawal.userId withdrawal)
                 (- Withdrawal.amount withdrawal)) (ledger b) with
      | (Some _, l') =>
          (Accepted 200 (Withdrawal.setStatus W_APPROVED withdrawal),
           mkBank l' (<[id := Withdrawal.setStatus W_APPROVED withdrawal]> (withdrawals b)))
      | (None, _) => (Rejected 500 APPROVE_WITHDRAWAL_FAILED, b)
      end
    end
  end.

(** [AdminWithdrawalsController.rejectWithdrawal]. *)
Definition rejectWithdrawal (b : Bank) (id : nat) (reason : string)
  : Reply Error Withdrawal.t * Bank :=
  if String.eqb reason "" then (Rejected 400 MISSING_REASON, b) else
  match withdrawals b !! id with
  | None => (Rejected 404 WITHDRAWAL_NOT_FOUND, b)
  | Some withdrawal =>
    if negb (isPendingW withdrawal) then (Rejected 400 INVALID_WITHDRAWAL_STATUS, b) else
    (Accepted 200 (Withdrawal.setStatus W_REJECTED withdrawal),
     mkBank (ledger b) (<[id := Withdrawal.setStatus W_REJECTED withdrawal]> (withdrawals b)))
  end.
End Withdrawals.

(** *** Fraud rules and risk level: [AdminFraudController] *)

Module AdminFraud.
Inductive Error := MISSING_FIELDS | CREATE_RULE_FAILED.

Inductive RiskLevel := HIGH | MEDIUM | LOW.

Module CreateRuleBody.
Record t := mk {
  name : string;
  ruleType : string;
  conditions : option (list (string * Z));
  severity : string
}.
End CreateRuleBody.



(** [riskScore >= 70 ? 'HIGH' : riskScore >= 40 ? 'MEDIUM' : 'LOW']. *)
Definition riskLevel (riskScore : Z) : RiskLevel :=
  if riskScore >=? 70 then HIGH else if riskScore >=? 40 then MEDIUM else LOW.

(** [AdminFraudController.calculateRiskScore]: always answers 200. *)
Definition calculateRiskScore (userTransactions : nat -> Transaction.t -> bool)
    (s : Store) (now : Z) (userId : nat) : Reply Error (nat * Z * RiskLevel) * Store :=
  let '(riskScore, s') := calculateUserRiskScore userTransactions s now userId in
  (Accepted 200 (userId, riskScore, riskLevel riskScore), s').
End AdminFraud.

(** *** Permission gates: [rbac.middleware] *)

Module Rbac.
Inductive Error := UNAUTHORIZED | INSUFFICIENT_PERMISSIONS | INSUFFICIENT_ROLE.

(** [req.admin], as attached by the admin authentication. *)
Record Admin := mkAdmin {
  role : string;
  permissions : list string
}.

(** What a middleware does: call [next()] or answer. *)
Inductive Gate := Next | Answer (httpStatus : nat) (code : Error).

Definition includes (l : list string) (x : string) : bool :=
  existsb (String.eqb x) l.

Definition requirePermission (required : list string) (admin : option Admin) : Gate :=
  match admin with
  | None => Answer 401 UNAUTHORIZED
  | Some a =>
    if String.eqb (role a) "SUPER_ADMIN" then Next else
    let hasPermission := existsb (fun permission => includes (permissions a) permission) required in
    if negb hasPermission then Answer 403 INSUFFICIENT_PERMISSIONS else Next
  end.

Definition requireRole (roles : list string) (admin : option Admin) : Gate :=
  match admin with
  | None => Answer 401 UNAUTHORIZED
  | Some a =>
    if negb (includes roles (role a)) then Answer 403 INSUFFICIENT_ROLE else Next
  end.
End Rbac.

(** *** Sequences of requests that are not refunds *)

(** Serves timed requests in order, whether they succeed or not. *)
Fixpoint serveEach (s : Store) (rs : list (Z * Request)) : Store :=
  match rs with
  | [] => s
  | (now, r) :: rest => serveEach (snd (serve s now r)) rest
  end.

Definition isRefundTransaction (r : Request) : bool :=
  match r with AdminRefundTransaction _ _ => true | _ => false end.



Module SampleRules.
Definition newUserRule : FraudRule.t :=
  FraudRule.mk "NEW_USER_HIGH_AMOUNT" [("minAmount", 5)] "HIGH" true.

Definition thresholdRule : FraudRule.t :=
  FraudRule.mk "AMOUNT_THRESHOLD" [("threshold", 5)] "LOW" true.

Definition retiredRule : FraudRule.t :=
  FraudRule.mk "AMOUNT_THRESHOLD" [("threshold", 1)] "LOW" false.

(** The ledger of [SampleFraud.store] under four rules, the last inactive. *)
Definition store : Store :=
  mkStore (users SampleFraud.store) (transactions SampleFraud.store) [] []
          [SampleFraud.velocityRule; newUserRule; thresholdRule; retiredRule] [].



End SampleRules.

Module SampleZone.
(** Clocks five hours behind UTC until the instant [switch] and four hours
    behind from then on: the start of daylight saving time.  The local times
    skipped by the change are read with the offset from before it. *)
Definition switch : Z := 3600000.

Definition springForward : TimeZone.t :=
  TimeZone.mk (fun t => if t <? switch then -18000000 else -14400000)
              (fun t => if t <? switch - 14400000 then -18000000 else -14400000).
End SampleZone.

Module SampleBank.
(** The sample store with an empty withdrawal table; A is verified and holds
    100. *)
Definition bank : Bank := mkBank Sample.store [].

Definition requested : Bank :=
  snd (Withdrawals.requestWithdrawal bank Sample.a (Some 80) "So1anaAddre55").

Definition approved : Bank := snd (Withdrawals.approveWithdrawal requested 0).

Definition rejected : Bank := snd (Withdrawals.rejectWithdrawal requested 0 "wrong address").
End SampleBank.

(** * Properties *)

(** ** Tables: sums, lookups and searches *)

Lemma sumBalances_app (l r : list User.t) :
  sumBalances (l ++ r) = sumBalances l + sumBalances r.
Proof. induction l as [|u l IH]; simpl; [reflexivity | rewrite IH; lia]. Qed.

Lemma sumBalances_insert (l : list User.t) (i : nat) (u v : User.t) :
  l !! i = Some u ->
  sumBalances (<[i := v]> l) = sumBalances l - User.balance u + User.balance v.
Proof.
  revert i; induction l as [|w l IH]; intros [|i] H; simpl in *; try discriminate.
  - injection H as ->. lia.
  - rewrite (IH i H). lia.
Qed.

Lemma sumHeld_app (l r : list EmailPayment.t) :
  sumHeld (l ++ r) = sumHeld l + sumHeld r.
Proof. induction l as [|u l IH]; simpl; [reflexivity | rewrite IH; lia]. Qed.

Lemma sumHeld_insert (l : list EmailPayment.t) (i : nat) (p q : EmailPayment.t) :
  l !! i = Some p ->
  sumHeld (<[i := q]> l) = sumHeld l - held p + held q.
Proof.
  revert i; induction l as [|w l IH]; intros [|i] H; simpl in *; try discriminate.
  - injection H as ->. lia.
  - rewrite (IH i H). lia.
Qed.

Lemma find_from_lookup {A} (p : A -> bool) (l : list A) (k i : nat) (x : A) :
  find_from p k l = Some (i, x) ->
  (k <= i)%nat /\ l !! (i - k)%nat = Some x /\ p x = true.
Proof.
  revert k; induction l as [|y l IH]; intros k H; simpl in H; [discriminate|].
  destruct (p y) eqn:Hp.
  - injection H as <- <-. replace (k - k)%nat with 0%nat by lia. auto with lia.
  - destruct (IH _ H) as (Hle & Hl & Hx). split; [lia|]. split; [|exact Hx].
    replace (i - k)%nat with (S (i - S k)) by lia. exact Hl.
Qed.

Lemma findFirst_lookup {A} (p : A -> bool) (l : list A) (i : nat) (x : A) :
  findFirst p l = Some (i, x) -> l !! i = Some x /\ p x = true.
Proof.
  intros H. destruct (find_from_lookup _ _ _ _ _ H) as (_ & Hl & Hp).
  rewrite Nat.sub_0_r in Hl. auto.
Qed.

Lemma find_from_none {A} (p : A -> bool) (l : list A) (k : nat) :
  find_from p k l = None <-> forallb (fun x => negb (p x)) l = true.
Proof.
  revert k; induction l as [|y l IH]; intros k; simpl; [tauto|].
  destruct (p y); simpl; [split; discriminate | apply IH].
Qed.

Lemma findFirst_none {A} (p : A -> bool) (l : list A) :
  findFirst p l = None <-> forallb (fun x => negb (p x)) l = true.
Proof. apply find_from_none. Qed.

(** ** Effect of the database statements on the total value *)

Lemma user_update_balance_total (id : nat) (d : Z) (s s' : Store) (r : unit) :
  user_update_balance id d s = Some (r, s') ->
  totalValue s' = totalValue s + d
  /\ emailPayments s' = emailPayments s /\ transactions s' = transactions s
  /\ disputes s' = disputes s.
Proof.
  unfold user_update_balance. destruct (users s !! id) as [u|] eqn:Hu; [|discriminate].
  intros H; injection H as <- <-. unfold totalValue, with_users.
  cbn [users emailPayments transactions disputes].
  rewrite (sumBalances_insert _ _ _ _ Hu). cbn [User.increment User.balance].
  repeat split; lia.
Qed.

Lemma transaction_create_total (row : Transaction.t) (s s' : Store) (i : nat) :
  transaction_create row s = Some (i, s') ->
  totalValue s' = totalValue s /\ users s' = users s
  /\ emailPayments s' = emailPayments s /\ disputes s' = disputes s.
Proof. intros H; injection H as <- <-. auto. Qed.

Lemma transaction_update_total (id : nat) f (s s' : Store) (x : Transaction.t) :
  transaction_update id f s = Some (x, s') ->
  totalValue s' = totalValue s /\ users s' = users s
  /\ emailPayments s' = emailPayments s /\ disputes s' = disputes s.
Proof.
  unfold transaction_update. destruct (transactions s !! id); [|discriminate].
  intros H; injection H as <- <-. auto.
Qed.

Lemma emailPayment_create_total (row : EmailPayment.t) (s s' : Store) (i : nat) :
  emailPayment_create row s = Some (i, s') ->
  totalValue s' = totalValue s + held row.
Proof.
  intros H; injection H as <- <-. unfold totalValue, with_emailPayments.
  cbn [users emailPayments]. rewrite sumHeld_app. cbn [sumHeld foldr]. lia.
Qed.

Lemma emailPayment_update_total (id : nat) f (s s' : Store) (q : EmailPayment.t) :
  emailPayment_update id f s = Some (q, s') ->
  exists p, emailPayments s !! id = Some p /\ q = f p
            /\ totalValue s' = totalValue s - held p + held (f p)
            /\ users s' = users s.
Proof.
  unfold emailPayment_update. destruct (emailPayments s !! id) as [p|] eqn:Hp; [|discriminate].
  intros H; injection H as <- <-. exists p. unfold totalValue, with_emailPayments.
  cbn [users emailPayments]. rewrite (sumHeld_insert _ _ _ _ Hp). repeat split; lia.
Qed.

Lemma date_value_inv (d : option Z) (s s' : Store) (t : Z) :
  date_value d s = Some (t, s') -> d = Some t /\ s' = s.
Proof. unfold date_value. destruct d; [|discriminate]. intros H; injection H as <- <-. auto. Qed.

(** Splits a transaction body into its statements, one equation each; a
    date that was accepted leaves the store as it is. *)
Ltac tx_steps H :=
  repeat match type of H with
  | tx_bind ?m ?k ?s = Some _ =>
      let a := fresh "a" in let s1 := fresh "s" in let E := fresh "E" in
      unfold tx_bind at 1 in H;
      destruct (m s) as [[a s1]|] eqn:E; [|discriminate H]
  | tx_ret _ _ = Some _ => unfold tx_ret in H
  end;
  repeat match goal with
  | E : date_value _ _ = Some _ |- _ =>
      apply date_value_inv in E; destruct E as [? ->]
  end.

Ltac tx_facts :=
  repeat match goal with
  | E : user_update_balance _ _ _ = Some _ |- _ =>
      apply user_update_balance_total in E; destruct E as (? & ? & ? & ?)
  | E : transaction_create _ _ = Some _ |- _ =>
      apply transaction_create_total in E; destruct E as (? & ? & ? & ?)
  | E : transaction_update _ _ _ = Some _ |- _ =>
      apply transaction_update_total in E; destruct E as (? & ? & ? & ?)
  | E : emailPayment_create _ _ = Some _ |- _ =>
      apply emailPayment_create_total in E
  | E : emailPayment_update _ _ _ = Some _ |- _ =>
      apply emailPayment_update_total in E; destruct E as (? & ? & ? & ? & ?)
  end.

Lemma prisma_transaction_inv {A} (body : Tx A) (s s' : Store) (r : option A) :
  prisma_transaction body s = (r, s') ->
  (exists a, r = Some a /\ body s = Some (a, s')) \/ (r = None /\ s' = s).
Proof.
  unfold prisma_transaction. destruct (body s) as [[a s1]|]; intros H; injection H as <- <-; eauto.
Qed.

(** ** Every handler conserves the total value *)

Lemma sendMoney_total (s s' : Store) now uid body res :
  sendMoney s now uid body = (res, s') -> totalValue s' = totalValue s.
Proof.
  unfold sendMoney. intros H.
  repeat match type of H with
  | (if ?c then _ else _) = _ => destruct c
  | match ?x with _ => _ end = _ =>
      match x with
      | prisma_transaction _ _ => fail 1
      | _ => destruct x as [[? ?]|] + destruct x
      end
  | (Failure _ _, _) = _ => injection H as <- <-; reflexivity
  end.
  destruct (prisma_transaction _ s) as [r s1] eqn:E.
  apply prisma_transaction_inv in E as [(a & -> & E)|[-> ->]].
  - injection H as <- <-. tx_steps E. injection E as <- <-. tx_facts. lia.
  - injection H as <- <-. reflexivity.
Qed.

(** Walks through the guards of a handler; leaves the committed case. *)
Ltac handler_guards H :=
  repeat match type of H with
  | (if ?c then _ else _) = _ => destruct c eqn:?
  | match ?x with _ => _ end = _ =>
      match x with
      | prisma_transaction _ _ => fail 1
      | _ => destruct x as [[? ?]|] eqn:? + destruct x eqn:?
      end
  | (Failure _ _, _) = _ => injection H as <- <-; try reflexivity
  end.

Ltac committed H E :=
  match type of H with
  | match prisma_transaction ?b ?s with _ => _ end = _ =>
      let r := fresh "r" in let s1 := fresh "s" in let a := fresh "a" in
      destruct (prisma_transaction b s) as [r s1] eqn:E;
      apply prisma_transaction_inv in E as [(a & -> & E)|[-> ->]];
      [ injection H as <- <-; tx_steps E; try (injection E as <- <-)
      | injection H as <- <-; try reflexivity ]
  end.

Lemma held_claim (p : EmailPayment.t) (uid : nat) : held (EmailPayment.claim uid p) = 0.
Proof. reflexivity. Qed.

Lemma held_cancel (p : EmailPayment.t) : held (EmailPayment.cancel p) = 0.
Proof. reflexivity. Qed.

Lemma held_pending (p : EmailPayment.t) : isPending p = true -> held p = EmailPayment.amount p.
Proof. unfold held. intros ->. reflexivity. Qed.

Lemma sendViaEmail_total (s s' : Store) zone code now uid body res :
  sendViaEmail zone code s now uid body = (res, s') -> totalValue s' = totalValue s.
Proof.
  unfold sendViaEmail. intros H. handler_guards H. committed H E.
  tx_facts. unfold held in *. simpl in *. lia.
Qed.

Lemma claimPayment_total (s s' : Store) now uid code res :
  claimPayment s now uid code = (res, s') -> totalValue s' = totalValue s.
Proof.
  unfold claimPayment. intros H. handler_guards H. committed H E.
  match goal with F : findFirst _ _ = Some _ |- _ =>
    apply findFirst_lookup in F as [Hl Hp] end.
  apply andb_prop in Hp as [_ Hp]. tx_facts.
  match goal with L : emailPayments s !! _ = Some ?p |- _ =>
    rewrite Hl in L; injection L as <- end.
  subst. rewrite held_claim, (held_pending _ Hp) in *. lia.
Qed.

Lemma cancelPayment_total (s s' : Store) now uid id res :
  cancelPayment s now uid id = (res, s') -> totalValue s' = totalValue s.
Proof.
  unfold cancelPayment. intros H. handler_guards H. committed H E.
  tx_facts.
  match goal with L : emailPayments s !! _ = Some ?p, L' : emailPayments s !! _ = Some ?q |- _ =>
    rewrite L in L'; injection L' as <- end.
  match goal with P : negb (isPending _) = false |- _ => apply negb_false_iff in P end.
  subst. rewrite held_cancel, held_pending in * by assumption. lia.
Qed.

Lemma cancelEmailPayment_total (s s' : Store) now id reason res :
  cancelEmailPayment s now id reason = (res, s') -> totalValue s' = totalValue s.
Proof.
  unfold cancelEmailPayment. intros H. handler_guards H. committed H E.
  tx_facts.
  match goal with L : emailPayments s !! _ = Some ?p, L' : emailPayments s !! _ = Some ?q |- _ =>
    rewrite L in L'; injection L' as <- end.
  match goal with P : negb (isPending _) = false |- _ => apply negb_false_iff in P end.
  subst. rewrite held_cancel, held_pending in * by assumption. lia.
Qed.

Lemma with_disputes_total (ds : list Dispute.t) (s : Store) :
  totalValue (with_disputes ds s) = totalValue s.
Proof. reflexivity. Qed.

Lemma resolveDispute_total (s s' : Store) now id body res :
  resolveDispute s now id body = (res, s') -> totalValue s' = totalValue s.
Proof.
  unfold resolveDispute. intros H. handler_guards H.
  - committed H E. unfold disputeRefund in E. tx_steps E. tx_facts.
    rewrite with_disputes_total. lia.
  - injection H as <- <-. apply with_disputes_total.
  - injection H as <- <-. apply with_disputes_total.
Qed.

Lemma refundTransaction_total (s s' : Store) now id reason res :
  refundTransaction s now id reason = (res, s') -> totalValue s' = totalValue s.
Proof.
  unfold refundTransaction. intros H. handler_guards H. committed H E.
  tx_facts. lia.
Qed.

Lemma authenticated_total {B A} (h : Store -> Z -> nat -> B -> Response A * Store)
    (s s' : Store) now c body res :
  (forall s s' now uid body res, h s now uid body = (res, s') -> totalValue s' = totalValue s) ->
  authenticated h s now c body = (res, s') -> totalValue s' = totalValue s.
Proof.
  intros Hh. unfold authenticated. destruct (authenticateUser s c) as [uid|[st code]].
  - apply Hh.
  - intros H; injection H as <- <-; reflexivity.
Qed.

Lemma serve_total (s s' : Store) (now : Z) (r : Request) (ok : bool) :
  serve s now r = (ok, s') -> totalValue s' = totalValue s.
Proof.
  destruct r; simpl;
    match goal with |- (let '(_, _) := ?e in _) = _ -> _ =>
      destruct e as [res s1] eqn:E end;
    intros H; injection H as <- <-.
  - eapply authenticated_total; [|exact E]. apply sendMoney_total.
  - eapply authenticated_total; [|exact E]. intros *; apply sendViaEmail_total.
  - eapply authenticated_total; [|exact E]. apply claimPayment_total.
  - eapply authenticated_total; [|exact E]. apply cancelPayment_total.
  - eapply cancelEmailPayment_total; exact E.
  - eapply resolveDispute_total; exact E.
  - eapply refundTransaction_total; exact E.
Qed.

(** ** Conservation *)

(** C2. Whatever sequence of successful requests is served (transfers,
    email payments created, claimed or cancelled, and the refunds of the
    administration), the sum of all account balances and of all pending
    email payments is the same afterwards as before. *)
Theorem conservation_of_value (rs : list (Z * Request)) (s s' : Store) :
  serveAll s rs = Some s' -> totalValue s' = totalValue s.
Proof.
  revert s; induction rs as [|[now r] rs IH]; intros s; simpl.
  - intros H; injection H as <-; reflexivity.
  - destruct (serve s now r) as [[|] s1] eqn:E; [|discriminate].
    intros H. rewrite (IH _ H). exact (serve_total _ _ _ _ _ E).
Qed.

Lemma conservation_of_value_witness :
  exists s', serveAll Sample.store Sample.requests = Some s'
             /\ totalValue s' = totalValue Sample.store.
Proof.
  eexists. split.
  - vm_compute. reflexivity.
  - apply (conservation_of_value Sample.requests Sample.store). vm_compute. reflexivity.
Defined.

(** ** Transfers *)

Lemma balanceOf_insert_eq (s : Store) (i : nat) (u v : User.t) :
  users s !! i = Some u ->
  User.balance <$> (<[i := v]> (users s)) !! i = Some (User.balance v).
Proof.
  intros H. rewrite list_lookup_insert_eq; [reflexivity|].
  eapply lookup_lt_Some; exact H.
Qed.

(** C1. With 100 on account A and nothing on account B, sending 40 from A
    to B succeeds: A holds 60, B holds 40 and exactly one completed
    transaction is recorded.  Sending 80 afterwards is rejected with
    INSUFFICIENT_BALANCE and the store, hence both balances, stays as it is. *)
Theorem transfer_scenario (s : Store) (now1 now2 : Z) (a b : nat) (ua ub : User.t)
    (e : string) (cur : option string) :
  String.eqb e "" = false ->
  users s !! a = Some ua -> User.balance ua = 100 ->
  findFirst (fun u => String.eqb (User.email u) (toLowerCase e)) (users s) = Some (b, ub) ->
  User.balance ub = 0 -> User.isSuspended ub = false -> User.isDeleted ub = false ->
  a <> b ->
  exists (movement : Transaction.t) (s1 : Store),
    sendMoney s now1 a (SendMoneyBody.mk e (Some 40) cur)
      = (Success 201 (length (transactions s), movement), s1)
    /\ balanceOf s1 a = Some 60 /\ balanceOf s1 b = Some 40
    /\ transactions s1 = transactions s ++ [movement]
    /\ Transaction.status movement = TX_COMPLETED
    /\ Transaction.senderId movement = a /\ Transaction.recipientId movement = b
    /\ Transaction.amount movement = 40
    /\ sendMoney s1 now2 a (SendMoneyBody.mk e (Some 80) cur)
         = (Failure 400 INSUFFICIENT_BALANCE, s1)
    /\ balanceOf s1 a = Some 60 /\ balanceOf s1 b = Some 40.
Proof.
  intros He Ha Hba Hf Hbb Hsus Hdel Hab.
  destruct (findFirst_lookup _ _ _ _ Hf) as [Hb _].
  assert (Hla : (a < length (users s))%nat) by (eapply lookup_lt_Some; exact Ha).
  assert (Hlb : (b < length (users s))%nat) by (eapply lookup_lt_Some; exact Hb).
  assert (Hneq : Nat.eqb a b = false) by (apply Nat.eqb_neq; exact Hab).
  set (us1 := <[b := User.increment 40 ub]> (<[a := User.increment (-40) ua]> (users s))).
  assert (Hua1 : us1 !! a = Some (User.increment (-40) ua)).
  { unfold us1. rewrite list_lookup_insert_ne by auto.
    apply list_lookup_insert_eq; exact Hla. }
  assert (Hub1 : us1 !! b = Some (User.increment 40 ub)).
  { unfold us1. apply list_lookup_insert_eq. rewrite length_insert; exact Hlb. }
  set (movement := Transaction.mk a b 40 (currency_or_default cur) P2P TX_COMPLETED
                      false false now1 Metadata.empty).
  set (s1 := with_transactions (transactions s ++ [movement]) (with_users us1 s)).
  exists movement, s1.
  assert (Hfirst : sendMoney s now1 a (SendMoneyBody.mk e (Some 40) cur)
                   = (Success 201 (length (transactions s), movement), s1)).
  { unfold sendMoney. cbn [SendMoneyBody.recipientEmail SendMoneyBody.amount
      SendMoneyBody.currency falsy_amount default].
    rewrite He, Ha, Hba, Hf, Hsus, Hdel, Hneq. cbn [orb Z.eqb Z.leb Z.ltb Z.compare
      Pos.compare Pos.compare_cont].
    unfold prisma_transaction, tx_bind, user_update_balance.
    rewrite Ha. cbn [users with_users].
    rewrite list_lookup_insert_ne by auto. rewrite Hb. reflexivity. }
  split; [exact Hfirst|].
  assert (Hbal_a : balanceOf s1 a = Some 60).
  { unfold balanceOf, s1. cbn [users with_transactions with_users]. rewrite Hua1.
    cbn. rewrite Hba. reflexivity. }
  assert (Hbal_b : balanceOf s1 b = Some 40).
  { unfold balanceOf, s1. cbn [users with_transactions with_users]. rewrite Hub1.
    cbn. rewrite Hbb. reflexivity. }
  repeat split; try assumption; try reflexivity.
  unfold sendMoney, s1. cbn [SendMoneyBody.recipientEmail SendMoneyBody.amount
    SendMoneyBody.currency falsy_amount default users with_transactions with_users].
  rewrite He, Hua1. cbn [User.increment User.balance]. rewrite Hba. reflexivity.
Qed.

Lemma transfer_scenario_witness :
  exists (movement : Transaction.t) (s1 : Store),
    sendMoney Sample.store 1000 Sample.a (SendMoneyBody.mk "b@x.com" (Some 40) None)
      = (Success 201 (length (transactions Sample.store), movement), s1)
    /\ balanceOf s1 Sample.a = Some 60 /\ balanceOf s1 Sample.b = Some 40
    /\ transactions s1 = transactions Sample.store ++ [movement]
    /\ Transaction.status movement = TX_COMPLETED
    /\ Transaction.senderId movement = Sample.a /\ Transaction.recipientId movement = Sample.b
    /\ Transaction.amount movement = 40
    /\ sendMoney s1 2000 Sample.a (SendMoneyBody.mk "b@x.com" (Some 80) None)
         = (Failure 400 INSUFFICIENT_BALANCE, s1)
    /\ balanceOf s1 Sample.a = Some 60 /\ balanceOf s1 Sample.b = Some 40.
Proof.
  apply (transfer_scenario Sample.store 1000 2000 Sample.a Sample.b Sample.userA Sample.userB
           "b@x.com" None); try reflexivity.
  unfold Sample.a, Sample.b. lia.
Defined.

(** C8. A transfer request made with the credentials of a suspended or
    deleted account is answered 403 with ACCOUNT_SUSPENDED or ACCOUNT_DELETED
    by the authentication step of the route, and the store is left as it
    was: no balance moves and no transaction is recorded. *)
Theorem suspended_sender_rejected (s : Store) (now : Z) (uid : nat) (u : User.t)
    (body : SendMoneyBody.t) :
  users s !! uid = Some u ->
  User.isSuspended u || User.isDeleted u = true ->
  exists code,
    route_transactions_send s now (Token uid) body = (Failure 403 code, s)
    /\ (code = ACCOUNT_SUSPENDED \/ code = ACCOUNT_DELETED).
Proof.
  intros Hu Hflag. unfold route_transactions_send, authenticated, authenticateUser.
  rewrite Hu. destruct (User.isSuspended u); [eauto|].
  simpl in Hflag. rewrite Hflag. eauto.
Qed.

Lemma suspended_sender_rejected_witness :
  exists code,
    route_transactions_send Sample.store 1000 (Token 3%nat) (Sample.send "b@x.com" 40)
      = (Failure 403 code, Sample.store)
    /\ (code = ACCOUNT_SUSPENDED \/ code = ACCOUNT_DELETED).
Proof.
  apply (suspended_sender_rejected Sample.store 1000 3%nat Sample.suspended); reflexivity.
Defined.

(** ** Claiming an email payment *)

(** Claim codes that are unique as a boolean check are unique as keys. *)
Lemma uniqueClaimCodes_inj (l : list EmailPayment.t) :
  uniqueClaimCodes l = true ->
  forall i j p q, l !! i = Some p -> l !! j = Some q ->
    EmailPayment.claimCode p = EmailPayment.claimCode q -> i = j.
Proof.
  induction l as [|x l IH]; intros Hu i j p q Hi Hj Hc; [discriminate|].
  simpl in Hu. apply andb_prop in Hu as [Hx Hl].
  rewrite forallb_forall in Hx.
  destruct i as [|i], j as [|j]; simpl in *.
  - reflexivity.
  - injection Hi as ->. exfalso.
    assert (Hin : In q l) by (apply list_elem_of_In, list_elem_of_lookup; eauto).
    specialize (Hx _ Hin). rewrite Hc, String.eqb_refl in Hx. discriminate.
  - injection Hj as ->. exfalso.
    assert (Hin : In p l) by (apply list_elem_of_In, list_elem_of_lookup; eauto).
    specialize (Hx _ Hin). rewrite Hc, String.eqb_refl in Hx. discriminate.
  - f_equal. eapply IH; eauto.
Qed.

Lemma uniqueClaimCodes_claimed (l : list EmailPayment.t) (i : nat) (p q : EmailPayment.t) :
  (forall i j p q, l !! i = Some p -> l !! j = Some q ->
     EmailPayment.claimCode p = EmailPayment.claimCode q -> i = j) ->
  l !! i = Some p -> EmailPayment.claimCode q = EmailPayment.claimCode p ->
  forall j x, (<[i := q]> l) !! j = Some x ->
    EmailPayment.claimCode x = EmailPayment.claimCode p -> j = i /\ x = q.
Proof.
  intros Hu Hp Hq j x Hj Hc.
  destruct (decide (i = j)) as [->|Hne].
  - rewrite list_lookup_insert_eq in Hj by (eapply lookup_lt_Some; exact Hp).
    injection Hj as ->. auto.
  - rewrite list_lookup_insert_ne in Hj by exact Hne.
    exfalso. apply Hne. symmetry. eapply Hu; eauto.
Qed.

(** With unique codes, the search of [claimPayment] finds the payment that
    carries the code exactly when that payment is pending. *)
Lemma findFirst_claimCode (l : list EmailPayment.t) (i : nat) (h : EmailPayment.t) :
  (forall j x, l !! j = Some x ->
     EmailPayment.claimCode x = EmailPayment.claimCode h -> j = i /\ x = h) ->
  l !! i = Some h ->
  findFirst (fun p => String.eqb (EmailPayment.claimCode p) (EmailPayment.claimCode h)
                      && isPending p) l
  = if isPending h then Some (i, h) else None.
Proof.
  intros Hu Hh.
  destruct (findFirst _ l) as [[j x]|] eqn:F.
  - apply findFirst_lookup in F as [Hj Hp]. apply andb_prop in Hp as [Hc Hp].
    apply String.eqb_eq in Hc. destruct (Hu _ _ Hj Hc) as [-> ->].
    rewrite Hp. reflexivity.
  - apply findFirst_none in F. rewrite forallb_forall in F.
    assert (Hin : In h l) by (apply list_elem_of_In, list_elem_of_lookup; eauto).
    specialize (F _ Hin). rewrite String.eqb_refl in F. simpl in F.
    apply negb_true_iff in F. rewrite F. reflexivity.
Qed.

Lemma isPending_status (p : EmailPayment.t) :
  isPending p = true <-> EmailPayment.status p = EP_PENDING.
Proof. unfold isPending. destruct (EmailPayment.status p); split; congruence. Qed.

(** What [claimPayment] answers for the payment that carries the code. *)
Lemma claimPayment_cases (s : Store) (now : Z) (uid : nat) (user : User.t)
    (pid : nat) (hold : EmailPayment.t) :
  uniqueClaimCodes (emailPayments s) = true ->
  users s !! uid = Some user ->
  emailPayments s !! pid = Some hold ->
  String.eqb (EmailPayment.claimCode hold) "" = false ->
  claimPayment s now uid (EmailPayment.claimCode hold) =
    if negb (isPending hold) then (Failure 404 PAYMENT_NOT_FOUND, s)
    else if EmailPayment.expiresAt hold <? now then (Failure 400 PAYMENT_EXPIRED, s)
    else if negb (String.eqb (User.email user) (EmailPayment.recipientEmail hold))
    then (Failure 403 UNAUTHORIZED, s)
    else (Success 200 (EmailPayment.claim uid hold),
          with_transactions
            (transactions s ++
               [Transaction.mk (EmailPayment.senderId hold) uid (EmailPayment.amount hold)
                  (EmailPayment.currency hold) EMAIL_PAYMENT TX_COMPLETED false false now
                  (Metadata.mk None (Some pid) None)])
            (with_users (<[uid := User.increment (EmailPayment.amount hold) user]> (users s))
               (with_emailPayments (<[pid := EmailPayment.claim uid hold]> (emailPayments s)) s))).
Proof.
  intros Hu Huser Hhold Hcode. unfold claimPayment. rewrite Hcode.
  rewrite (findFirst_claimCode _ pid hold); [|
    intros j x Hj Hc; split; [eapply uniqueClaimCodes_inj; eauto|];
    assert (j = pid) as -> by (eapply uniqueClaimCodes_inj; eauto); congruence | exact Hhold].
  destruct (isPending hold); [|reflexivity]. cbn [negb].
  destruct (EmailPayment.expiresAt hold <? now); [reflexivity|].
  rewrite Huser.
  destruct (negb (String.eqb (User.email user) (EmailPayment.recipientEmail hold))); [reflexivity|].
  unfold prisma_transaction, tx_bind, emailPayment_update, user_update_balance,
    transaction_create, tx_ret.
  rewrite Hhold. cbn [users with_emailPayments]. rewrite Huser. reflexivity.
Qed.

Lemma claimPayment_again (s : Store) (now now' : Z) (uid uid' : nat) (user : User.t)
    (pid : nat) (hold : EmailPayment.t) (ts : list Transaction.t) (us : list User.t) :
  uniqueClaimCodes (emailPayments s) = true ->
  emailPayments s !! pid = Some hold ->
  String.eqb (EmailPayment.claimCode hold) "" = false ->
  let s' := with_transactions ts (with_users us
              (with_emailPayments (<[pid := EmailPayment.claim uid hold]> (emailPayments s)) s)) in
  claimPayment s' now' uid' (EmailPayment.claimCode hold) = (Failure 404 PAYMENT_NOT_FOUND, s').
Proof.
  intros Hu Hhold Hcode s'. unfold claimPayment. rewrite Hcode.
  change (EmailPayment.claimCode hold)
    with (EmailPayment.claimCode (EmailPayment.claim uid hold)).
  assert (Hl : emailPayments s' !! pid = Some (EmailPayment.claim uid hold)).
  { unfold s'. cbn [emailPayments with_transactions with_users with_emailPayments].
    apply list_lookup_insert_eq. eapply lookup_lt_Some; exact Hhold. }
  rewrite (findFirst_claimCode _ pid (EmailPayment.claim uid hold)); [reflexivity| |exact Hl].
  intros j x Hj Hc. unfold s' in Hj.
  cbn [emailPayments with_transactions with_users with_emailPayments] in Hj.
  eapply uniqueClaimCodes_claimed; eauto using uniqueClaimCodes_inj.
Qed.

(** C4. For the email payment that carries the claim code, the
    claim succeeds exactly when the payment is pending, has not expired
    ([expiresAt] is not earlier than [now]; a claim at the very instant of
    expiry is accepted) and the e-mail address of the claimant is the
    recipient address.  On success the payment becomes CLAIMED, the claimant
    receives exactly its amount, nobody else's balance moves and one
    EMAIL_PAYMENT transaction linked to the payment is recorded; any later
    claim with the same code is answered PAYMENT_NOT_FOUND.  Otherwise the
    answer is PAYMENT_NOT_FOUND (not pending), PAYMENT_EXPIRED or
    UNAUTHORIZED (address mismatch) and the store is unchanged. *)
Theorem claim_exactly_once (s : Store) (now : Z) (uid : nat) (user : User.t)
    (pid : nat) (hold : EmailPayment.t) :
  uniqueClaimCodes (emailPayments s) = true ->
  users s !! uid = Some user ->
  emailPayments s !! pid = Some hold ->
  String.eqb (EmailPayment.claimCode hold) "" = false ->
  let code := EmailPayment.claimCode hold in
  let r := claimPayment s now uid code in
  let claimable :=
    EmailPayment.status hold = EP_PENDING /\ now <= EmailPayment.expiresAt hold
    /\ User.email user = EmailPayment.recipientEmail hold in
  (isSuccess (fst r) = true <-> claimable)
  /\ (claimable ->
      exists s',
        r = (Success 200 (EmailPayment.claim uid hold), s')
        /\ EmailPayment.status <$> emailPayments s' !! pid = Some EP_CLAIMED
        /\ balanceOf s' uid = Some (User.balance user + EmailPayment.amount hold)
        /\ (forall other, other <> uid -> balanceOf s' other = balanceOf s other)
        /\ (exists movement,
              transactions s' = transactions s ++ [movement]
              /\ Transaction.transactionType movement = EMAIL_PAYMENT
              /\ Transaction.status movement = TX_COMPLETED
              /\ Metadata.emailPaymentId (Transaction.metadata movement) = Some pid
              /\ Transaction.recipientId movement = uid
              /\ Transaction.amount movement = EmailPayment.amount hold)
        /\ forall now' uid', claimPayment s' now' uid' code = (Failure 404 PAYMENT_NOT_FOUND, s'))
  /\ (~ claimable ->
      snd r = s
      /\ (fst r = Failure 404 PAYMENT_NOT_FOUND /\ EmailPayment.status hold <> EP_PENDING
          \/ fst r = Failure 400 PAYMENT_EXPIRED /\ EmailPayment.expiresAt hold < now
          \/ fst r = Failure 403 UNAUTHORIZED
             /\ User.email user <> EmailPayment.recipientEmail hold)).
Proof.
  intros Hu Huser Hhold Hcode code r claimable.
  assert (Hr := claimPayment_cases s now uid user pid hold Hu Huser Hhold Hcode).
  fold code in Hr. fold r in Hr.
  destruct (isPending hold) eqn:Hp; cbn [negb] in Hr.
  2:{ assert (Hst : EmailPayment.status hold <> EP_PENDING).
      { intros E. apply isPending_status in E. congruence. }
      rewrite Hr. cbn. unfold claimable.
      split; [split; [discriminate | tauto]|]. split; [tauto|]. auto. }
  apply isPending_status in Hp.
  destruct (EmailPayment.expiresAt hold <? now) eqn:Hexp.
  { apply Z.ltb_lt in Hexp. rewrite Hr. cbn. unfold claimable.
    split; [split; [discriminate | lia]|]. split; [lia|]. auto. }
  apply Z.ltb_ge in Hexp.
  destruct (String.eqb (User.email user) (EmailPayment.recipientEmail hold)) eqn:Hmail;
    cbn [negb] in Hr.
  2:{ apply String.eqb_neq in Hmail. rewrite Hr. cbn. unfold claimable.
      split; [split; [discriminate | tauto]|]. split; [tauto|]. auto. }
  apply String.eqb_eq in Hmail.
  assert (Hc : claimable) by (unfold claimable; auto).
  rewrite Hr. cbn [fst snd isSuccess].
  split; [tauto|]. split; [|tauto]. intros _.
  eexists. split; [reflexivity|].
  cbn [emailPayments users transactions with_transactions with_users with_emailPayments].
  split.
  { rewrite list_lookup_insert_eq by (eapply lookup_lt_Some; exact Hhold). reflexivity. }
  split.
  { unfold balanceOf. cbn [users with_transactions with_users].
    rewrite list_lookup_insert_eq by (eapply lookup_lt_Some; exact Huser). reflexivity. }
  split.
  { intros other Hne. unfold balanceOf. cbn [users with_transactions with_users].
    rewrite list_lookup_insert_ne by auto. reflexivity. }
  split.
  { eexists. split; [reflexivity|]. cbn. auto. }
  intros now' uid'. apply claimPayment_again; assumption.
Qed.

Lemma claim_exactly_once_witness :
  exists s',
    claimPayment SampleEscrow.store 3000 Sample.b "c0de01"
      = (Success 200 (EmailPayment.claim Sample.b SampleEscrow.hold), s')
    /\ balanceOf s' Sample.b = Some 65
    /\ balanceOf s' Sample.a = Some 35
    /\ claimPayment s' 3001 Sample.b "c0de01" = (Failure 404 PAYMENT_NOT_FOUND, s').
Proof.
  destruct (claim_exactly_once SampleEscrow.store 3000 Sample.b
              (User.increment 40 Sample.userB) 0%nat SampleEscrow.hold
              eq_refl eq_refl eq_refl eq_refl) as (_ & Hok & _).
  destruct Hok as (s' & Hr & _ & Hb & Ha & _ & Hagain).
  - repeat split; [vm_compute; discriminate].
  - exists s'. split; [exact Hr|]. split; [exact Hb|]. split.
    + rewrite (Ha Sample.a); [reflexivity | unfold Sample.a, Sample.b; lia].
    + apply Hagain.
Defined.

(** C4, with [expiresAt > now] as the condition, fails at the
    instant of expiry: a pending payment whose [expiresAt] equals [now] is
    paid out to the matching claimant, although its expiry is not later than
    [now]. *)
Lemma claim_at_expiry_counterexample :
  ~ (isSuccess (fst (claimPayment SampleEscrow.store 5000 Sample.b "c0de01")) = true <->
     EmailPayment.status SampleEscrow.hold = EP_PENDING
     /\ EmailPayment.expiresAt SampleEscrow.hold > 5000
     /\ User.email (User.increment 40 Sample.userB)
        = EmailPayment.recipientEmail SampleEscrow.hold).
Proof.
  intros [H _]. assert (E : EmailPayment.expiresAt SampleEscrow.hold > 5000).
  { apply H. vm_compute. reflexivity. }
  vm_compute in E. discriminate.
Qed.

(** ** Fraud rules *)

Lemma evaluateRule_transactions (s1 s : Store) now rule t :
  transactions s1 = transactions s ->
  evaluateRule s1 now rule t = evaluateRule s now rule t.
Proof. intros H. unfold evaluateRule, checkVelocity. rewrite H. reflexivity. Qed.

Lemma keyed_from_In {A} (l : list A) (k i : nat) (x : A) :
  In (i, x) (keyed_from k l) -> (k <= i)%nat /\ l !! (i - k)%nat = Some x.
Proof.
  revert k; induction l as [|y l IH]; intros k; simpl; [tauto|].
  intros [H|H].
  - injection H as <- <-. replace (k - k)%nat with 0%nat by lia. auto with lia.
  - destruct (IH _ H) as [Hle Hl]. split; [lia|].
    replace (i - k)%nat with (S (i - S k)) by lia. exact Hl.
Qed.

Lemma activeRules_In (s : Store) (rid : nat) (rule : FraudRule.t) :
  In (rid, rule) (activeRules s) ->
  fraudRules s !! rid = Some rule /\ FraudRule.isActive rule = true.
Proof.
  unfold activeRules. rewrite filter_In. intros [H Ha].
  apply keyed_from_In in H as [_ H]. rewrite Nat.sub_0_r in H. auto.
Qed.

(** The loop only appends alerts, one for each rule of the list that
    triggered, and touches no other table. *)
Lemma checkRules_alerts (s0 : Store) now t (rules : list (nat * FraudRule.t)) :
  forall acc s res s',
    transactions s = transactions s0 ->
    checkRules rules now t acc s = (res, s') ->
    exists created,
      fraudAlerts s' = fraudAlerts s ++ created
      /\ (res = None \/ res = Some (acc ++ created))
      /\ Forall (fun a => exists rid rule,
                   In (rid, rule) rules /\ evaluateRule s0 now rule t = Some true
                   /\ a = alertFor t rid rule) created
      /\ users s' = users s /\ transactions s' = transactions s
      /\ emailPayments s' = emailPayments s /\ disputes s' = disputes s
      /\ fraudRules s' = fraudRules s.
Proof.
  induction rules as [|[rid rule] rest IH]; intros acc s res s' Ht H; simpl in H.
  - injection H as <- <-. exists []. rewrite !app_nil_r. auto 10.
  - rewrite (evaluateRule_transactions _ _ _ _ _ Ht) in H.
    destruct (evaluateRule s0 now rule t) as [[|]|] eqn:Ev.
    + apply IH in H; [|exact Ht].
      destruct H as (created & Ha & Hres & Hall & Hrest).
      exists (alertFor t rid rule :: created). cbn [fraudAlerts with_fraudAlerts] in Ha.
      rewrite <- app_assoc in Ha, Hres. split; [exact Ha|].
      split; [exact Hres|]. split; [|exact Hrest].
      constructor.
      * exists rid, rule. simpl; auto.
      * eapply Forall_impl; [exact Hall|]. intros a (i & r & Hin & He & Hal).
        exists i, r. simpl; auto.
    + apply IH in H; [|exact Ht].
      destruct H as (created & Ha & Hres & Hall & Hrest).
      exists created. split; [exact Ha|]. split; [exact Hres|]. split; [|exact Hrest].
      eapply Forall_impl; [exact Hall|]. intros a (i & r & Hin & He & Hal).
      exists i, r. simpl; auto.
    + injection H as <- <-. exists []. rewrite !app_nil_r. auto 10.
Qed.

Lemma evaluateRule_unknown (s : Store) now rule t :
  knownRuleType (FraudRule.ruleType rule) = false ->
  evaluateRule s now rule t = Some false.
Proof.
  unfold knownRuleType, evaluateRule. intros H.
  apply orb_false_elim in H as [H H3]. apply orb_false_elim in H as [H1 H2].
  rewrite H1, H2, H3. unfold checkGeographicAnomaly.
  destruct (String.eqb (FraudRule.ruleType rule) "GEOGRAPHIC_ANOMALY"); reflexivity.
Qed.

(** C10. A rule whose type is GEOGRAPHIC_ANOMALY, or anything else than
    VELOCITY, AMOUNT_THRESHOLD and NEW_USER_HIGH_AMOUNT, evaluates to false
    on every store, time and transaction; whatever [checkTransaction] does
    (return its alerts or stop on an error), none of the alerts it has
    written or returned belongs to that rule. *)
Theorem unknown_rule_never_alerts (s : Store) (now : Z) (t : CheckedTransaction.t)
    (rid : nat) (rule : FraudRule.t) :
  fraudRules s !! rid = Some rule ->
  knownRuleType (FraudRule.ruleType rule) = false ->
  (forall s1 now1 t1, evaluateRule s1 now1 rule t1 = Some false)
  /\ exists created,
       fraudAlerts (snd (checkTransaction s now t)) = fraudAlerts s ++ created
       /\ Forall (fun a => FraudAlert.ruleId a <> rid) created
       /\ (forall alerts, fst (checkTransaction s now t) = Some alerts -> alerts = created).
Proof.
  intros Hrule Hty. split; [intros; apply evaluateRule_unknown; exact Hty|].
  unfold checkTransaction.
  destruct (checkRules (activeRules s) now t [] s) as [res s'] eqn:E.
  apply (checkRules_alerts s) in E; [|reflexivity].
  destruct E as (created & Ha & Hres & Hall & _).
  exists created. cbn [fst snd]. split; [exact Ha|]. split.
  - eapply Forall_impl; [exact Hall|]. intros a (i & r & Hin & He & ->) Heq.
    cbn in Heq. subst i. apply activeRules_In in Hin as [Hl _].
    rewrite Hrule in Hl. injection Hl as <-.
    rewrite (evaluateRule_unknown _ _ _ _ Hty) in He. discriminate.
  - intros alerts ->. destruct Hres as [Hres|Hres]; [discriminate|].
    injection Hres as ->. reflexivity.
Qed.

Lemma unknown_rule_never_alerts_witness :
  (forall s1 now1 t1, evaluateRule s1 now1 SampleFraud.geographicRule t1 = Some false)
  /\ exists created,
       fraudAlerts (snd (checkTransaction SampleFraud.twoRules 240001 SampleFraud.fourth))
         = fraudAlerts SampleFraud.twoRules ++ created
       /\ Forall (fun a => FraudAlert.ruleId a <> 1%nat) created
       /\ (forall alerts,
             fst (checkTransaction SampleFraud.twoRules 240001 SampleFraud.fourth) = Some alerts ->
             alerts = created).
Proof.
  apply (unknown_rule_never_alerts SampleFraud.twoRules 240001 SampleFraud.fourth 1%nat
           SampleFraud.geographicRule); reflexivity.
Defined.





(** ** Disputes *)

Lemma user_update_balance_ok (id : nat) (d : Z) (s : Store) :
  (id < length (users s))%nat ->
  exists s', user_update_balance id d s = Some (tt, s')
             /\ length (users s') = length (users s)
             /\ transactions s' = transactions s /\ disputes s' = disputes s.
Proof.
  intros Hlt. unfold user_update_balance.
  destruct (lookup_lt_is_Some_2 _ _ Hlt) as [u Hu]. rewrite Hu.
  eexists. split; [reflexivity|]. cbn [users with_users transactions disputes].
  rewrite length_insert. auto.
Qed.

(** What one balance update does to the balance of every account. *)
Lemma user_update_balance_balanceOf (id : nat) (d : Z) (s s' : Store) (r : unit) :
  user_update_balance id d s = Some (r, s') ->
  forall j, balanceOf s' j
            = (fun b => if Nat.eqb j id then b + d else b) <$> balanceOf s j.
Proof.
  unfold user_update_balance, balanceOf.
  destruct (users s !! id) as [u|] eqn:Hu; [|discriminate].
  intros H j. injection H as _ <-. cbn [users with_users].
  destruct (Nat.eqb_spec j id) as [->|Hne].
  - rewrite list_lookup_insert_eq by (eapply lookup_lt_Some; exact Hu).
    rewrite Hu. reflexivity.
  - rewrite list_lookup_insert_ne by congruence.
    destruct (users s !! j); reflexivity.
Qed.

(** The refund of a dispute commits whenever both parties of the disputed
    transaction exist; it records one reversed transaction, credits the
    sender of the disputed transaction and debits its recipient. *)
Lemma disputeRefund_commits (s : Store) (id : nat) (original : Transaction.t)
    (originalId : nat) (refund now : Z) :
  (Transaction.senderId original < length (users s))%nat ->
  (Transaction.recipientId original < length (users s))%nat ->
  exists s1,
    disputeRefund id original originalId refund now s = Some (length (transactions s), s1)
    /\ transactions s1 = transactions s ++
         [Transaction.mk (Transaction.recipientId original) (Transaction.senderId original)
            refund (Transaction.currency original) REFUND TX_COMPLETED false false now
            (Metadata.mk (Some originalId) None (Some id))]
    /\ disputes s1 = disputes s
    /\ forall j, balanceOf s1 j
                 = (fun b => b + (if Nat.eqb j (Transaction.senderId original) then refund else 0)
                               - (if Nat.eqb j (Transaction.recipientId original) then refund else 0))
                   <$> balanceOf s j.
Proof.
  intros Hs Hr. unfold disputeRefund, tx_bind.
  destruct (user_update_balance_ok (Transaction.senderId original) refund s Hs)
    as (s1 & E1 & Hlen1 & Ht1 & Hd1).
  rewrite <- Hlen1 in Hr.
  destruct (user_update_balance_ok (Transaction.recipientId original) (- refund) s1 Hr)
    as (s2 & E2 & Hlen2 & Ht2 & Hd2).
  rewrite E1, E2. unfold transaction_create.
  rewrite <- Ht1, <- Ht2, <- Hd1, <- Hd2. eexists. split; [reflexivity|].
  cbn [transactions disputes with_transactions]. split; [reflexivity|]. split; [reflexivity|].
  intros j. unfold balanceOf at 1. cbn [users with_transactions].
  change (User.balance <$> users s2 !! j) with (balanceOf s2 j).
  rewrite (user_update_balance_balanceOf _ _ _ _ _ E2 j),
          (user_update_balance_balanceOf _ _ _ _ _ E1 j).
  destruct (balanceOf s j) as [b|]; [|reflexivity]. cbn [fmap option_fmap option_map].
  f_equal. destruct (Nat.eqb j (Transaction.senderId original)),
                    (Nat.eqb j (Transaction.recipientId original)); lia.
Qed.

(** C6. A dispute that is neither resolved nor closed, resolved with a
    positive [refundAmount], is accepted exactly when the amount does not
    exceed the amount of the disputed transaction.  It then records exactly
    one new transaction, a completed REFUND of that amount from the recipient
    of the disputed transaction to its sender (whoever filed the dispute),
    linked to the disputed transaction, and the dispute becomes RESOLVED.
    The money moves the same way: the sender of the disputed transaction is
    credited with the amount, its recipient is debited by it, no other
    balance changes, and the response carries the key of the reversal.  A
    larger amount is rejected with INVALID_REFUND_AMOUNT and changes nothing. *)
Theorem dispute_refund_reversal (s : Store) (now : Z) (id : nat) (dispute : Dispute.t)
    (original : Transaction.t) (sender recipient : User.t) (resolution : string)
    (refund : Z) :
  disputes s !! id = Some dispute ->
  isClosedStatus (Dispute.status dispute) = false ->
  transactions s !! Dispute.transactionId dispute = Some original ->
  users s !! Transaction.senderId original = Some sender ->
  users s !! Transaction.recipientId original = Some recipient ->
  String.eqb resolution "" = false ->
  0 < refund ->
  let r := resolveDispute s now id (ResolveDisputeBody.mk resolution (Some refund)) in
  (isSuccess (fst r) = true <-> refund <= Transaction.amount original)
  /\ (refund <= Transaction.amount original ->
      exists reversal,
        transactions (snd r) = transactions s ++ [reversal]
        /\ Transaction.amount reversal = refund
        /\ Transaction.senderId reversal = Transaction.recipientId original
        /\ Transaction.recipientId reversal = Transaction.senderId original
        /\ Transaction.transactionType reversal = REFUND
        /\ Transaction.status reversal = TX_COMPLETED
        /\ Metadata.originalTransactionId (Transaction.metadata reversal)
           = Some (Dispute.transactionId dispute)
        /\ Dispute.status <$> disputes (snd r) !! id = Some RESOLVED
        /\ Dispute.refundAmount <$> disputes (snd r) !! id = Some (Some refund)
        /\ length (disputes (snd r)) = length (disputes s)
        /\ (exists resolvedDispute,
              fst r = Success 200 (resolvedDispute, Some (length (transactions s))))
        /\ (Transaction.senderId original <> Transaction.recipientId original ->
            balanceOf (snd r) (Transaction.senderId original)
              = Some (User.balance sender + refund)
            /\ balanceOf (snd r) (Transaction.recipientId original)
               = Some (User.balance recipient - refund))
        /\ (Transaction.senderId original = Transaction.recipientId original ->
            balanceOf (snd r) (Transaction.senderId original) = Some (User.balance sender))
        /\ (forall other, other <> Transaction.senderId original ->
                          other <> Transaction.recipientId original ->
                          balanceOf (snd r) other = balanceOf s other)
        /\ totalValue (snd r) = totalValue s)
  /\ (Transaction.amount original < refund -> r = (Failure 400 INVALID_REFUND_AMOUNT, s)).
Proof.
  intros Hd Hopen Ho Hs Hr Hres Hpos r.
  assert (Hpos' : (0 <? refund) = true) by (apply Z.ltb_lt; exact Hpos).
  assert (Hne : (refund =? 0) = false) by (apply Z.eqb_neq; lia).
  assert (Htot : totalValue (snd r) = totalValue s).
  { subst r. destruct (resolveDispute s now id _) as [res s'] eqn:E.
    exact (resolveDispute_total _ _ _ _ _ _ E). }
  revert Htot. subst r. unfold resolveDispute.
  cbn [ResolveDisputeBody.resolution ResolveDisputeBody.refundAmount].
  rewrite Hres, Hd, Hopen, Hpos', Ho.
  destruct (Transaction.amount original <? refund) eqn:Hcmp.
  - apply Z.ltb_lt in Hcmp. cbn [fst snd isSuccess]. intros _.
    split; [split; [discriminate | lia]|]. split; [lia | reflexivity].
  - apply Z.ltb_ge in Hcmp.
    destruct (disputeRefund_commits s id original (Dispute.transactionId dispute) refund now)
      as (s1 & Hc & Ht & Hds & Hbal).
    { eapply lookup_lt_Some; exact Hs. }
    { eapply lookup_lt_Some; exact Hr. }
    unfold prisma_transaction. rewrite Hc. cbn [fst snd isSuccess]. intros Htot.
    split; [tauto|]. split; [|lia]. intros _.
    assert (HbS : balanceOf s (Transaction.senderId original) = Some (User.balance sender))
      by (unfold balanceOf; rewrite Hs; reflexivity).
    assert (HbR : balanceOf s (Transaction.recipientId original) = Some (User.balance recipient))
      by (unfold balanceOf; rewrite Hr; reflexivity).
    assert (Hfin : forall ds j, balanceOf (with_disputes ds s1) j = balanceOf s1 j)
      by reflexivity.
    eexists. cbn [transactions disputes with_disputes]. split; [exact Ht|].
    cbn [Transaction.amount Transaction.senderId Transaction.recipientId
         Transaction.transactionType Transaction.status Transaction.metadata
         Metadata.originalTransactionId].
    rewrite Hds, length_insert.
    rewrite list_lookup_insert_eq by (eapply lookup_lt_Some; exact Hd).
    cbn [fmap option_fmap option_map resolved Dispute.status Dispute.refundAmount
         ResolveDisputeBody.refundAmount truthy_amount].
    rewrite Hne.
    do 9 (split; [reflexivity|]).
    split; [eexists; reflexivity|].
    split; [|split; [|split; [|exact Htot]]].
    + intros Hdiff. rewrite !Hfin, !Hbal, HbS, HbR. cbn [fmap option_fmap option_map].
      rewrite !Nat.eqb_refl.
      destruct (Nat.eqb_spec (Transaction.senderId original) (Transaction.recipientId original));
        [contradiction|].
      destruct (Nat.eqb_spec (Transaction.recipientId original) (Transaction.senderId original));
        [congruence|].
      split; f_equal; lia.
    + intros Hsame. rewrite Hfin, Hbal, HbS. cbn [fmap option_fmap option_map].
      rewrite <- Hsame, Nat.eqb_refl. f_equal. lia.
    + intros other Hn1 Hn2. rewrite Hfin, Hbal.
      destruct (Nat.eqb_spec other (Transaction.senderId original)); [contradiction|].
      destruct (Nat.eqb_spec other (Transaction.recipientId original)); [contradiction|].
      destruct (balanceOf s other); [|reflexivity]. cbn [fmap option_fmap option_map].
      f_equal. lia.
Qed.

Lemma dispute_refund_reversal_witness :
  exists reversal,
    transactions SampleDispute.refunded = transactions SampleDispute.disputed ++ [reversal]
    /\ Transaction.amount reversal = 30
    /\ Transaction.senderId reversal = Sample.b
    /\ Transaction.recipientId reversal = Sample.a
    /\ Dispute.status <$> disputes SampleDispute.refunded !! 0%nat = Some RESOLVED
    /\ balanceOf SampleDispute.refunded Sample.a = Some 30
    /\ balanceOf SampleDispute.refunded Sample.b = Some (-30).
Proof.
  destruct (dispute_refund_reversal SampleDispute.disputed 4000 0%nat
              (Dispute.mk Sample.a 0 OPEN None None)
              (Transaction.mk Sample.a Sample.b 100 "USDC" P2P TX_COMPLETED false false 1000
                 Metadata.empty)
              (User.increment (-100) Sample.userA)
              (User.increment (-100) (User.increment 100 Sample.userB))
              "partial refund" 30
              eq_refl eq_refl eq_refl eq_refl eq_refl eq_refl eq_refl) as (_ & Hok & _).
  destruct Hok as (reversal & Ht & Ha & Hs & Hr & _ & _ & _ & Hd & _ & _ & _ & Hbal & _).
  - vm_compute. discriminate.
  - destruct Hbal as [HbA HbB]; [vm_compute; discriminate|].
    exists reversal. auto 10.
Defined.

(** C7. A dispute with a reason and a description, filed by a
    party of the transaction, is accepted exactly when that account has no
    dispute at all on that transaction, whatever the status of the earlier
    one: it is then recorded as OPEN.  If the account already has a dispute
    on the transaction, be it resolved or closed, the request is rejected
    with DISPUTE_EXISTS and nothing changes. *)
Theorem file_dispute_once (s : Store) (now : Z) (uid tid : nat) (x : Transaction.t)
    (reason description : string) :
  transactions s !! tid = Some x ->
  isParty uid x = true ->
  String.eqb reason "" = false ->
  String.eqb description "" = false ->
  let r := fileDispute s now uid (FileDisputeBody.mk (Some tid) reason description) in
  (isSuccess (fst r) = true <-> noDispute s uid tid = true)
  /\ (noDispute s uid tid = true ->
      r = (Success 201 (length (disputes s), Dispute.mk uid tid OPEN None None),
           with_disputes (disputes s ++ [Dispute.mk uid tid OPEN None None]) s))
  /\ (noDispute s uid tid = false -> r = (Failure 400 DISPUTE_EXISTS, s)).
Proof.
  intros Hx Hparty Hreason Hdesc r. subst r. unfold fileDispute.
  cbn [FileDisputeBody.transactionId FileDisputeBody.reason FileDisputeBody.description].
  unfold isParty in Hparty. rewrite Hreason, Hdesc, Hx, Hparty. cbn [orb negb].
  unfold noDispute.
  destruct (findFirst _ (disputes s)) as [[i d]|] eqn:F.
  - assert (Hn : forallb (fun d => negb (Nat.eqb (Dispute.transactionId d) tid
                                         && Nat.eqb (Dispute.userId d) uid)) (disputes s) = false).
    { apply not_true_is_false. intros Hall. apply findFirst_none in Hall. congruence. }
    rewrite Hn. cbn [fst snd isSuccess].
    split; [split; discriminate|]. split; [discriminate | reflexivity].
  - apply findFirst_none in F. rewrite F. cbn [fst snd isSuccess].
    split; [tauto|]. split; [reflexivity | discriminate].
Qed.

Lemma file_dispute_once_witness :
  fileDispute SampleDispute.ledger 3000 Sample.b
    (FileDisputeBody.mk (Some 0%nat) "fraud" "not received")
  = (Success 201 (0%nat, Dispute.mk Sample.b 0 OPEN None None),
     with_disputes [Dispute.mk Sample.b 0 OPEN None None] SampleDispute.ledger).
Proof.
  destruct (file_dispute_once SampleDispute.ledger 3000 Sample.b 0%nat
              (Transaction.mk Sample.a Sample.b 100 "USDC" P2P TX_COMPLETED false false 1000
                 Metadata.empty)
              "fraud" "not received" eq_refl eq_refl eq_refl eq_refl) as (_ & Hok & _).
  apply Hok. reflexivity.
Defined.

(** C7, with only open and in-progress disputes standing in the way, fails
    once an earlier dispute is resolved: account A is a party of the first
    transfer and its only dispute on it has been resolved, yet a new dispute
    of A on that transfer is rejected. *)
Lemma file_dispute_after_resolution_counterexample :
  ~ (isParty Sample.a (Transaction.mk Sample.a Sample.b 100 "USDC" P2P TX_COMPLETED
                         false false 1000 Metadata.empty) = true ->
     transactions SampleDispute.dismissed !! 0%nat
       = Some (Transaction.mk Sample.a Sample.b 100 "USDC" P2P TX_COMPLETED
                 false false 1000 Metadata.empty) ->
     noActiveDispute SampleDispute.dismissed Sample.a 0 = true ->
     isSuccess (fst (fileDispute SampleDispute.dismissed 5000 Sample.a
                       (FileDisputeBody.mk (Some 0%nat) "fraud" "still not received")))
     = true).
Proof.
  intros H. specialize (H eq_refl eq_refl eq_refl). vm_compute in H. discriminate.
Qed.

(** ** Risk score *)

Lemma ageFactor_range (now : Z) (user : User.t) : 0 <= ageFactor now user <= 20.
Proof. unfold ageFactor. repeat destruct (Qlt_le_dec _ _); lia. Qed.

Lemma kycFactor_range (user : User.t) : 0 <= kycFactor user <= 15.
Proof. unfold kycFactor. destruct (User.kycStatus user); lia. Qed.

Lemma flaggedFactor_range (user : User.t) : 0 <= flaggedFactor user <= 15.
Proof. unfold flaggedFactor. destruct (User.isFlagged user); lia. Qed.

Lemma velocityFactor_range (n : Z) : 0 <= velocityFactor n <= 25.
Proof. unfold velocityFactor. destruct (20 <? n), (50 <? n); lia. Qed.

Lemma countIf_filter {A} (p : A -> bool) (l : list A) :
  Z.of_nat (length (List.filter p l)) = countIf p l.
Proof.
  induction l as [|x l IH]; [reflexivity|]. cbn [List.filter countIf foldr].
  fold (countIf p l). destruct (p x); [|exact IH].
  cbn [length]. rewrite Nat2Z.inj_succ, IH. lia.
Qed.

Lemma filter_filter_and {A} (p q : A -> bool) (l : list A) :
  List.filter q (List.filter p l) = List.filter (fun x => p x && q x) l.
Proof.
  induction l as [|x l IH]; [reflexivity|]. cbn [List.filter].
  destruct (p x); cbn [andb List.filter]; [destruct (q x)|]; rewrite IH; reflexivity.
Qed.

(** The age thresholds of 7, 30 and 90 days, in milliseconds. *)
Lemma ageFactor_ms (now : Z) (user : User.t) :
  ageFactor now user
  = let age := now - User.createdAt user in
    if age <? 604800000 then 20
    else if age <? 2592000000 then 10
    else if age <? 7776000000 then 5
    else 0.
Proof.
  unfold ageFactor, accountAgeDays. cbv zeta.
  repeat match goal with
  | |- context [Qlt_le_dec ?a ?b] => destruct (Qlt_le_dec a b)
  end;
  unfold Qlt, Qle in *; cbn [Qnum Qden inject_Z] in *;
  repeat match goal with
  | |- context [?a <? ?b] => destruct (Z.ltb_spec a b)
  end; try reflexivity; lia.
Qed.

Lemma velocityFactor_cases (n : Z) :
  velocityFactor n = if 50 <? n then 25 else if 20 <? n then 10 else 0.
Proof.
  unfold velocityFactor.
  destruct (Z.ltb_spec 20 n), (Z.ltb_spec 50 n); try reflexivity; lia.
Qed.

(** C9. The risk score is a function of the store, the clock and the
    account; computing it leaves the store as it was.  Its value is an
    integer between 0 and 100, and it is the score of the specification: 0
    for an unknown account, and otherwise the sum, capped at 100, of
    - 20, 10 or 5 for an account younger than 7, 30 or 90 days,
    - 15 for the KYC status UNVERIFIED and 10 for PENDING,
    - 3 for each failed and 5 for each flagged transaction of the account
      created in the trailing 30 days,
    - 10 for each of its disputes that is open or in progress,
    - 15 if the account is flagged,
    - 10 for more than 20 transactions in the trailing 30 days, 25 for more
      than 50. *)
Theorem risk_score_bounded (userTransactions : nat -> Transaction.t -> bool)
    (s : Store) (now : Z) (userId : nat) :
  let r := calculateUserRiskScore userTransactions s now userId in
  snd r = s
  /\ 0 <= fst r <= 100
  /\ fst r = score_spec userTransactions s now userId.
Proof.
  intros r. subst r. unfold calculateUserRiskScore, score_spec.
  destruct (users s !! userId) as [user|]; cbn [fst snd]; [|repeat split; lia].
  split; [reflexivity|].
  assert (Hraw : rawScore userTransactions s now userId user
    = (let age := now - User.createdAt user in
       if age <? 604800000 then 20
       else if age <? 2592000000 then 10
       else if age <? 7776000000 then 5
       else 0)
      + match User.kycStatus user with KYC_UNVERIFIED => 15 | KYC_PENDING => 10 | _ => 0 end
      + 3 * countIf (fun x => (userTransactions userId x
                               && (now - 2592000000 <=? Transaction.createdAt x))
                              && match Transaction.status x with TX_FAILED => true | _ => false end)
                    (transactions s)
      + 5 * countIf (fun x => (userTransactions userId x
                               && (now - 2592000000 <=? Transaction.createdAt x))
                              && Transaction.isFlagged x)
                    (transactions s)
      + 10 * countIf (fun d => Nat.eqb (Dispute.userId d) userId
                               && match Dispute.status d with
                                  | OPEN | IN_PROGRESS => true | _ => false end)
                     (disputes s)
      + (if User.isFlagged user then 15 else 0)
      + (if 50 <? countIf (fun x => userTransactions userId x
                                    && (now - 2592000000 <=? Transaction.createdAt x))
                          (transactions s) then 25
         else if 20 <? countIf (fun x => userTransactions userId x
                                         && (now - 2592000000 <=? Transaction.createdAt x))
                               (transactions s) then 10
         else 0)).
  { unfold rawScore. cbv zeta.
    rewrite ageFactor_ms, velocityFactor_cases.
    unfold failedTxCount, flaggedTxCount, includedTransactions, includedDisputes.
    rewrite !filter_filter_and, !countIf_filter.
    change (30 * msPerDay) with 2592000000.
    unfold kycFactor, flaggedFactor. cbv zeta. lia. }
  pose proof (ageFactor_range now user). pose proof (kycFactor_range user).
  pose proof (flaggedFactor_range user).
  pose proof (velocityFactor_range
                (Z.of_nat (length (includedTransactions userTransactions s now userId)))).
  split.
  - unfold rawScore, failedTxCount, flaggedTxCount in *. lia.
  - cbv zeta. rewrite Z.min_comm. f_equal. exact Hraw.
Qed.

(** The KYC factor is granted to the status UNVERIFIED; an account in the
    status NONE, the one given at registration, gets nothing from it. *)
Remark kycFactor_none (user : User.t) :
  User.kycStatus user = KYC_NONE -> kycFactor user = 0.
Proof. unfold kycFactor. intros ->. reflexivity. Qed.

(** ** Balances below zero *)

(** C3 does not hold of the two refunds.  After A has sent 100 to B and B has sent
    them on to C, the refund of 30 granted on A's dispute is taken from B
    without a balance check and leaves B at -30; the refund of the whole
    transfer through [refundTransaction] leaves B at -100.  Both requests
    are answered as successes. *)
Theorem refund_overdraws_recipient :
  balanceOf SampleDispute.disputed Sample.b = Some 0
  /\ isSuccess (fst (resolveDispute SampleDispute.disputed 4000 0
                       (ResolveDisputeBody.mk "partial refund" (Some 30)))) = true
  /\ balanceOf SampleDispute.refunded Sample.b = Some (-30)
  /\ isSuccess (fst (refundTransaction SampleDispute.ledger 3000 0 "sent by mistake")) = true
  /\ balanceOf SampleDispute.reversed Sample.b = Some (-100).
Proof. repeat split; vm_compute; reflexivity. Qed.

(** *** Where balances do stay non-negative *)

Lemma credit_nonNegative (id : nat) (d : Z) (s s' : Store) (r : unit) :
  user_update_balance id d s = Some (r, s') -> 0 <= d ->
  nonNegative s -> nonNegative s'.
Proof.
  unfold user_update_balance. destruct (users s !! id) as [u|] eqn:Hu; [|discriminate].
  intros H Hd [Hus Hps]. injection H as <- <-. split; [|exact Hps].
  cbn [users with_users]. apply Forall_insert; [exact Hus|].
  pose proof (Forall_lookup_1 _ _ _ _ Hus Hu) as Hb. cbn in *. lia.
Qed.

Lemma debit_nonNegative (id : nat) (d : Z) (s s' : Store) (r : unit) (u : User.t) :
  user_update_balance id (- d) s = Some (r, s') ->
  users s !! id = Some u -> (User.balance u <? d) = false ->
  nonNegative s -> nonNegative s'.
Proof.
  unfold user_update_balance. intros H Hu Hd [Hus Hps]. rewrite Hu in H.
  injection H as <- <-. split; [|exact Hps].
  cbn [users with_users]. apply Forall_insert; [exact Hus|].
  apply Z.ltb_ge in Hd. cbn. lia.
Qed.

Lemma transaction_create_nonNegative (row : Transaction.t) (s s' : Store) (i : nat) :
  transaction_create row s = Some (i, s') -> nonNegative s -> nonNegative s'.
Proof. intros H; injection H as <- <-. auto. Qed.

Lemma emailPayment_create_nonNegative (row : EmailPayment.t) (s s' : Store) (i : nat) :
  emailPayment_create row s = Some (i, s') -> 0 <= EmailPayment.amount row ->
  nonNegative s -> nonNegative s'.
Proof.
  intros H Hrow [Hus Hps]; injection H as <- <-. split; [exact Hus|].
  cbn [emailPayments with_emailPayments]. apply Forall_app. auto.
Qed.

Lemma emailPayment_update_nonNegative (id : nat) f (s s' : Store) (q : EmailPayment.t) :
  emailPayment_update id f s = Some (q, s') ->
  (forall p, EmailPayment.amount (f p) = EmailPayment.amount p) ->
  nonNegative s ->
  nonNegative s'
  /\ exists p, emailPayments s !! id = Some p /\ 0 <= EmailPayment.amount p.
Proof.
  unfold emailPayment_update. destruct (emailPayments s !! id) as [p|] eqn:Hp; [|discriminate].
  intros H Hf [Hus Hps]. injection H as <- <-.
  pose proof (Forall_lookup_1 _ _ _ _ Hps Hp) as Ha. cbn in Ha.
  split; [|eauto]. split; [exact Hus|].
  cbn [emailPayments with_emailPayments]. apply Forall_insert; [exact Hps|].
  cbn. rewrite Hf. exact Ha.
Qed.

Lemma sendMoney_nonNegative (s s' : Store) now uid body res :
  sendMoney s now uid body = (res, s') -> nonNegative s -> nonNegative s'.
Proof.
  unfold sendMoney. intros H Hs. handler_guards H; try exact Hs. committed H E; [|exact Hs].
  match goal with L : (_ <=? 0) = false |- _ => apply Z.leb_gt in L end.
  eapply transaction_create_nonNegative; [eassumption|].
  eapply credit_nonNegative; [eassumption | lia |].
  eapply debit_nonNegative; eassumption.
Qed.

Lemma sendViaEmail_nonNegative (s s' : Store) zone code now uid body res :
  sendViaEmail zone code s now uid body = (res, s') -> nonNegative s -> nonNegative s'.
Proof.
  unfold sendViaEmail. intros H Hs. handler_guards H; try exact Hs. committed H E; [|exact Hs].
  match goal with L : (_ <=? 0) = false |- _ => apply Z.leb_gt in L end.
  eapply emailPayment_create_nonNegative; [eassumption | cbn; lia |].
  eapply debit_nonNegative; eassumption.
Qed.

Lemma claimPayment_nonNegative (s s' : Store) now uid code res :
  claimPayment s now uid code = (res, s') -> nonNegative s -> nonNegative s'.
Proof.
  unfold claimPayment. intros H Hs. handler_guards H; try exact Hs. committed H E; [|exact Hs].
  match goal with F : findFirst _ _ = Some _ |- _ =>
    apply findFirst_lookup in F as [Hl _] end.
  match goal with U : emailPayment_update _ _ _ = Some _ |- _ =>
    eapply emailPayment_update_nonNegative in U as (Hs1 & p & Hp & Ha); [|reflexivity|exact Hs] end.
  rewrite Hl in Hp; injection Hp as <-.
  eapply transaction_create_nonNegative; [eassumption|].
  eapply credit_nonNegative; eassumption.
Qed.

Lemma cancelPayment_nonNegative (s s' : Store) now uid id res :
  cancelPayment s now uid id = (res, s') -> nonNegative s -> nonNegative s'.
Proof.
  unfold cancelPayment. intros H Hs. handler_guards H; try exact Hs. committed H E; [|exact Hs].
  match goal with U : emailPayment_update _ _ _ = Some _ |- _ =>
    eapply emailPayment_update_nonNegative in U as (Hs1 & p & Hp & Ha); [|reflexivity|exact Hs] end.
  match goal with L : emailPayments s !! _ = Some ?q |- _ =>
    rewrite L in Hp; injection Hp as <- end.
  eapply credit_nonNegative; eassumption.
Qed.

Lemma cancelEmailPayment_nonNegative (s s' : Store) now id reason res :
  cancelEmailPayment s now id reason = (res, s') -> nonNegative s -> nonNegative s'.
Proof.
  unfold cancelEmailPayment. intros H Hs. handler_guards H; try exact Hs.
  committed H E; [|exact Hs].
  match goal with U : emailPayment_update _ _ _ = Some _ |- _ =>
    eapply emailPayment_update_nonNegative in U as (Hs1 & p & Hp & Ha); [|reflexivity|exact Hs] end.
  match goal with L : emailPayments s !! _ = Some ?q |- _ =>
    rewrite L in Hp; injection Hp as <- end.
  eapply credit_nonNegative; eassumption.
Qed.

Lemma authenticated_nonNegative {B A} (h : Store -> Z -> nat -> B -> Response A * Store)
    (s s' : Store) now c body res :
  (forall s s' now uid body res, h s now uid body = (res, s') -> nonNegative s -> nonNegative s') ->
  authenticated h s now c body = (res, s') -> nonNegative s -> nonNegative s'.
Proof.
  intros Hh. unfold authenticated. destruct (authenticateUser s c) as [uid|[st code]].
  - apply Hh.
  - intros H; injection H as <- <-; auto.
Qed.

(** Transfers and email payments check the balance before they debit: every
    request but the two refunds of the administration keeps all balances
    non-negative. *)
Lemma checked_debits_keep_nonNegative (s s' : Store) (now : Z) (r : Request) (ok : bool) :
  isRefund r = false ->
  serve s now r = (ok, s') -> nonNegative s -> nonNegative s'.
Proof.
  destruct r; simpl; try discriminate; intros _;
    match goal with |- (let '(_, _) := ?e in _) = _ -> _ =>
      destruct e as [res s1] eqn:E end;
    intros H; injection H as <- <-.
  - eapply authenticated_nonNegative; [|exact E]. apply sendMoney_nonNegative.
  - eapply authenticated_nonNegative; [|exact E]. intros *; apply sendViaEmail_nonNegative.
  - eapply authenticated_nonNegative; [|exact E]. apply claimPayment_nonNegative.
  - eapply authenticated_nonNegative; [|exact E]. apply cancelPayment_nonNegative.
  - eapply cancelEmailPayment_nonNegative; exact E.
Qed.

(** [sendMoney] itself reads the sender without looking at its flags: the
    rejection of a suspended or deleted sender is entirely the work of
    [authenticateUser]. *)
Remark sendMoney_trusts_sender :
  isSuccess (fst (sendMoney Sample.store 1000 3 (Sample.send "b@x.com" 40))) = true.
Proof. reflexivity. Qed.

(** * Further properties *)

(** ** What the database statements do to the store *)

Lemma user_update_balance_inv (id : nat) (d : Z) (s s' : Store) (r : unit) :
  user_update_balance id d s = Some (r, s') ->
  exists u, users s !! id = Some u
            /\ s' = with_users (<[id := User.increment d u]> (users s)) s.
Proof.
  unfold user_update_balance. destruct (users s !! id) as [u|]; [|discriminate].
  intros H; injection H as <- <-. eauto.
Qed.

Lemma transaction_create_inv (row : Transaction.t) (s s' : Store) (i : nat) :
  transaction_create row s = Some (i, s') ->
  i = length (transactions s) /\ s' = with_transactions (transactions s ++ [row]) s.
Proof. intros H; injection H as <- <-. auto. Qed.

Lemma transaction_update_inv (id : nat) f (s s' : Store) (y : Transaction.t) :
  transaction_update id f s = Some (y, s') ->
  exists x, transactions s !! id = Some x /\ y = f x
            /\ s' = with_transactions (<[id := f x]> (transactions s)) s.
Proof.
  unfold transaction_update. destruct (transactions s !! id) as [x|]; [|discriminate].
  intros H; injection H as <- <-. eauto.
Qed.

Lemma emailPayment_create_inv (row : EmailPayment.t) (s s' : Store) (i : nat) :
  emailPayment_create row s = Some (i, s') ->
  i = length (emailPayments s) /\ s' = with_emailPayments (emailPayments s ++ [row]) s.
Proof. intros H; injection H as <- <-. auto. Qed.

Lemma emailPayment_update_inv (id : nat) f (s s' : Store) (q : EmailPayment.t) :
  emailPayment_update id f s = Some (q, s') ->
  exists p, emailPayments s !! id = Some p /\ q = f p
            /\ s' = with_emailPayments (<[id := f p]> (emailPayments s)) s.
Proof.
  unfold emailPayment_update. destruct (emailPayments s !! id) as [p|]; [|discriminate].
  intros H; injection H as <- <-. eauto.
Qed.

(** Replaces the equation of every statement by the store it produces. *)
Ltac tx_inv :=
  repeat match goal with
  | E : user_update_balance _ _ _ = Some _ |- _ =>
      apply user_update_balance_inv in E; destruct E as (? & ? & ->)
  | E : transaction_create _ _ = Some _ |- _ =>
      apply transaction_create_inv in E; destruct E as (-> & ->)
  | E : transaction_update _ _ _ = Some _ |- _ =>
      apply transaction_update_inv in E; destruct E as (? & ? & -> & ->)
  | E : emailPayment_create _ _ = Some _ |- _ =>
      apply emailPayment_create_inv in E; destruct E as (-> & ->)
  | E : emailPayment_update _ _ _ = Some _ |- _ =>
      apply emailPayment_update_inv in E; destruct E as (? & ? & -> & ->)
  end.

(** Walks through the guards of a handler that is known to have succeeded. *)
Ltac handler_accepted H :=
  repeat match type of H with
  | (Failure _ _, _) = (Success _ _, _) => discriminate H
  | (Rejected _ _, _) = (Accepted _ _, _) => discriminate H
  | (if ?c then _ else _) = _ => destruct c eqn:?
  | match ?x with _ => _ end = _ =>
      match x with
      | prisma_transaction _ _ => fail 1
      | _ => lazymatch type of x with
             | option (prod _ _) => destruct x as [[? ?]|] eqn:?
             | _ => destruct x eqn:?
             end
      end
  end.

(** The committed case of a handler that is known to have succeeded. *)
Ltac committed_accepted H E :=
  match type of H with
  | match prisma_transaction ?b ?s with _ => _ end = _ =>
      let r := fresh "r" in let s1 := fresh "s" in let a := fresh "a" in
      destruct (prisma_transaction b s) as [r s1] eqn:E;
      apply prisma_transaction_inv in E as [(a & -> & E)|[-> ->]];
      [ injection H as ? ?; tx_steps E; try (injection E as ? ?); subst
      | discriminate H ]
  end.

(** ** Balances under everyday requests *)

(** X1. Whatever requests are served one after the other, accepted or not,
    as long as none of them is one of the two refunds of the administration:
    if no account is overdrawn and no email payment has a negative amount
    before, the same holds afterwards. *)
Theorem balances_stay_nonNegative (rs : list (Z * Request)) (s : Store) :
  forallb (fun r => negb (isRefund (snd r))) rs = true ->
  nonNegative s -> nonNegative (serveEach s rs).
Proof.
  revert s; induction rs as [|[now r] rs IH]; intros s Hrs Hs; simpl in *; [exact Hs|].
  apply andb_prop in Hrs as [Hr Hrs]. apply negb_true_iff in Hr.
  apply IH; [exact Hrs|].
  destruct (serve s now r) as [ok s1] eqn:E. simpl.
  exact (checked_debits_keep_nonNegative _ _ _ _ _ Hr E Hs).
Qed.

Lemma balances_stay_nonNegative_witness :
  nonNegative (serveEach Sample.store Sample.requests).
Proof.
  apply (balances_stay_nonNegative Sample.requests Sample.store).
  - reflexivity.
  - split; repeat constructor; cbn; lia.
Defined.

(** ** The ledger of transactions *)

Lemma sendMoney_appends (s s' : Store) now uid body res :
  sendMoney s now uid body = (res, s') ->
  exists new, transactions s' = transactions s ++ new.
Proof.
  unfold sendMoney. intros H. handler_guards H; try (exists []; symmetry; apply app_nil_r).
  committed H E; [|exists []; symmetry; apply app_nil_r].
  tx_inv. eexists. reflexivity.
Qed.

Lemma sendViaEmail_appends (s s' : Store) zone code now uid body res :
  sendViaEmail zone code s now uid body = (res, s') ->
  exists new, transactions s' = transactions s ++ new.
Proof.
  unfold sendViaEmail. intros H. handler_guards H; try (exists []; symmetry; apply app_nil_r).
  committed H E; [|exists []; symmetry; apply app_nil_r].
  tx_inv. exists []. symmetry; apply app_nil_r.
Qed.

Lemma claimPayment_appends (s s' : Store) now uid code res :
  claimPayment s now uid code = (res, s') ->
  exists new, transactions s' = transactions s ++ new.
Proof.
  unfold claimPayment. intros H. handler_guards H; try (exists []; symmetry; apply app_nil_r).
  committed H E; [|exists []; symmetry; apply app_nil_r].
  tx_inv. eexists. reflexivity.
Qed.

Lemma cancelPayment_appends (s s' : Store) now uid id res :
  cancelPayment s now uid id = (res, s') ->
  exists new, transactions s' = transactions s ++ new.
Proof.
  unfold cancelPayment. intros H. handler_guards H; try (exists []; symmetry; apply app_nil_r).
  committed H E; [|exists []; symmetry; apply app_nil_r].
  tx_inv. exists []. symmetry; apply app_nil_r.
Qed.

Lemma cancelEmailPayment_appends (s s' : Store) now id reason res :
  cancelEmailPayment s now id reason = (res, s') ->
  exists new, transactions s' = transactions s ++ new.
Proof.
  unfold cancelEmailPayment. intros H.
  handler_guards H; try (exists []; symmetry; apply app_nil_r).
  committed H E; [|exists []; symmetry; apply app_nil_r].
  tx_inv. exists []. symmetry; apply app_nil_r.
Qed.

Lemma resolveDispute_appends (s s' : Store) now id body res :
  resolveDispute s now id body = (res, s') ->
  exists new, transactions s' = transactions s ++ new.
Proof.
  unfold resolveDispute. intros H.
  handler_guards H; try (exists []; symmetry; apply app_nil_r).
  - committed H E; [|exists []; symmetry; apply app_nil_r].
    unfold disputeRefund in E. tx_steps E. tx_inv. eexists. reflexivity.
  - injection H as <- <-. exists []. symmetry; apply app_nil_r.
  - injection H as <- <-. exists []. symmetry; apply app_nil_r.
Qed.

Lemma authenticated_appends {B A} (h : Store -> Z -> nat -> B -> Response A * Store)
    (s s' : Store) now c body res :
  (forall s s' now uid body res, h s now uid body = (res, s') ->
     exists new, transactions s' = transactions s ++ new) ->
  authenticated h s now c body = (res, s') ->
  exists new, transactions s' = transactions s ++ new.
Proof.
  intros Hh. unfold authenticated. destruct (authenticateUser s c) as [uid|[st code]].
  - apply Hh.
  - intros H; injection H as <- <-. exists []. symmetry; apply app_nil_r.
Qed.

Lemma serve_appends (s : Store) (now : Z) (r : Request) :
  isRefundTransaction r = false ->
  exists new, transactions (snd (serve s now r)) = transactions s ++ new.
Proof.
  destruct r; simpl; try discriminate; intros _;
    match goal with |- context [let '(_, _) := ?e in _] =>
      destruct e as [res s1] eqn:E end; cbn [snd].
  - eapply authenticated_appends; [|exact E]. apply sendMoney_appends.
  - eapply authenticated_appends; [|exact E]. intros *; apply sendViaEmail_appends.
  - eapply authenticated_appends; [|exact E]. apply claimPayment_appends.
  - eapply authenticated_appends; [|exact E]. apply cancelPayment_appends.
  - eapply cancelEmailPayment_appends; exact E.
  - eapply resolveDispute_appends; exact E.
Qed.

(** X2. The transaction table is append-only for every request except
    [refundTransaction]: after any sequence of transfers, email payment
    requests and dispute resolutions, accepted or not, the rows that were
    there are still there, unchanged and under the same keys; in particular
    a refund granted on a dispute does not mark the disputed transaction as
    refunded. *)
Theorem ledger_append_only (rs : list (Z * Request)) (s : Store) :
  forallb (fun r => negb (isRefundTransaction (snd r))) rs = true ->
  exists new, transactions (serveEach s rs) = transactions s ++ new.
Proof.
  revert s; induction rs as [|[now r] rs IH]; intros s Hrs; simpl in *.
  - exists []. symmetry; apply app_nil_r.
  - apply andb_prop in Hrs as [Hr Hrs]. apply negb_true_iff in Hr.
    destruct (serve_appends s now r Hr) as [new1 H1].
    destruct (IH (snd (serve s now r)) Hrs) as [new2 H2].
    exists (new1 ++ new2). rewrite H2, H1, app_assoc. reflexivity.
Qed.

Lemma ledger_append_only_witness :
  exists new,
    transactions (serveEach SampleDispute.disputed
      [(4000, AdminResolveDispute 0 (ResolveDisputeBody.mk "partial refund" (Some 30)))])
    = transactions SampleDispute.disputed ++ new.
Proof.
  apply (ledger_append_only
           [(4000, AdminResolveDispute 0 (ResolveDisputeBody.mk "partial refund" (Some 30)))]
           SampleDispute.disputed).
  reflexivity.
Defined.

(** ** Refunds happen once *)

Lemma increment_back (d : Z) (u : User.t) : User.increment (- d) (User.increment d u) = u.
Proof. destruct u as [e b sus del k f c]. unfold User.increment. cbn. f_equal. lia. Qed.

Lemma increment_forth (d : Z) (u : User.t) : User.increment d (User.increment (- d) u) = u.
Proof. destruct u as [e b sus del k f c]. unfold User.increment. cbn. f_equal. lia. Qed.

(** The store after a refund that commits. *)
Lemma refundTransaction_commits (s : Store) (now : Z) (id : nat) (x : Transaction.t)
    (sender recipient : User.t) (reason : string) :
  transactions s !! id = Some x ->
  Transaction.status x = TX_COMPLETED ->
  Transaction.isRefunded x = false ->
  users s !! Transaction.senderId x = Some sender ->
  users s !! Transaction.recipientId x = Some recipient ->
  String.eqb reason "" = false ->
  exists debited,
    <[Transaction.senderId x := User.increment (Transaction.amount x) sender]> (users s)
      !! Transaction.recipientId x = Some debited
    /\ refundTransaction s now id reason
       = (Success 200 (Transaction.markRefunded x, length (transactions s)),
          with_transactions
            (<[id := Transaction.markRefunded x]> (transactions s) ++
             [Transaction.mk (Transaction.recipientId x) (Transaction.senderId x)
                (Transaction.amount x) (Transaction.currency x) REFUND TX_COMPLETED
                false false now (Metadata.mk (Some id) None None)])
            (with_users
               (<[Transaction.recipientId x := User.increment (- Transaction.amount x) debited]>
                  (<[Transaction.senderId x := User.increment (Transaction.amount x) sender]>
                     (users s)))
               s)).
Proof.
  intros Hx Hst Href Hs Hr Hreason.
  destruct (lookup_lt_is_Some_2
              (<[Transaction.senderId x := User.increment (Transaction.amount x) sender]>
                 (users s)) (Transaction.recipientId x)) as [debited Hd].
  { rewrite length_insert. eapply lookup_lt_Some; exact Hr. }
  exists debited. split; [exact Hd|].
  unfold refundTransaction. rewrite Hreason, Hx, Hst, Href.
  unfold prisma_transaction, tx_bind, transaction_update, user_update_balance,
    transaction_create, tx_ret.
  rewrite Hx. cbn [users transactions with_transactions with_users].
  rewrite Hs. cbn [users transactions with_transactions with_users].
  rewrite Hd. cbn [users transactions with_transactions with_users].
  rewrite length_insert. reflexivity.
Qed.

(** X3. A completed transaction that has not been refunded yet is refunded by
    [refundTransaction] as follows: its row is marked as refunded and nothing
    else in it changes, and one completed REFUND transaction of the same
    amount from the recipient to the sender is appended.  Any later refund of
    the same transaction is answered ALREADY_REFUNDED and changes nothing. *)
Theorem refund_transaction_once (s : Store) (now : Z) (id : nat) (x : Transaction.t)
    (sender recipient : User.t) (reason : string) :
  transactions s !! id = Some x ->
  Transaction.status x = TX_COMPLETED ->
  Transaction.isRefunded x = false ->
  users s !! Transaction.senderId x = Some sender ->
  users s !! Transaction.recipientId x = Some recipient ->
  String.eqb reason "" = false ->
  exists s',
    refundTransaction s now id reason
      = (Success 200 (Transaction.markRefunded x, length (transactions s)), s')
    /\ transactions s'
       = <[id := Transaction.markRefunded x]> (transactions s) ++
         [Transaction.mk (Transaction.recipientId x) (Transaction.senderId x)
            (Transaction.amount x) (Transaction.currency x) REFUND TX_COMPLETED
            false false now (Metadata.mk (Some id) None None)]
    /\ forall now' reason', String.eqb reason' "" = false ->
         refundTransaction s' now' id reason' = (Failure 400 ALREADY_REFUNDED, s').
Proof.
  intros Hx Hst Href Hs Hr Hreason.
  assert (Hid : (id < length (transactions s))%nat) by (eapply lookup_lt_Some; exact Hx).
  destruct (refundTransaction_commits s now id x sender recipient reason
              Hx Hst Href Hs Hr Hreason) as (debited & _ & Hc).
  eexists. split; [exact Hc|]. cbn [transactions with_transactions].
  split; [reflexivity|].
  intros now' reason' Hreason'. unfold refundTransaction. rewrite Hreason'.
  cbn [transactions with_transactions].
  rewrite lookup_app_l by (rewrite length_insert; exact Hid).
  rewrite list_lookup_insert_eq by exact Hid.
  cbn [Transaction.status Transaction.isRefunded Transaction.markRefunded].
  rewrite Hst. reflexivity.
Qed.

Lemma refund_transaction_once_witness :
  exists s',
    transactions s'
      = <[0%nat := Transaction.markRefunded
                     (Transaction.mk Sample.a Sample.b 100 "USDC" P2P TX_COMPLETED false false
                        1000 Metadata.empty)]> (transactions SampleDispute.ledger) ++
        [Transaction.mk Sample.b Sample.a 100 "USDC" REFUND TX_COMPLETED false false 3000
           (Metadata.mk (Some 0%nat) None None)]
    /\ refundTransaction s' 3500 0 "again" = (Failure 400 ALREADY_REFUNDED, s').
Proof.
  destruct (refund_transaction_once SampleDispute.ledger 3000 0%nat
              (Transaction.mk Sample.a Sample.b 100 "USDC" P2P TX_COMPLETED false false 1000
                 Metadata.empty)
              (User.increment (-100) Sample.userA)
              (User.increment (-100) (User.increment 100 Sample.userB))
              "sent by mistake" eq_refl eq_refl eq_refl eq_refl eq_refl eq_refl)
    as (s' & _ & Ht & Hagain).
  exists s'. split; [exact Ht|]. apply Hagain. reflexivity.
Defined.

(** The store after a transfer that commits. *)
Lemma sendMoney_accepted (s s1 : Store) (now : Z) (a tid : nat) (body : SendMoneyBody.t)
    (row : Transaction.t) :
  sendMoney s now a body = (Success 201 (tid, row), s1) ->
  exists b ua ub amount,
    users s !! a = Some ua /\ users s !! b = Some ub /\ a <> b
    /\ 0 < amount /\ amount <= User.balance ua
    /\ SendMoneyBody.amount body = Some amount
    /\ findFirst (fun u => String.eqb (User.email u)
                             (toLowerCase (SendMoneyBody.recipientEmail body))) (users s)
       = Some (b, ub)
    /\ User.isSuspended ub = false /\ User.isDeleted ub = false
    /\ tid = length (transactions s)
    /\ row = Transaction.mk a b amount (currency_or_default (SendMoneyBody.currency body))
               P2P TX_COMPLETED false false now Metadata.empty
    /\ s1 = with_transactions (transactions s ++ [row])
              (with_users (<[b := User.increment amount ub]>
                             (<[a := User.increment (- amount) ua]> (users s))) s).
Proof.
  intros H. unfold sendMoney in H. handler_accepted H. committed_accepted H E.
  tx_inv.
  match goal with P : (_, _) = (tid, row) |- _ =>
    cbn [transactions with_users] in P; injection P as <- <- end.
  match goal with F : findFirst _ _ = Some (?b, _) |- _ =>
    rename F into Hf; destruct (findFirst_lookup _ _ _ _ Hf) as [Hb _] end.
  match goal with N : Nat.eqb _ _ = false |- _ => apply Nat.eqb_neq in N; rename N into Hab end.
  cbn [users with_users] in *.
  match goal with L1 : users s !! a = Some ?u, L2 : users s !! a = Some ?v |- _ =>
    rewrite L1 in L2; injection L2 as <- end.
  match goal with L : <[a := _]> (users s) !! _ = Some _ |- _ =>
    rewrite list_lookup_insert_ne in L by exact Hab; rewrite Hb in L; injection L as <- end.
  match goal with L : (_ <=? 0) = false |- _ => apply Z.leb_gt in L end.
  match goal with L : (_ <? _) = false |- _ => apply Z.ltb_ge in L end.
  match goal with L : _ || _ = false |- _ => apply orb_false_elim in L as [? ?] end.
  match goal with L : _ || _ = false |- _ => apply orb_false_elim in L as [? ?] end.
  destruct (SendMoneyBody.amount body) as [amount|] eqn:Ha; [|discriminate].
  cbn [default] in *.
  do 4 eexists. repeat split; try eassumption; reflexivity.
Qed.

(** X4. A transfer followed by the refund of the transaction it created puts
    every account back to the balance it had: the table of users is the one
    from before the transfer. *)
Theorem refund_undoes_transfer (s s1 : Store) (now now' : Z) (a tid : nat)
    (body : SendMoneyBody.t) (row : Transaction.t) (reason : string) :
  sendMoney s now a body = (Success 201 (tid, row), s1) ->
  String.eqb reason "" = false ->
  exists s2,
    refundTransaction s1 now' tid reason
      = (Success 200 (Transaction.markRefunded row, S tid), s2)
    /\ users s2 = users s.
Proof.
  intros H Hreason.
  destruct (sendMoney_accepted _ _ _ _ _ _ _ H)
    as (b & ua & ub & amount & Ha & Hb & Hab & _ & _ & _ & _ & _ & _ & -> & -> & ->).
  assert (Hla := lookup_lt_Some _ _ _ Ha). assert (Hlb := lookup_lt_Some _ _ _ Hb).
  set (row := Transaction.mk a b amount _ P2P TX_COMPLETED false false now Metadata.empty).
  set (us1 := <[b := User.increment amount ub]>
                (<[a := User.increment (- amount) ua]> (users s))).
  assert (Hua : us1 !! a = Some (User.increment (- amount) ua)).
  { unfold us1. rewrite list_lookup_insert_ne by auto.
    apply list_lookup_insert_eq; exact Hla. }
  assert (Hub : us1 !! b = Some (User.increment amount ub)).
  { unfold us1. apply list_lookup_insert_eq. rewrite length_insert. exact Hlb. }
  destruct (refundTransaction_commits
              (with_transactions (transactions s ++ [row]) (with_users us1 s))
              now' (length (transactions s)) row
              (User.increment (- amount) ua) (User.increment amount ub) reason)
    as (debited & Hd & Hc); try reflexivity; try assumption.
  { cbn [transactions with_transactions]. apply list_lookup_middle. reflexivity. }
  cbn [users with_transactions with_users Transaction.senderId Transaction.recipientId
       Transaction.amount row] in Hd.
  rewrite list_lookup_insert_ne in Hd by exact Hab. rewrite Hub in Hd. injection Hd as <-.
  eexists. split.
  - rewrite Hc. cbn [transactions with_transactions]. rewrite length_app. cbn [length].
    replace (length (transactions s) + 1)%nat with (S (length (transactions s))) by lia.
    reflexivity.
  - cbn [users with_transactions with_users Transaction.senderId Transaction.recipientId
         Transaction.amount row].
    rewrite increment_forth, increment_back. unfold us1.
    rewrite (list_insert_insert_ne _ a b) by exact Hab.
    rewrite !list_insert_insert_eq.
    rewrite (list_insert_id _ a ua) by exact Ha.
    apply list_insert_id; exact Hb.
Qed.

Lemma refund_undoes_transfer_witness :
  exists s2,
    refundTransaction (snd (sendMoney Sample.store 1000 Sample.a (Sample.send "b@x.com" 40)))
      2000 0 "sent by mistake"
      = (Success 200
           (Transaction.markRefunded
              (Transaction.mk Sample.a Sample.b 40 "USDC" P2P TX_COMPLETED false false 1000
                 Metadata.empty), 1%nat), s2)
    /\ users s2 = users Sample.store.
Proof.
  apply (refund_undoes_transfer Sample.store _ 1000 2000 Sample.a 0%nat
           (Sample.send "b@x.com" 40)); reflexivity.
Defined.

(** X5. A dispute is resolved once: after [resolveDispute] has accepted a
    resolution, with or without a refund, every further resolution of the
    same dispute is answered DISPUTE_ALREADY_RESOLVED and changes nothing, so
    a dispute gives rise to at most one refund. *)
Theorem dispute_resolved_once (s s' : Store) (now : Z) (id : nat)
    (body : ResolveDisputeBody.t) (data : Dispute.t * option nat) :
  resolveDispute s now id body = (Success 200 data, s') ->
  forall now' body',
    String.eqb (ResolveDisputeBody.resolution body') "" = false ->
    resolveDispute s' now' id body' = (Failure 400 DISPUTE_ALREADY_RESOLVED, s').
Proof.
  intros H now' body' Hres.
  assert (Hd : exists d, disputes s' !! id = Some d /\ Dispute.status d = RESOLVED).
  { unfold resolveDispute in H. handler_accepted H.
    - committed_accepted H E. unfold disputeRefund in E. tx_steps E. tx_inv.
      cbn [disputes with_disputes with_transactions with_users].
      eexists. split; [apply list_lookup_insert_eq; eapply lookup_lt_Some; eassumption|].
      reflexivity.
    - injection H as _ <-. cbn [disputes with_disputes].
      eexists. split; [apply list_lookup_insert_eq; eapply lookup_lt_Some; eassumption|].
      reflexivity.
    - injection H as _ <-. cbn [disputes with_disputes].
      eexists. split; [apply list_lookup_insert_eq; eapply lookup_lt_Some; eassumption|].
      reflexivity. }
  destruct Hd as (d & Hd & Hst).
  unfold resolveDispute. rewrite Hres, Hd, Hst. reflexivity.
Qed.

Lemma dispute_resolved_once_witness :
  resolveDispute SampleDispute.refunded 5000 0 (ResolveDisputeBody.mk "once more" (Some 30))
  = (Failure 400 DISPUTE_ALREADY_RESOLVED, SampleDispute.refunded).
Proof.
  eapply (dispute_resolved_once SampleDispute.disputed SampleDispute.refunded 4000 0%nat
            (ResolveDisputeBody.mk "partial refund" (Some 30))); reflexivity.
Defined.

(** ** Email payments: cancellation and settlement *)

(** What [cancelPayment] answers for an existing payment and requester. *)
Lemma cancelPayment_cases (s : Store) (now : Z) (uid id : nat) (user : User.t)
    (hold : EmailPayment.t) :
  emailPayments s !! id = Some hold ->
  users s !! uid = Some user ->
  cancelPayment s now uid id =
    if negb (Nat.eqb (EmailPayment.senderId hold) uid) then (Failure 404 PAYMENT_NOT_FOUND, s)
    else if negb (isPending hold) then (Failure 400 PAYMENT_NOT_PENDING, s)
    else (Success 200 (EmailPayment.cancel hold),
          with_users (<[uid := User.increment (EmailPayment.amount hold) user]> (users s))
            (with_emailPayments (<[id := EmailPayment.cancel hold]> (emailPayments s)) s)).
Proof.
  intros Hh Hu. unfold cancelPayment. rewrite Hh.
  destruct (negb (Nat.eqb (EmailPayment.senderId hold) uid)); [reflexivity|].
  destruct (negb (isPending hold)); [reflexivity|].
  unfold prisma_transaction, tx_bind, emailPayment_update, user_update_balance, tx_ret.
  rewrite Hh. cbn [users with_emailPayments]. rewrite Hu. reflexivity.
Qed.

(** X6. The sender of an email payment can cancel it exactly while it is
    pending, whether or not it has expired: [cancelPayment] does not look at
    the clock.  The cancellation marks the payment CANCELLED, returns exactly
    its amount to the sender and leaves every other balance alone; a second
    cancellation is answered PAYMENT_NOT_PENDING.  Somebody who is not the
    sender gets PAYMENT_NOT_FOUND. *)
Theorem cancel_refunds_sender (s : Store) (now : Z) (uid id : nat) (user : User.t)
    (hold : EmailPayment.t) :
  emailPayments s !! id = Some hold ->
  users s !! uid = Some user ->
  let r := cancelPayment s now uid id in
  (isSuccess (fst r) = true <->
     EmailPayment.senderId hold = uid /\ EmailPayment.status hold = EP_PENDING)
  /\ (EmailPayment.senderId hold <> uid -> r = (Failure 404 PAYMENT_NOT_FOUND, s))
  /\ (EmailPayment.senderId hold = uid -> EmailPayment.status hold = EP_PENDING ->
      fst r = Success 200 (EmailPayment.cancel hold)
      /\ EmailPayment.status <$> emailPayments (snd r) !! id = Some EP_CANCELLED
      /\ balanceOf (snd r) uid = Some (User.balance user + EmailPayment.amount hold)
      /\ (forall other, other <> uid -> balanceOf (snd r) other = balanceOf s other)
      /\ transactions (snd r) = transactions s
      /\ forall now', cancelPayment (snd r) now' uid id
                      = (Failure 400 PAYMENT_NOT_PENDING, snd r)).
Proof.
  intros Hh Hu r. subst r. rewrite (cancelPayment_cases _ _ _ _ _ _ Hh Hu).
  destruct (Nat.eqb (EmailPayment.senderId hold) uid) eqn:Hs; cbn [negb].
  2:{ apply Nat.eqb_neq in Hs. cbn [fst snd isSuccess].
      split; [split; [discriminate | tauto]|]. split; [reflexivity | tauto]. }
  apply Nat.eqb_eq in Hs.
  destruct (isPending hold) eqn:Hp; cbn [negb].
  2:{ assert (EmailPayment.status hold <> EP_PENDING).
      { intros E. apply isPending_status in E. congruence. }
      cbn [fst snd isSuccess]. split; [split; [discriminate | tauto]|]. split; tauto. }
  apply isPending_status in Hp. cbn [fst snd isSuccess].
  split; [tauto|]. split; [tauto|]. intros _ _.
  assert (Hlh := lookup_lt_Some _ _ _ Hh). assert (Hlu := lookup_lt_Some _ _ _ Hu).
  split; [reflexivity|].
  cbn [emailPayments users transactions with_users with_emailPayments].
  split; [rewrite list_lookup_insert_eq by exact Hlh; reflexivity|].
  split; [unfold balanceOf; cbn [users with_users];
          rewrite list_lookup_insert_eq by exact Hlu; reflexivity|].
  split; [intros other Hne; unfold balanceOf; cbn [users with_users];
          rewrite list_lookup_insert_ne by auto; reflexivity|].
  split; [reflexivity|].
  intros now'. unfold cancelPayment.
  cbn [emailPayments users with_users with_emailPayments].
  rewrite list_lookup_insert_eq by exact Hlh.
  cbn [EmailPayment.senderId EmailPayment.cancel]. rewrite Hs, Nat.eqb_refl. reflexivity.
Qed.

Lemma cancel_refunds_sender_witness :
  fst (cancelPayment SampleEscrow.store 9000 Sample.a 0) = Success 200 (EmailPayment.cancel SampleEscrow.hold)
  /\ balanceOf (snd (cancelPayment SampleEscrow.store 9000 Sample.a 0)) Sample.a = Some 60
  /\ cancelPayment (snd (cancelPayment SampleEscrow.store 9000 Sample.a 0)) 9001 Sample.a 0
     = (Failure 400 PAYMENT_NOT_PENDING, snd (cancelPayment SampleEscrow.store 9000 Sample.a 0)).
Proof.
  destruct (cancel_refunds_sender SampleEscrow.store 9000 Sample.a 0%nat
              (User.increment (-65) Sample.userA) SampleEscrow.hold eq_refl eq_refl)
    as (_ & _ & Hok).
  destruct (Hok eq_refl eq_refl) as (Hr & _ & Hb & _ & _ & Hagain).
  split; [exact Hr|]. split; [exact Hb|]. apply Hagain.
Defined.

(** A row that is not pending is not the one a guarded update replaces. *)
Lemma settled_not_updated (l : list EmailPayment.t) (i pid : nat) (p q hd : EmailPayment.t) :
  l !! i = Some p -> isPending p = true ->
  l !! pid = Some hd -> isPending hd = false ->
  <[i := q]> l !! pid = Some hd.
Proof.
  intros Hp Hpp Hh Hhp. destruct (decide (i = pid)) as [->|Hne].
  - rewrite Hp in Hh. injection Hh as ->. congruence.
  - rewrite list_lookup_insert_ne by exact Hne. exact Hh.
Qed.

Ltac settled_frame :=
  tx_inv; cbn [emailPayments with_emailPayments with_users with_transactions with_disputes];
  first [ assumption
        | rewrite lookup_app_l by (eapply lookup_lt_Some; eassumption); assumption
        | eapply settled_not_updated; eauto ].

Lemma sendMoney_settled (s s' : Store) now uid body res pid hd :
  sendMoney s now uid body = (res, s') ->
  emailPayments s !! pid = Some hd -> isPending hd = false ->
  emailPayments s' !! pid = Some hd.
Proof.
  unfold sendMoney. intros H Hh Hp. handler_guards H; try assumption.
  committed H E; [|assumption]. settled_frame.
Qed.

Lemma sendViaEmail_settled (s s' : Store) zone code now uid body res pid hd :
  sendViaEmail zone code s now uid body = (res, s') ->
  emailPayments s !! pid = Some hd -> isPending hd = false ->
  emailPayments s' !! pid = Some hd.
Proof.
  unfold sendViaEmail. intros H Hh Hp. handler_guards H; try assumption.
  committed H E; [|assumption]. settled_frame.
Qed.

Lemma claimPayment_settled (s s' : Store) now uid code res pid hd :
  claimPayment s now uid code = (res, s') ->
  emailPayments s !! pid = Some hd -> isPending hd = false ->
  emailPayments s' !! pid = Some hd.
Proof.
  unfold claimPayment. intros H Hh Hp. handler_guards H; try assumption.
  committed H E; [|assumption].
  match goal with F : findFirst _ _ = Some _ |- _ =>
    apply findFirst_lookup in F as [Hl Hq]; apply andb_prop in Hq as [_ Hq] end.
  tx_inv. cbn [emailPayments with_emailPayments with_users with_transactions].
  eapply settled_not_updated; [exact Hl | exact Hq | exact Hh | exact Hp].
Qed.

Lemma cancelPayment_settled (s s' : Store) now uid id res pid hd :
  cancelPayment s now uid id = (res, s') ->
  emailPayments s !! pid = Some hd -> isPending hd = false ->
  emailPayments s' !! pid = Some hd.
Proof.
  unfold cancelPayment. intros H Hh Hp. handler_guards H; try assumption.
  committed H E; [|assumption].
  match goal with P : negb (isPending ?p) = false, L : emailPayments s !! _ = Some ?p |- _ =>
    apply negb_false_iff in P; rename P into Hq; rename L into Hl end.
  tx_inv. cbn [emailPayments with_emailPayments with_users with_transactions].
  eapply settled_not_updated; [exact Hl | exact Hq | exact Hh | exact Hp].
Qed.

Lemma cancelEmailPayment_settled (s s' : Store) now id reason res pid hd :
  cancelEmailPayment s now id reason = (res, s') ->
  emailPayments s !! pid = Some hd -> isPending hd = false ->
  emailPayments s' !! pid = Some hd.
Proof.
  unfold cancelEmailPayment. intros H Hh Hp. handler_guards H; try assumption.
  committed H E; [|assumption].
  match goal with P : negb (isPending ?p) = false, L : emailPayments s !! _ = Some ?p |- _ =>
    apply negb_false_iff in P; rename P into Hq; rename L into Hl end.
  tx_inv. cbn [emailPayments with_emailPayments with_users with_transactions].
  eapply settled_not_updated; [exact Hl | exact Hq | exact Hh | exact Hp].
Qed.

Lemma resolveDispute_settled (s s' : Store) now id body res pid hd :
  resolveDispute s now id body = (res, s') ->
  emailPayments s !! pid = Some hd -> isPending hd = false ->
  emailPayments s' !! pid = Some hd.
Proof.
  unfold resolveDispute. intros H Hh Hp. handler_guards H; try assumption.
  - committed H E; [|assumption]. unfold disputeRefund in E. tx_steps E. settled_frame.
  - injection H as <- <-. assumption.
  - injection H as <- <-. assumption.
Qed.

Lemma refundTransaction_settled (s s' : Store) now id reason res pid hd :
  refundTransaction s now id reason = (res, s') ->
  emailPayments s !! pid = Some hd -> isPending hd = false ->
  emailPayments s' !! pid = Some hd.
Proof.
  unfold refundTransaction. intros H Hh Hp. handler_guards H; try assumption.
  committed H E; [|assumption]. settled_frame.
Qed.

Lemma authenticated_settled {B A} (h : Store -> Z -> nat -> B -> Response A * Store)
    (s s' : Store) now c body res pid hd :
  (forall s s' now uid body res, h s now uid body = (res, s') ->
     emailPayments s !! pid = Some hd -> isPending hd = false ->
     emailPayments s' !! pid = Some hd) ->
  authenticated h s now c body = (res, s') ->
  emailPayments s !! pid = Some hd -> isPending hd = false ->
  emailPayments s' !! pid = Some hd.
Proof.
  intros Hh. unfold authenticated. destruct (authenticateUser s c) as [uid|[st code]].
  - apply Hh.
  - intros H; injection H as <- <-. auto.
Qed.

Lemma serve_settled (s : Store) (now : Z) (r : Request) pid hd :
  emailPayments s !! pid = Some hd -> isPending hd = false ->
  emailPayments (snd (serve s now r)) !! pid = Some hd.
Proof.
  intros Hh Hp. destruct r; simpl;
    match goal with |- context [let '(_, _) := ?e in _] =>
      destruct e as [res s1] eqn:E end; cbn [snd].
  - eapply authenticated_settled; [|exact E|exact Hh|exact Hp]. intros *; apply sendMoney_settled.
  - eapply authenticated_settled; [|exact E|exact Hh|exact Hp]. intros *; apply sendViaEmail_settled.
  - eapply authenticated_settled; [|exact E|exact Hh|exact Hp]. intros *; apply claimPayment_settled.
  - eapply authenticated_settled; [|exact E|exact Hh|exact Hp]. intros *; apply cancelPayment_settled.
  - eapply cancelEmailPayment_settled; eauto.
  - eapply resolveDispute_settled; eauto.
  - eapply refundTransaction_settled; eauto.
Qed.

(** X7. An email payment that has been claimed or cancelled is final: no
    sequence of requests, whoever makes them and whether they are accepted or
    not, changes its row again.  As balances are credited from an email
    payment only together with its change from PENDING to CLAIMED or
    CANCELLED, its amount is paid out at most once. *)
Theorem settled_payment_is_final (rs : list (Z * Request)) (s : Store) (pid : nat)
    (hd : EmailPayment.t) :
  emailPayments s !! pid = Some hd ->
  isPending hd = false ->
  emailPayments (serveEach s rs) !! pid = Some hd.
Proof.
  revert s; induction rs as [|[now r] rs IH]; intros s Hh Hp; simpl; [exact Hh|].
  apply IH; [|exact Hp]. apply serve_settled; assumption.
Qed.

Lemma settled_payment_is_final_witness :
  emailPayments
    (serveEach (snd (claimPayment SampleEscrow.store 3000 Sample.b "c0de01"))
       [(3500, PostEmailPaymentsCancel (Token Sample.a) 0%nat);
        (3600, AdminCancelEmailPayment 0 "fraud");
        (3700, PostEmailPaymentsClaim (Token Sample.b) "c0de01")]) !! 0%nat
  = Some (EmailPayment.claim Sample.b SampleEscrow.hold).
Proof.
  apply (settled_payment_is_final _ (snd (claimPayment SampleEscrow.store 3000 Sample.b "c0de01")));
    reflexivity.
Defined.

(** The store after an email payment that commits. *)
Lemma sendViaEmail_accepted (s s1 : Store) (zone : TimeZone.t) (code : string) (now : Z)
    (a id : nat) (body : SendViaEmailBody.t) (row : EmailPayment.t) :
  sendViaEmail zone code s now a body = (Success 201 (id, row), s1) ->
  exists ua amount expiresAt,
    users s !! a = Some ua /\ 0 < amount /\ amount <= User.balance ua
    /\ SendViaEmailBody.amount body = Some amount
    /\ addDays zone now (or_default (SendViaEmailBody.expiryDays body) 7) = Some expiresAt
    /\ id = length (emailPayments s)
    /\ row = EmailPayment.mk a (toLowerCase (SendViaEmailBody.recipientEmail body)) amount
               (currency_or_default (SendViaEmailBody.currency body)) code expiresAt
               EP_PENDING None
    /\ s1 = with_emailPayments (emailPayments s ++ [row])
              (with_users (<[a := User.increment (- amount) ua]> (users s)) s).
Proof.
  intros H. unfold sendViaEmail in H. handler_accepted H. committed_accepted H E.
  tx_inv.
  match goal with P : (_, _) = (id, row) |- _ =>
    cbn [emailPayments with_users] in P; injection P as <- <- end.
  match goal with L1 : users s !! a = Some ?u, L2 : users s !! a = Some ?v |- _ =>
    rewrite L1 in L2; injection L2 as <- end.
  match goal with L : (_ <=? 0) = false |- _ => apply Z.leb_gt in L end.
  match goal with L : (_ <? _) = false |- _ => apply Z.ltb_ge in L end.
  destruct (SendViaEmailBody.amount body) as [amount|] eqn:Ha;
    [|match goal with L : _ || _ = false |- _ =>
        apply orb_false_elim in L as [_ L]; discriminate L end].
  cbn [default] in *.
  do 3 eexists. repeat split; try eassumption; reflexivity.
Qed.

(** X8. An email payment that its sender cancels, at any later time, leaves
    every account with the balance from before the payment was created: the
    table of users is restored, and so is the total value. *)
Theorem cancel_undoes_email_payment (s s1 : Store) (zone : TimeZone.t) (code : string)
    (now now' : Z) (a id : nat) (body : SendViaEmailBody.t) (row : EmailPayment.t) :
  sendViaEmail zone code s now a body = (Success 201 (id, row), s1) ->
  exists s2,
    cancelPayment s1 now' a id = (Success 200 (EmailPayment.cancel row), s2)
    /\ users s2 = users s
    /\ totalValue s2 = totalValue s.
Proof.
  intros H.
  destruct (sendViaEmail_accepted _ _ _ _ _ _ _ _ _ H)
    as (ua & amount & expiresAt & Ha & _ & _ & _ & _ & -> & Hrow & ->).
  assert (Hla := lookup_lt_Some _ _ _ Ha).
  set (s1 := with_emailPayments (emailPayments s ++ [row])
               (with_users (<[a := User.increment (- amount) ua]> (users s)) s)) in *.
  assert (Hcancel : cancelPayment s1 now' a (length (emailPayments s))
            = (Success 200 (EmailPayment.cancel row),
               with_users (<[a := User.increment (EmailPayment.amount row)
                                     (User.increment (- amount) ua)]> (users s1))
                 (with_emailPayments
                    (<[length (emailPayments s) := EmailPayment.cancel row]> (emailPayments s1))
                    s1))).
  { rewrite (cancelPayment_cases s1 now' a (length (emailPayments s))
               (User.increment (- amount) ua) row).
    - rewrite Hrow. cbn [EmailPayment.senderId isPending EmailPayment.status negb].
      rewrite Nat.eqb_refl. reflexivity.
    - unfold s1. cbn [emailPayments with_emailPayments with_users].
      apply list_lookup_middle. reflexivity.
    - unfold s1. cbn [users with_emailPayments with_users].
      apply list_lookup_insert_eq. exact Hla. }
  eexists. split; [exact Hcancel|]. split.
  - unfold s1. cbn [users with_users with_emailPayments].
    rewrite Hrow. cbn [EmailPayment.amount].
    rewrite list_insert_insert_eq, increment_forth. apply list_insert_id; exact Ha.
  - rewrite (cancelPayment_total _ _ _ _ _ _ Hcancel).
    exact (sendViaEmail_total _ _ _ _ _ _ _ _ H).
Qed.

Lemma cancel_undoes_email_payment_witness :
  exists s2,
    cancelPayment (snd (sendViaEmail utc "c0de07" Sample.store 1000 Sample.a
                          (Sample.sendByEmail "z@x.com" 30 7))) 999000000 Sample.a 0
    = (Success 200
         (EmailPayment.cancel
            (EmailPayment.mk Sample.a "z@x.com" 30 "USDC" "c0de07" 604801000 EP_PENDING None)),
       s2)
    /\ users s2 = users Sample.store
    /\ totalValue s2 = totalValue Sample.store.
Proof.
  apply (cancel_undoes_email_payment Sample.store _ utc "c0de07" 1000 999000000 Sample.a 0%nat
           (Sample.sendByEmail "z@x.com" 30 7)).
  reflexivity.
Defined.

Lemma find_from_fresh {A} (p : A -> bool) (l : list A) (x : A) (k : nat) :
  forallb (fun y => negb (p y)) l = true -> p x = true ->
  find_from p k (l ++ [x]) = Some ((k + length l)%nat, x).
Proof.
  revert k; induction l as [|y l IH]; intros k Hl Hx; simpl in *.
  - rewrite Hx. f_equal. f_equal. lia.
  - apply andb_prop in Hl as [Hy Hl]. apply negb_true_iff in Hy. rewrite Hy.
    rewrite (IH (S k) Hl Hx). f_equal. f_equal. lia.
Qed.

(** X9. Paying by email and claiming moves the same money as a direct
    transfer.  Whenever [sendMoney] to an address succeeds and the expiry
    date, the day of the request moved by [expiryDays] (by default 7) days
    of the local calendar, is a valid date, an email payment of the same
    amount to that address under a claim code no payment carries yet
    succeeds as well and expires on that date; the account the transfer
    would have credited can claim it as long as the date has not passed, and
    once claimed every account holds what it would hold after the
    transfer. *)
Theorem email_payment_equals_transfer (s sm : Store) (zone : TimeZone.t)
    (now now2 expiresAt : Z) (a tid : nat) (e : string) (amount : option Z)
    (cur : option string) (days : option Z) (row : Transaction.t) (code : string) :
  sendMoney s now a (SendMoneyBody.mk e amount cur) = (Success 201 (tid, row), sm) ->
  forallb (fun p => negb (String.eqb (EmailPayment.claimCode p) code)) (emailPayments s) = true ->
  String.eqb code "" = false ->
  addDays zone now (or_default days 7) = Some expiresAt ->
  now2 <= expiresAt ->
  exists hold s1 s2,
    sendViaEmail zone code s now a (SendViaEmailBody.mk e amount days cur)
      = (Success 201 (length (emailPayments s), hold), s1)
    /\ EmailPayment.expiresAt hold = expiresAt
    /\ claimPayment s1 now2 (Transaction.recipientId row) code
       = (Success 200 (EmailPayment.claim (Transaction.recipientId row) hold), s2)
    /\ users s2 = users sm.
Proof.
  intros H Hfresh Hcode Hexp Hnow.
  destruct (sendMoney_accepted _ _ _ _ _ _ _ H)
    as (b & ua & ub & amt & Ha & Hb & Hab & Hpos & Hbal & Hamt & Hf & _ & _ & _ & -> & ->).
  cbn [SendMoneyBody.amount SendMoneyBody.recipientEmail SendMoneyBody.currency] in *.
  subst amount.
  destruct (findFirst_lookup _ _ _ _ Hf) as [_ Hmail]. cbn beta in Hmail.
  assert (He : String.eqb e "" = false).
  { pose proof H as H'. unfold sendMoney in H'. cbn [SendMoneyBody.recipientEmail] in H'.
    destruct (String.eqb e "") eqn:E; [|reflexivity]. discriminate H'. }
  assert (Hla := lookup_lt_Some _ _ _ Ha).
  set (hold := EmailPayment.mk a (toLowerCase e) amt (currency_or_default cur) code
                 expiresAt EP_PENDING None).
  set (s1 := with_emailPayments (emailPayments s ++ [hold])
               (with_users (<[a := User.increment (- amt) ua]> (users s)) s)).
  exists hold, s1. eexists.
  split.
  { unfold sendViaEmail.
    cbn [SendViaEmailBody.recipientEmail SendViaEmailBody.amount SendViaEmailBody.currency
         SendViaEmailBody.expiryDays falsy_amount default from_option id].
    rewrite He, Ha, Hexp.
    replace (amt =? 0) with false by (symmetry; apply Z.eqb_neq; lia).
    replace (amt <=? 0) with false by (symmetry; apply Z.leb_gt; lia).
    replace (User.balance ua <? amt) with false by (symmetry; apply Z.ltb_ge; lia).
    cbn [orb]. unfold prisma_transaction, tx_bind, user_update_balance, date_value,
      emailPayment_create, tx_ret.
    rewrite Ha. reflexivity. }
  split; [reflexivity|].
  cbn [Transaction.recipientId].
  unfold claimPayment. rewrite Hcode.
  unfold findFirst, s1. cbn [emailPayments users with_emailPayments with_users].
  rewrite find_from_fresh.
  2:{ apply forallb_forall. intros p Hin. rewrite forallb_forall in Hfresh.
      specialize (Hfresh p Hin). apply negb_true_iff in Hfresh.
      cbn beta. rewrite Hfresh. reflexivity. }
  2:{ cbn. rewrite String.eqb_refl. reflexivity. }
  cbn [EmailPayment.expiresAt hold].
  replace (expiresAt <? now2) with false by (symmetry; apply Z.ltb_ge; lia).
  rewrite list_lookup_insert_ne by exact Hab. rewrite Hb.
  cbn [EmailPayment.recipientEmail hold]. rewrite Hmail. cbn [negb].
  unfold prisma_transaction, tx_bind, emailPayment_update, user_update_balance,
    transaction_create, tx_ret.
  cbn [emailPayments users with_emailPayments with_users Nat.add].
  rewrite list_lookup_middle by reflexivity.
  cbn [emailPayments users with_emailPayments with_users].
  rewrite list_lookup_insert_ne by exact Hab. rewrite Hb.
  split; reflexivity.
Qed.

(** In a time zone whose clocks go forward by an hour in the night after the
    request, a payment sent for one day expires 23 hours later, and can be
    claimed at that very instant. *)
Lemma email_payment_equals_transfer_witness :
  exists hold s1 s2,
    sendViaEmail SampleZone.springForward "c0de09" Sample.store 1000 Sample.a
      (SendViaEmailBody.mk "B@x.com" (Some 40) (Some 1) None)
      = (Success 201 (0%nat, hold), s1)
    /\ EmailPayment.expiresAt hold = 1000 + 23 * 3600000
    /\ claimPayment s1 82801000 Sample.b "c0de09"
       = (Success 200 (EmailPayment.claim Sample.b hold), s2)
    /\ users s2 = users (snd (sendMoney Sample.store 1000 Sample.a
                                (SendMoneyBody.mk "B@x.com" (Some 40) None))).
Proof.
  apply (email_payment_equals_transfer Sample.store _ SampleZone.springForward
           1000 82801000 82801000 Sample.a 0%nat
           "B@x.com" (Some 40) None (Some 1)
           (Transaction.mk Sample.a Sample.b 40 "USDC" P2P TX_COMPLETED false false 1000
              Metadata.empty) "c0de09"); reflexivity.
Defined.

(** ** The fraud check, rule by rule *)










(** X12. Whether it returns or throws, [checkTransaction] writes to the alert
    table only, and only by appending: accounts, transactions, email
    payments, disputes and rules are as before, and so is the total value.
    The check never blocks or reverses a movement. *)
Theorem check_writes_alerts_only (s : Store) (now : Z) (t : CheckedTransaction.t) :
  let s' := snd (checkTransaction s now t) in
  users s' = users s /\ transactions s' = transactions s
  /\ emailPayments s' = emailPayments s /\ disputes s' = disputes s
  /\ fraudRules s' = fraudRules s
  /\ totalValue s' = totalValue s
  /\ exists created, fraudAlerts s' = fraudAlerts s ++ created.
Proof.
  intros s'. subst s'. unfold checkTransaction.
  destruct (checkRules (activeRules s) now t [] s) as [res s1] eqn:E.
  apply (checkRules_alerts s) in E; [|reflexivity].
  destruct E as (created & Ha & _ & _ & Hu & Ht & He & Hd & Hr).
  cbn [snd]. unfold totalValue. rewrite Hu, He. eauto 10.
Qed.




(** X14. A rule that is not active is not consulted: whatever the
    transaction and whether the check returns or throws, none of the alerts
    it writes belongs to a rule whose [isActive] flag is off. *)
Theorem inactive_rule_never_alerts (s : Store) (now : Z) (t : CheckedTransaction.t)
    (rid : nat) (rule : FraudRule.t) :
  fraudRules s !! rid = Some rule ->
  FraudRule.isActive rule = false ->
  exists created,
    fraudAlerts (snd (checkTransaction s now t)) = fraudAlerts s ++ created
    /\ Forall (fun a => FraudAlert.ruleId a <> rid) created.
Proof.
  intros Hrule Hoff. unfold checkTransaction.
  destruct (checkRules (activeRules s) now t [] s) as [res s'] eqn:E.
  apply (checkRules_alerts s) in E; [|reflexivity].
  destruct E as (created & Ha & _ & Hall & _).
  exists created. cbn [snd]. split; [exact Ha|].
  eapply Forall_impl; [exact Hall|]. intros a (i & r & Hin & _ & ->) Heq.
  cbn in Heq. subst i. apply activeRules_In in Hin as [Hl Hon].
  rewrite Hrule in Hl. injection Hl as <-. congruence.
Qed.

Lemma inactive_rule_never_alerts_witness :
  exists created,
    fraudAlerts (snd (checkTransaction SampleRules.store 240001 SampleFraud.fourth))
      = fraudAlerts SampleRules.store ++ created
    /\ Forall (fun a => FraudAlert.ruleId a <> 3%nat) created.
Proof.
  apply (inactive_rule_never_alerts SampleRules.store 240001 SampleFraud.fourth 3%nat
           SampleRules.retiredRule); reflexivity.
Defined.




(** ** Risk score and disputes *)

Lemma includedDisputes_app (s : Store) (ds : list Dispute.t) (uid : nat) :
  includedDisputes (with_disputes (disputes s ++ ds) s) uid
  = includedDisputes s uid
    ++ List.filter (fun d => Nat.eqb (Dispute.userId d) uid
                             && match Dispute.status d with
                                | OPEN | IN_PROGRESS => true
                                | _ => false
                                end) ds.
Proof. unfold includedDisputes. cbn [disputes with_disputes]. apply List.filter_app. Qed.

(** X16. Filing a dispute raises the risk score of the account that files it:
    every open or in-progress dispute of an account adds 10, so right after
    [fileDispute] has accepted a dispute the score of the filing account is
    its former score before the cap plus 10, capped at 100. *)
Theorem dispute_raises_filer_score (userTransactions : nat -> Transaction.t -> bool)
    (s s' : Store) (now now' : Z) (uid : nat) (user : User.t) (body : FileDisputeBody.t)
    (data : nat * Dispute.t) :
  fileDispute s now uid body = (Success 201 data, s') ->
  users s !! uid = Some user ->
  fst (calculateUserRiskScore userTransactions s' now' uid)
  = Z.min (rawScore userTransactions s now' uid user + 10) 100.
Proof.
  intros H Hu. unfold fileDispute in H. handler_accepted H. injection H as _ <-.
  unfold calculateUserRiskScore. cbn [users with_disputes]. rewrite Hu. cbn [fst].
  f_equal. unfold rawScore. rewrite includedDisputes_app.
  cbn [List.filter Dispute.userId Dispute.status]. rewrite Nat.eqb_refl. cbn [andb].
  rewrite length_app. cbn [length].
  change (includedTransactions userTransactions (with_disputes _ s) now' uid)
    with (includedTransactions userTransactions s now' uid).
  lia.
Qed.

Lemma dispute_raises_filer_score_witness :
  fst (calculateUserRiskScore (fun uid x => Nat.eqb (Transaction.senderId x) uid)
         SampleDispute.disputed 7776000000 Sample.a)
  = Z.min (rawScore (fun uid x => Nat.eqb (Transaction.senderId x) uid)
             SampleDispute.ledger 7776000000 Sample.a (User.increment (-100) Sample.userA)
           + 10) 100.
Proof.
  apply (dispute_raises_filer_score (fun uid x => Nat.eqb (Transaction.senderId x) uid)
           SampleDispute.ledger SampleDispute.disputed 3000 7776000000 Sample.a
           (User.increment (-100) Sample.userA)
           (FileDisputeBody.mk (Some 0%nat) "fraud" "not received")
           (0%nat, Dispute.mk Sample.a 0 OPEN None None)); reflexivity.
Defined.

(** X17. The risk endpoint always answers 200 and writes nothing.  For an
    account that does not exist it reports the score 0 and the level LOW
    rather than an error; an account with seven or more open or in-progress
    disputes is reported HIGH, and one with four or more at least MEDIUM,
    whatever its other factors. *)
Theorem risk_level_from_disputes (userTransactions : nat -> Transaction.t -> bool)
    (s : Store) (now : Z) (userId : nat) :
  exists score,
    AdminFraud.calculateRiskScore userTransactions s now userId
      = (Accepted 200 (userId, score, AdminFraud.riskLevel score), s)
    /\ (users s !! userId = None -> score = 0 /\ AdminFraud.riskLevel score = AdminFraud.LOW)
    /\ (is_Some (users s !! userId) ->
        (7 <= length (includedDisputes s userId))%nat ->
        AdminFraud.riskLevel score = AdminFraud.HIGH)
    /\ (is_Some (users s !! userId) ->
        (4 <= length (includedDisputes s userId))%nat ->
        AdminFraud.riskLevel score <> AdminFraud.LOW).
Proof.
  unfold AdminFraud.calculateRiskScore, calculateUserRiskScore.
  destruct (users s !! userId) as [user|] eqn:Hu.
  - eexists. split; [reflexivity|]. split; [discriminate|].
    assert (Hraw : 10 * Z.of_nat (length (includedDisputes s userId))
                   <= rawScore userTransactions s now userId user).
    { unfold rawScore.
      pose proof (ageFactor_range now user). pose proof (kycFactor_range user).
      pose proof (flaggedFactor_range user).
      pose proof (velocityFactor_range
                    (Z.of_nat (length (includedTransactions userTransactions s now userId)))).
      unfold failedTxCount, flaggedTxCount. lia. }
    unfold AdminFraud.riskLevel. split; intros _ Hn.
    + replace (Z.min _ 100 >=? 70) with true; [reflexivity|].
      symmetry. apply Z.geb_le. lia.
    + destruct (Z.min _ 100 >=? 70); [discriminate|].
      replace (Z.min _ 100 >=? 40) with true; [discriminate|].
      symmetry. apply Z.geb_le. lia.
  - exists 0. split; [reflexivity|]. split; [auto|].
    split; intros [? Hx]; discriminate Hx.
Qed.

(** ** Administration of accounts *)

Lemma with_users_same (s : Store) : with_users (users s) s = s.
Proof. destruct s; reflexivity. Qed.

(** X18. Suspension locks an account out of every user route.  Once
    [suspendUser] has accepted, any request made with the credentials of that
    account, whatever the handler behind the authentication, is answered 403
    ACCOUNT_SUSPENDED and leaves the store untouched.  The suspension itself
    moves no money and changes the standing of no other account. *)
Theorem suspended_user_locked_out (s s' : Store) (id : nat) (reason : string) (u : User.t) :
  AdminUsers.suspendUser s id reason = (Accepted 200 u, s') ->
  (forall (B A : Type) (handler : Store -> Z -> nat -> B -> Response A * Store)
          (now : Z) (body : B),
     authenticated handler s' now (Token id) body = (Failure 403 ACCOUNT_SUSPENDED, s'))
  /\ (forall other, other <> id ->
        authenticateUser s' (Token other) = authenticateUser s (Token other))
  /\ (forall any, balanceOf s' any = balanceOf s any)
  /\ totalValue s' = totalValue s.
Proof.
  intros H. unfold AdminUsers.suspendUser in H. handler_accepted H.
  injection H as <- <-.
  match goal with L : users s !! id = Some ?x |- _ => rename L into Hu; rename x into u0 end.
  assert (Hl := lookup_lt_Some _ _ _ Hu).
  split; [|split; [|split]].
  - intros B A handler now body. unfold authenticated, authenticateUser.
    cbn [users with_users]. rewrite list_lookup_insert_eq by exact Hl. reflexivity.
  - intros other Hne. unfold authenticateUser. cbn [users with_users].
    rewrite list_lookup_insert_ne by auto. reflexivity.
  - intros any. unfold balanceOf. cbn [users with_users].
    destruct (decide (id = any)) as [<-|Hne].
    + rewrite list_lookup_insert_eq by exact Hl. rewrite Hu. reflexivity.
    + rewrite list_lookup_insert_ne by exact Hne. reflexivity.
  - unfold totalValue. cbn [users emailPayments with_users].
    rewrite (sumBalances_insert _ _ _ _ Hu). cbn. lia.
Qed.

Lemma suspended_user_locked_out_witness :
  authenticated claimPayment (snd (AdminUsers.suspendUser SampleEscrow.store Sample.b "review"))
    3000 (Token Sample.b) "c0de01"
  = (Failure 403 ACCOUNT_SUSPENDED,
     snd (AdminUsers.suspendUser SampleEscrow.store Sample.b "review")).
Proof.
  destruct (suspended_user_locked_out SampleEscrow.store _ Sample.b "review" _ eq_refl)
    as (Hlock & _).
  apply Hlock.
Defined.

(** X19. Lifting a suspension undoes it: suspending an account that was not
    suspended and unsuspending it again gives back the very same store, so
    nothing of the account is lost in between. *)
Theorem suspension_round_trip (s : Store) (id : nat) (u : User.t) (reason : string) :
  users s !! id = Some u ->
  User.isSuspended u = false ->
  String.eqb reason "" = false ->
  AdminUsers.unsuspendUser (snd (AdminUsers.suspendUser s id reason)) id = (Accepted 200 u, s).
Proof.
  intros Hu Hns Hreason. assert (Hl := lookup_lt_Some _ _ _ Hu).
  unfold AdminUsers.suspendUser. rewrite Hreason, Hu. cbn [snd].
  unfold AdminUsers.unsuspendUser. cbn [users with_users].
  rewrite list_lookup_insert_eq by exact Hl.
  assert (Hback : AdminUsers.setSuspended false (AdminUsers.setSuspended true u) = u).
  { destruct u; cbn in *. subst. reflexivity. }
  rewrite Hback, list_insert_insert_eq, (list_insert_id _ _ _ Hu).
  change (with_users (users s) (with_users _ s)) with (with_users (users s) s).
  rewrite with_users_same. reflexivity.
Qed.

Lemma suspension_round_trip_witness :
  AdminUsers.unsuspendUser (snd (AdminUsers.suspendUser Sample.store Sample.b "review")) Sample.b
  = (Accepted 200 Sample.userB, Sample.store).
Proof.
  apply (suspension_round_trip Sample.store Sample.b Sample.userB "review"); reflexivity.
Defined.

Lemma find_from_insert_same {A} (p : A -> bool) (l : list A) (k i : nat) (x y : A) :
  find_from p k l = Some (i, x) -> p y = true ->
  find_from p k (<[(i - k)%nat := y]> l) = Some (i, y).
Proof.
  revert k; induction l as [|z l IH]; intros k H Hy; simpl in H; [discriminate|].
  destruct (p z) eqn:Hz.
  - injection H as <- <-. replace (k - k)%nat with 0%nat by lia. cbn. rewrite Hy. reflexivity.
  - destruct (find_from_lookup _ _ _ _ _ H) as (Hle & _ & _).
    replace (i - k)%nat with (S (i - S k)) by lia. cbn. rewrite Hz. apply IH; assumption.
Qed.

(** X20. A suspended account cannot be paid by transfer either: a transfer
    that would have reached the account is, once the account is suspended,
    rejected with RECIPIENT_UNAVAILABLE and moves nothing. *)
Theorem suspended_recipient_refused (s sm s' : Store) (now now' : Z) (a tid : nat)
    (body : SendMoneyBody.t) (row : Transaction.t) (reason : string) (u : User.t) :
  sendMoney s now a body = (Success 201 (tid, row), sm) ->
  AdminUsers.suspendUser s (Transaction.recipientId row) reason = (Accepted 200 u, s') ->
  sendMoney s' now' a body = (Failure 400 RECIPIENT_UNAVAILABLE, s').
Proof.
  intros H Hsus.
  destruct (sendMoney_accepted _ _ _ _ _ _ _ H)
    as (b & ua & ub & amt & Ha & Hb & Hab & Hpos & Hbal & Hamt & Hf & _ & _ & _ & -> & _).
  cbn [Transaction.recipientId] in Hsus.
  assert (He : String.eqb (SendMoneyBody.recipientEmail body) "" = false).
  { pose proof H as H'. unfold sendMoney in H'.
    destruct (String.eqb (SendMoneyBody.recipientEmail body) "") eqn:E; [|reflexivity].
    discriminate H'. }
  unfold AdminUsers.suspendUser in Hsus. handler_accepted Hsus.
  injection Hsus as <- <-.
  match goal with L : Some _ = Some ub |- _ => injection L as -> end.
  destruct (findFirst_lookup _ _ _ _ Hf) as [_ Hmail].
  unfold sendMoney. rewrite He, Hamt. cbn [falsy_amount default from_option id orb].
  replace (amt =? 0) with false by (symmetry; apply Z.eqb_neq; lia).
  replace (amt <=? 0) with false by (symmetry; apply Z.leb_gt; lia).
  cbn [users with_users]. rewrite list_lookup_insert_ne by auto. rewrite Ha.
  replace (User.balance ua <? amt) with false by (symmetry; apply Z.ltb_ge; lia).
  unfold findFirst in *.
  pose proof (find_from_insert_same _ _ _ _ _ (AdminUsers.setSuspended true ub) Hf Hmail) as Hf'.
  rewrite Nat.sub_0_r in Hf'. rewrite Hf'. reflexivity.
Qed.

Lemma suspended_recipient_refused_witness :
  sendMoney (snd (AdminUsers.suspendUser Sample.store Sample.b "review")) 2000 Sample.a
    (Sample.send "b@x.com" 40)
  = (Failure 400 RECIPIENT_UNAVAILABLE,
     snd (AdminUsers.suspendUser Sample.store Sample.b "review")).
Proof.
  eapply (suspended_recipient_refused Sample.store _ _ 1000 2000 Sample.a 0%nat
            (Sample.send "b@x.com" 40)
            (Transaction.mk Sample.a Sample.b 40 "USDC" P2P TX_COMPLETED false false 1000
               Metadata.empty) "review"); reflexivity.
Defined.

(** X21. [adjustBalance] adds the signed amount to the balance without any
    floor, so it changes the total value by exactly that amount and may
    leave the account below zero; adjusting by the opposite amount afterwards
    restores the store.  An amount of zero is rejected as a missing field. *)
Theorem adjust_balance_signed (s : Store) (userId : nat) (u : User.t) (amount : Z)
    (reason : string) :
  users s !! userId = Some u ->
  amount <> 0 ->
  String.eqb reason "" = false ->
  exists s1,
    AdminUsers.adjustBalance s userId (Some amount) reason
      = (Accepted 200 (User.increment amount u), s1)
    /\ balanceOf s1 userId = Some (User.balance u + amount)
    /\ totalValue s1 = totalValue s + amount
    /\ AdminUsers.adjustBalance s1 userId (Some (- amount)) reason = (Accepted 200 u, s)
    /\ AdminUsers.adjustBalance s userId (Some 0) reason
       = (Rejected 400 AdminUsers.MISSING_FIELDS, s).
Proof.
  intros Hu Hnz Hreason. assert (Hl := lookup_lt_Some _ _ _ Hu).
  unfold AdminUsers.adjustBalance. cbn [falsy_amount default from_option id].
  rewrite Hreason, Hu.
  replace (amount =? 0) with false by (symmetry; apply Z.eqb_neq; lia).
  replace (- amount =? 0) with false by (symmetry; apply Z.eqb_neq; lia).
  cbn [orb Z.eqb]. eexists. split; [reflexivity|].
  cbn [users with_users]. rewrite list_lookup_insert_eq by exact Hl.
  split; [unfold balanceOf; cbn [users with_users];
          rewrite list_lookup_insert_eq by exact Hl; reflexivity|].
  split; [unfold totalValue; cbn [users emailPayments with_users];
          rewrite (sumBalances_insert _ _ _ _ Hu); cbn; lia|].
  split; [|reflexivity].
  rewrite increment_back, list_insert_insert_eq, (list_insert_id _ _ _ Hu).
  change (with_users (users s) (with_users _ s)) with (with_users (users s) s).
  rewrite with_users_same. reflexivity.
Qed.

Lemma adjust_balance_signed_witness :
  exists s1,
    AdminUsers.adjustBalance Sample.store Sample.b (Some (-25)) "chargeback"
      = (Accepted 200 (User.increment (-25) Sample.userB), s1)
    /\ balanceOf s1 Sample.b = Some (-25)
    /\ AdminUsers.adjustBalance s1 Sample.b (Some 25) "chargeback"
       = (Accepted 200 Sample.userB, Sample.store).
Proof.
  destruct (adjust_balance_signed Sample.store Sample.b Sample.userB (-25) "chargeback")
    as (s1 & H1 & H2 & _ & H4 & _); try reflexivity.
  - lia.
  - exists s1. auto.
Defined.

(** ** Withdrawals *)

Lemma approveWithdrawal_cases (b : Bank) (id : nat) (w : Withdrawal.t) (u : User.t) :
  withdrawals b !! id = Some w ->
  users (ledger b) !! Withdrawal.userId w = Some u ->
  Withdrawals.approveWithdrawal b id =
    if negb (Withdrawals.isPendingW w)
    then (Rejected 400 Withdrawals.INVALID_WITHDRAWAL_STATUS, b)
    else if User.balance u <? Withdrawal.amount w
    then (Rejected 400 Withdrawals.INSUFFICIENT_BALANCE, b)
    else (Accepted 200 (Withdrawal.setStatus W_APPROVED w),
          mkBank (with_users (<[Withdrawal.userId w := User.increment (- Withdrawal.amount w) u]>
                                (users (ledger b))) (ledger b))
                 (<[id := Withdrawal.setStatus W_APPROVED w]> (withdrawals b))).
Proof.
  intros Hw Hu. unfold Withdrawals.approveWithdrawal. rewrite Hw.
  destruct (negb (Withdrawals.isPendingW w)); [reflexivity|]. rewrite Hu.
  destruct (User.balance u <? Withdrawal.amount w); [reflexivity|].
  unfold prisma_transaction, user_update_balance. rewrite Hu. reflexivity.
Qed.

(** X22. A withdrawal request needs a verified account and a balance that
    covers the amount, but it reserves nothing: the ledger is unchanged and
    the same request is accepted again.  When the first of two such requests
    is approved, the account is debited once; if the rest no longer covers
    the second, its approval is rejected with INSUFFICIENT_BALANCE. *)
Theorem withdrawal_request_reserves_nothing (b : Bank) (uid : nat) (u : User.t)
    (amount : Z) (address : string) :
  users (ledger b) !! uid = Some u ->
  0 < amount ->
  String.eqb address "" = false ->
  let row := Withdrawal.mk uid amount address W_PENDING in
  let n := length (withdrawals b) in
  (isAccepted (fst (Withdrawals.requestWithdrawal b uid (Some amount) address)) = true <->
     User.kycStatus u = KYC_VERIFIED /\ amount <= User.balance u)
  /\ (User.kycStatus u = KYC_VERIFIED -> amount <= User.balance u ->
      exists b1 b2 b3,
        Withdrawals.requestWithdrawal b uid (Some amount) address = (Accepted 201 (n, row), b1)
        /\ ledger b1 = ledger b
        /\ Withdrawals.requestWithdrawal b1 uid (Some amount) address
           = (Accepted 201 (S n, row), b2)
        /\ Withdrawals.approveWithdrawal b2 n
           = (Accepted 200 (Withdrawal.setStatus W_APPROVED row), b3)
        /\ balanceOf (ledger b3) uid = Some (User.balance u - amount)
        /\ (User.balance u < 2 * amount ->
            Withdrawals.approveWithdrawal b3 (S n)
            = (Rejected 400 Withdrawals.INSUFFICIENT_BALANCE, b3))).
Proof.
  intros Hu Hpos Haddr row n. destruct b as [l ws0]. cbn [ledger withdrawals] in *.
  assert (Hl := lookup_lt_Some _ _ _ Hu).
  assert (Hreq : forall ws,
            Withdrawals.requestWithdrawal (mkBank l ws) uid (Some amount) address
            = if negb (Withdrawals.isVerified u)
              then (Rejected 403 Withdrawals.KYC_REQUIRED, mkBank l ws)
              else if User.balance u <? amount
              then (Rejected 400 Withdrawals.INSUFFICIENT_BALANCE, mkBank l ws)
              else (Accepted 201 (length ws, row), mkBank l (ws ++ [row]))).
  { intros ws. unfold Withdrawals.requestWithdrawal.
    cbn [falsy_amount default from_option id ledger withdrawals].
    rewrite Haddr, Hu.
    replace (amount =? 0) with false by (symmetry; apply Z.eqb_neq; lia).
    replace (amount <=? 0) with false by (symmetry; apply Z.leb_gt; lia).
    reflexivity. }
  rewrite Hreq.
  assert (Hver : Withdrawals.isVerified u = true <-> User.kycStatus u = KYC_VERIFIED).
  { unfold Withdrawals.isVerified. destruct (User.kycStatus u); split; congruence. }
  split.
  - destruct (Withdrawals.isVerified u) eqn:Hv; cbn [negb].
    + destruct (User.balance u <? amount) eqn:Hc; cbn [fst isAccepted].
      * apply Z.ltb_lt in Hc. split; [discriminate | lia].
      * apply Z.ltb_ge in Hc. split; [intros _; split; [apply Hver; reflexivity | lia] | reflexivity].
    + cbn [fst isAccepted]. split; [discriminate|]. intros [Hk _].
      apply Hver in Hk. discriminate.
  - intros Hk Hbal. apply Hver in Hk. rewrite Hk. cbn [negb].
    replace (User.balance u <? amount) with false by (symmetry; apply Z.ltb_ge; lia).
    do 3 eexists. split; [reflexivity|]. split; [reflexivity|].
    rewrite Hreq, Hk. cbn [negb].
    replace (User.balance u <? amount) with false by (symmetry; apply Z.ltb_ge; lia).
    rewrite length_app. cbn [length].
    replace (length ws0 + 1)%nat with (S n) by (unfold n; lia).
    split; [reflexivity|].
    rewrite (approveWithdrawal_cases _ n row u).
    2:{ cbn [withdrawals]. rewrite <- app_assoc. apply list_lookup_middle. reflexivity. }
    2:{ exact Hu. }
    cbn [Withdrawals.isPendingW Withdrawal.status row negb Withdrawal.amount Withdrawal.userId].
    replace (User.balance u <? amount) with false by (symmetry; apply Z.ltb_ge; lia).
    split; [reflexivity|].
    split.
    { unfold balanceOf. cbn [ledger users with_users].
      rewrite list_lookup_insert_eq by exact Hl. reflexivity. }
    intros Hshort.
    rewrite (approveWithdrawal_cases _ (S n) row (User.increment (- amount) u)).
    2:{ cbn [withdrawals]. rewrite list_lookup_insert_ne by (unfold n; lia).
        replace (S n) with (length (ws0 ++ [row]))
          by (rewrite length_app; cbn; unfold n; lia).
        apply list_lookup_middle. reflexivity. }
    2:{ cbn [ledger users with_users Withdrawal.userId row].
        apply list_lookup_insert_eq. exact Hl. }
    cbn [Withdrawals.isPendingW Withdrawal.status row negb Withdrawal.amount Withdrawal.userId
         User.balance User.increment].
    replace (User.balance u + - amount <? amount) with true
      by (symmetry; apply Z.ltb_lt; lia).
    reflexivity.
Qed.

Lemma withdrawal_request_reserves_nothing_witness :
  exists b1 b2 b3,
    Withdrawals.requestWithdrawal SampleBank.bank Sample.a (Some 80) "So1anaAddre55"
      = (Accepted 201 (0%nat, Withdrawal.mk Sample.a 80 "So1anaAddre55" W_PENDING), b1)
    /\ ledger b1 = ledger SampleBank.bank
    /\ Withdrawals.requestWithdrawal b1 Sample.a (Some 80) "So1anaAddre55"
       = (Accepted 201 (1%nat, Withdrawal.mk Sample.a 80 "So1anaAddre55" W_PENDING), b2)
    /\ Withdrawals.approveWithdrawal b2 0
       = (Accepted 200 (Withdrawal.mk Sample.a 80 "So1anaAddre55" W_APPROVED), b3)
    /\ balanceOf (ledger b3) Sample.a = Some 20
    /\ Withdrawals.approveWithdrawal b3 1
       = (Rejected 400 Withdrawals.INSUFFICIENT_BALANCE, b3).
Proof.
  destruct (withdrawal_request_reserves_nothing SampleBank.bank Sample.a Sample.userA 80
              "So1anaAddre55" eq_refl eq_refl eq_refl) as (_ & Hok).
  destruct Hok as (b1 & b2 & b3 & H1 & H2 & H3 & H4 & H5 & H6).
  - reflexivity.
  - cbn. lia.
  - exists b1, b2, b3. repeat split; try assumption. apply H6. cbn. lia.
Defined.

(** X23. An approval debits the account exactly once and never overdraws
    it.  When [approveWithdrawal] accepts, the withdrawal was pending and
    covered by the balance; the account loses exactly the amount, which
    leaves the system (the total value drops by it), no balance becomes
    negative, and the withdrawal can be neither approved nor rejected again. *)
Theorem approve_withdrawal_once (b b' : Bank) (id : nat) (data : Withdrawal.t) :
  Withdrawals.approveWithdrawal b id = (Accepted 200 data, b') ->
  exists w u,
    withdrawals b !! id = Some w /\ Withdrawal.status w = W_PENDING
    /\ users (ledger b) !! Withdrawal.userId w = Some u
    /\ Withdrawal.amount w <= User.balance u
    /\ data = Withdrawal.setStatus W_APPROVED w
    /\ balanceOf (ledger b') (Withdrawal.userId w)
       = Some (User.balance u - Withdrawal.amount w)
    /\ totalValue (ledger b') = totalValue (ledger b) - Withdrawal.amount w
    /\ (nonNegative (ledger b) -> nonNegative (ledger b'))
    /\ Withdrawals.approveWithdrawal b' id
       = (Rejected 400 Withdrawals.INVALID_WITHDRAWAL_STATUS, b')
    /\ forall reason, String.eqb reason "" = false ->
         Withdrawals.rejectWithdrawal b' id reason
         = (Rejected 400 Withdrawals.INVALID_WITHDRAWAL_STATUS, b').
Proof.
  intros H. destruct (withdrawals b !! id) as [w|] eqn:Hw.
  2:{ unfold Withdrawals.approveWithdrawal in H. rewrite Hw in H. discriminate. }
  destruct (users (ledger b) !! Withdrawal.userId w) as [u|] eqn:Hu.
  2:{ unfold Withdrawals.approveWithdrawal in H. rewrite Hw, Hu in H.
      destruct (negb (Withdrawals.isPendingW w)); discriminate. }
  rewrite (approveWithdrawal_cases _ _ _ _ Hw Hu) in H.
  destruct (Withdrawals.isPendingW w) eqn:Hp; cbn [negb] in H; [|discriminate].
  destruct (User.balance u <? Withdrawal.amount w) eqn:Hc; [discriminate|].
  apply Z.ltb_ge in Hc. injection H as <- <-.
  assert (Hlw := lookup_lt_Some _ _ _ Hw). assert (Hlu := lookup_lt_Some _ _ _ Hu).
  exists w, u. split; [first [reflexivity | exact Hw]|].
  split; [unfold Withdrawals.isPendingW in Hp; destruct (Withdrawal.status w);
          congruence|].
  split; [first [reflexivity | exact Hu]|]. split; [exact Hc|]. split; [reflexivity|].
  cbn [ledger withdrawals].
  split; [unfold balanceOf; cbn [users with_users];
          rewrite list_lookup_insert_eq by exact Hlu; reflexivity|].
  split; [unfold totalValue; cbn [users emailPayments with_users];
          rewrite (sumBalances_insert _ _ _ _ Hu); cbn; lia|].
  split.
  { intros [Hus Hps]. split; [|exact Hps]. cbn [users with_users].
    apply Forall_insert; [exact Hus|]. cbn. lia. }
  split.
  - unfold Withdrawals.approveWithdrawal. cbn [withdrawals].
    rewrite list_lookup_insert_eq by exact Hlw. reflexivity.
  - intros reason Hreason. unfold Withdrawals.rejectWithdrawal. rewrite Hreason.
    cbn [withdrawals]. rewrite list_lookup_insert_eq by exact Hlw. reflexivity.
Qed.

Lemma approve_withdrawal_once_witness :
  balanceOf (ledger SampleBank.approved) Sample.a = Some 20
  /\ totalValue (ledger SampleBank.approved) = totalValue (ledger SampleBank.requested) - 80
  /\ Withdrawals.approveWithdrawal SampleBank.approved 0
     = (Rejected 400 Withdrawals.INVALID_WITHDRAWAL_STATUS, SampleBank.approved).
Proof.
  destruct (approve_withdrawal_once SampleBank.requested SampleBank.approved 0%nat
              (Withdrawal.mk Sample.a 80 "So1anaAddre55" W_APPROVED) eq_refl)
    as (w & u & Hw & _ & Hu & _ & _ & Hb & Ht & _ & Hagain & _).
  injection Hw as <-. injection Hu as <-.
  split; [exact Hb|]. split; [exact Ht | exact Hagain].
Defined.

(** X24. A rejection moves no money and is final: when [rejectWithdrawal]
    accepts, the ledger is untouched, and the withdrawal can afterwards be
    neither approved nor rejected again. *)
Theorem rejected_withdrawal_is_final (b b' : Bank) (id : nat) (reason : string)
    (data : Withdrawal.t) :
  Withdrawals.rejectWithdrawal b id reason = (Accepted 200 data, b') ->
  ledger b' = ledger b
  /\ Withdrawal.status <$> withdrawals b' !! id = Some W_REJECTED
  /\ Withdrawals.approveWithdrawal b' id
     = (Rejected 400 Withdrawals.INVALID_WITHDRAWAL_STATUS, b')
  /\ forall reason', String.eqb reason' "" = false ->
       Withdrawals.rejectWithdrawal b' id reason'
       = (Rejected 400 Withdrawals.INVALID_WITHDRAWAL_STATUS, b').
Proof.
  intros H. unfold Withdrawals.rejectWithdrawal in H. handler_accepted H.
  injection H as <- <-.
  match goal with L : withdrawals b !! id = Some _ |- _ =>
    assert (Hlw := lookup_lt_Some _ _ _ L) end.
  cbn [ledger withdrawals]. split; [reflexivity|].
  split; [rewrite list_lookup_insert_eq by exact Hlw; reflexivity|].
  split.
  - unfold Withdrawals.approveWithdrawal. cbn [withdrawals].
    rewrite list_lookup_insert_eq by exact Hlw. reflexivity.
  - intros reason' Hreason'. unfold Withdrawals.rejectWithdrawal. rewrite Hreason'.
    cbn [withdrawals]. rewrite list_lookup_insert_eq by exact Hlw. reflexivity.
Qed.

Lemma rejected_withdrawal_is_final_witness :
  ledger SampleBank.rejected = ledger SampleBank.requested
  /\ Withdrawals.approveWithdrawal SampleBank.rejected 0
     = (Rejected 400 Withdrawals.INVALID_WITHDRAWAL_STATUS, SampleBank.rejected).
Proof.
  destruct (rejected_withdrawal_is_final SampleBank.requested SampleBank.rejected 0%nat
              "wrong address" (Withdrawal.mk Sample.a 80 "So1anaAddre55" W_REJECTED) eq_refl)
    as (Hl & _ & Ha & _).
  split; assumption.
Defined.

(** ** Expiry of email payments *)

(** What [claimPayment] answers for the payment that carries the code, when
    no other payment carries it. *)
Lemma claimPayment_cases_unique (s : Store) (now : Z) (uid : nat) (user : User.t)
    (pid : nat) (hold : EmailPayment.t) :
  (forall j x, emailPayments s !! j = Some x ->
     EmailPayment.claimCode x = EmailPayment.claimCode hold -> j = pid /\ x = hold) ->
  users s !! uid = Some user ->
  emailPayments s !! pid = Some hold ->
  String.eqb (EmailPayment.claimCode hold) "" = false ->
  claimPayment s now uid (EmailPayment.claimCode hold) =
    if negb (isPending hold) then (Failure 404 PAYMENT_NOT_FOUND, s)
    else if EmailPayment.expiresAt hold <? now then (Failure 400 PAYMENT_EXPIRED, s)
    else if negb (String.eqb (User.email user) (EmailPayment.recipientEmail hold))
    then (Failure 403 UNAUTHORIZED, s)
    else (Success 200 (EmailPayment.claim uid hold),
          with_transactions
            (transactions s ++
               [Transaction.mk (EmailPayment.senderId hold) uid (EmailPayment.amount hold)
                  (EmailPayment.currency hold) EMAIL_PAYMENT TX_COMPLETED false false now
                  (Metadata.mk None (Some pid) None)])
            (with_users (<[uid := User.increment (EmailPayment.amount hold) user]> (users s))
               (with_emailPayments (<[pid := EmailPayment.claim uid hold]> (emailPayments s)) s))).
Proof.
  intros Hu Huser Hhold Hcode. unfold claimPayment. rewrite Hcode.
  rewrite (findFirst_claimCode _ pid hold Hu Hhold).
  destruct (isPending hold); [|reflexivity]. cbn [negb].
  destruct (EmailPayment.expiresAt hold <? now); [reflexivity|].
  rewrite Huser.
  destruct (negb (String.eqb (User.email user) (EmailPayment.recipientEmail hold))); [reflexivity|].
  unfold prisma_transaction, tx_bind, emailPayment_update, user_update_balance,
    transaction_create, tx_ret.
  rewrite Hhold. cbn [users with_emailPayments]. rewrite Huser. reflexivity.
Qed.

(** A number of days below [2 ^ 53] is read as it is. *)
Lemma parseInt10_exact (days : Z) : 0 < days < 2 ^ 53 -> parseInt10 days = Some days.
Proof.
  intros [Hpos Hlt]. unfold parseInt10, toDouble.
  assert (He : Z.log2 days < 53) by (apply Z.log2_lt_pow2; lia).
  replace (Z.log2 days <? 53) with true by (symmetry; apply Z.ltb_lt; exact He).
  cbv zeta.
  assert (H1 : (2 : Z) ^ 53 < 2 ^ 1024) by (apply Z.pow_lt_mono_r; lia).
  assert (H2 : (2 : Z) ^ 53 < 10 ^ 21) by (vm_compute; reflexivity).
  replace (2 ^ 1024 <=? days) with false by (symmetry; apply Z.leb_gt; lia).
  replace (days <? 10 ^ 21) with true by (symmetry; apply Z.ltb_lt; lia).
  reflexivity.
Qed.

(** In a process running in UTC a date moves by days of 24 hours. *)
Lemma addDays_utc (t days : Z) :
  Z.abs (t + days * msPerDay) <= 8640000000000000 ->
  addDays utc t days = Some (t + days * msPerDay).
Proof.
  intros H. unfold addDays, TimeClip, UTC, LocalTime, utc. cbn [TimeZone.atUTC TimeZone.atLocal].
  rewrite Z.add_0_r, Z.sub_0_r.
  replace (8640000000000000 <? Z.abs (t + days * msPerDay)) with false
    by (symmetry; apply Z.ltb_ge; exact H).
  reflexivity.
Qed.

(** X25. Extending an email payment reopens it.  For a pending payment and a
    positive number of days, [extendEmailPayment] moves the expiry date by
    the number of days that [parseInt] reads, counted on the local calendar,
    and touches nothing else, provided the new date is valid; a claim by the
    recipient that was answered PAYMENT_EXPIRED before is accepted
    afterwards, as long as the new expiry date has not passed. *)
Theorem extension_reopens_claim (s : Store) (zone : TimeZone.t) (now : Z) (uid pid : nat)
    (user : User.t) (hold : EmailPayment.t) (days daysNum newExpiryDate : Z) :
  uniqueClaimCodes (emailPayments s) = true ->
  users s !! uid = Some user ->
  emailPayments s !! pid = Some hold ->
  String.eqb (EmailPayment.claimCode hold) "" = false ->
  EmailPayment.status hold = EP_PENDING ->
  User.email user = EmailPayment.recipientEmail hold ->
  0 < days ->
  parseInt10 days = Some daysNum ->
  addDays zone (EmailPayment.expiresAt hold) daysNum = Some newExpiryDate ->
  EmailPayment.expiresAt hold < now <= newExpiryDate ->
  let s' := with_emailPayments
              (<[pid := AdminEmailPayments.extend newExpiryDate hold]> (emailPayments s)) s in
  claimPayment s now uid (EmailPayment.claimCode hold) = (Failure 400 PAYMENT_EXPIRED, s)
  /\ AdminEmailPayments.extendEmailPayment zone s pid (Some days)
     = (Accepted 200 (AdminEmailPayments.extend newExpiryDate hold), s')
  /\ isSuccess (fst (claimPayment s' now uid (EmailPayment.claimCode hold))) = true
  /\ balanceOf (snd (claimPayment s' now uid (EmailPayment.claimCode hold))) uid
     = Some (User.balance user + EmailPayment.amount hold).
Proof.
  intros Hu Huser Hhold Hcode Hst Hmail Hdays Hparse Hdate [Hexp Hnew] s'.
  assert (Hp : isPending hold = true) by (apply isPending_status; exact Hst).
  assert (Hlh := lookup_lt_Some _ _ _ Hhold). assert (Hlu := lookup_lt_Some _ _ _ Huser).
  split.
  { rewrite (claimPayment_cases s now uid user pid hold Hu Huser Hhold Hcode).
    rewrite Hp. cbn [negb].
    replace (EmailPayment.expiresAt hold <? now) with true by (symmetry; apply Z.ltb_lt; lia).
    reflexivity. }
  split.
  { unfold AdminEmailPayments.extendEmailPayment. cbn [falsy_amount default from_option id].
    replace (days =? 0) with false by (symmetry; apply Z.eqb_neq; lia).
    replace (days <=? 0) with false by (symmetry; apply Z.leb_gt; lia).
    cbn [orb]. rewrite Hhold, Hp, Hparse, Hdate. reflexivity. }
  assert (Huniq : forall j x, emailPayments s' !! j = Some x ->
            EmailPayment.claimCode x
            = EmailPayment.claimCode (AdminEmailPayments.extend newExpiryDate hold) ->
            j = pid /\ x = AdminEmailPayments.extend newExpiryDate hold).
  { intros j x Hj Hx. unfold s' in Hj. cbn [emailPayments with_emailPayments] in Hj.
    eapply uniqueClaimCodes_claimed; eauto using uniqueClaimCodes_inj. }
  assert (Hhold' : emailPayments s' !! pid
                   = Some (AdminEmailPayments.extend newExpiryDate hold)).
  { unfold s'. cbn [emailPayments with_emailPayments].
    apply list_lookup_insert_eq. exact Hlh. }
  pose proof (claimPayment_cases_unique s' now uid user pid
                (AdminEmailPayments.extend newExpiryDate hold) Huniq Huser Hhold' Hcode) as Hc.
  change (EmailPayment.claimCode (AdminEmailPayments.extend newExpiryDate hold))
    with (EmailPayment.claimCode hold) in Hc.
  rewrite Hc.
  change (isPending (AdminEmailPayments.extend newExpiryDate hold)) with (isPending hold).
  rewrite Hp. cbn [negb AdminEmailPayments.extend EmailPayment.expiresAt
                   EmailPayment.recipientEmail].
  replace (newExpiryDate <? now) with false by (symmetry; apply Z.ltb_ge; lia).
  rewrite Hmail, String.eqb_refl. cbn [negb fst snd isSuccess].
  split; [reflexivity|].
  unfold balanceOf. cbn [users with_transactions with_users with_emailPayments s'].
  rewrite list_lookup_insert_eq by exact Hlu. reflexivity.
Qed.

(** The payment of the example expired at 5000.  An extension by 10 ^ 21
    days, which [parseInt] reads as one day, in a time zone whose clocks go
    forward in the night that follows, moves the expiry date by 23 hours;
    the recipient can claim again. *)
Lemma extension_reopens_claim_witness :
  claimPayment SampleEscrow.store 6000 Sample.b "c0de01"
    = (Failure 400 PAYMENT_EXPIRED, SampleEscrow.store)
  /\ fst (AdminEmailPayments.extendEmailPayment SampleZone.springForward SampleEscrow.store 0
            (Some (10 ^ 21)))
     = Accepted 200 (AdminEmailPayments.extend (5000 + 23 * 3600000) SampleEscrow.hold)
  /\ isSuccess (fst (claimPayment
                       (snd (AdminEmailPayments.extendEmailPayment SampleZone.springForward
                               SampleEscrow.store 0 (Some (10 ^ 21))))
                       6000 Sample.b "c0de01")) = true.
Proof.
  destruct (extension_reopens_claim SampleEscrow.store SampleZone.springForward 6000
              Sample.b 0%nat (User.increment 40 Sample.userB) SampleEscrow.hold
              (10 ^ 21) 1 82805000
              eq_refl eq_refl eq_refl eq_refl eq_refl eq_refl eq_refl)
    as (H1 & H2 & H3 & _).
  - vm_compute. reflexivity.
  - vm_compute. reflexivity.
  - split; vm_compute; [reflexivity | discriminate].
  - split; [exact H1|]. rewrite H2. split; [reflexivity | exact H3].
Defined.

(** X26. The expiry mark of the sender's list agrees with the claim: a
    payment is marked [isExpired] at a given time exactly when a claim with
    its code at that time, by anybody, is answered PAYMENT_EXPIRED. *)
Theorem expired_mark_matches_claim (s : Store) (now : Z) (uid pid : nat)
    (hold : EmailPayment.t) :
  uniqueClaimCodes (emailPayments s) = true ->
  emailPayments s !! pid = Some hold ->
  String.eqb (EmailPayment.claimCode hold) "" = false ->
  isExpired now hold = true <->
  claimPayment s now uid (EmailPayment.claimCode hold) = (Failure 400 PAYMENT_EXPIRED, s).
Proof.
  intros Hu Hhold Hcode. unfold claimPayment, isExpired. rewrite Hcode.
  rewrite (findFirst_claimCode _ pid hold); [| |exact Hhold].
  2:{ intros j x Hj Hc.
      assert (j = pid) as -> by (eapply uniqueClaimCodes_inj; eauto).
      split; [reflexivity | congruence]. }
  destruct (isPending hold).
  - destruct (EmailPayment.expiresAt hold <? now); cbn [andb].
    + tauto.
    + split; [discriminate|].
      destruct (users s !! uid) as [user|]; [|discriminate].
      destruct (negb _); [discriminate|].
      destruct (prisma_transaction _ _) as [[?|] ?]; discriminate.
  - rewrite andb_false_r. split; discriminate.
Qed.

Lemma expired_mark_matches_claim_witness :
  isExpired 6000 SampleEscrow.hold = true <->
  claimPayment SampleEscrow.store 6000 Sample.a "c0de01"
    = (Failure 400 PAYMENT_EXPIRED, SampleEscrow.store).
Proof.
  apply (expired_mark_matches_claim SampleEscrow.store 6000 Sample.a 0%nat SampleEscrow.hold);
    reflexivity.
Defined.

(** ** Addresses and letter case *)

Lemma toLowerCase_empty (e : string) : String.eqb (toLowerCase e) "" = String.eqb e "".
Proof. destruct e; reflexivity. Qed.

(** X27. The recipient address is compared without regard to the case of
    the letters A to Z.  Two transfer requests, or two email payment
    requests, whose recipient addresses become equal once the letters A to Z
    are put in lower case have the same outcome and leave the same store. *)
Theorem recipient_address_ignores_case (s : Store) (zone : TimeZone.t) (now : Z) (a : nat)
    (e1 e2 : string) (amount : option Z) (cur : option string) (days : option Z)
    (code : string) :
  toLowerCase e1 = toLowerCase e2 ->
  sendMoney s now a (SendMoneyBody.mk e1 amount cur)
  = sendMoney s now a (SendMoneyBody.mk e2 amount cur)
  /\ sendViaEmail zone code s now a (SendViaEmailBody.mk e1 amount days cur)
     = sendViaEmail zone code s now a (SendViaEmailBody.mk e2 amount days cur).
Proof.
  intros He.
  assert (Hempty : String.eqb e1 "" = String.eqb e2 "").
  { rewrite <- (toLowerCase_empty e1), <- (toLowerCase_empty e2), He. reflexivity. }
  unfold sendMoney, sendViaEmail.
  cbn [SendMoneyBody.recipientEmail SendMoneyBody.amount SendMoneyBody.currency
       SendViaEmailBody.recipientEmail SendViaEmailBody.amount SendViaEmailBody.currency
       SendViaEmailBody.expiryDays].
  rewrite Hempty, He. split; reflexivity.
Qed.

Lemma recipient_address_ignores_case_witness :
  sendMoney Sample.store 1000 Sample.a (SendMoneyBody.mk "B@X.com" (Some 40) None)
  = sendMoney Sample.store 1000 Sample.a (SendMoneyBody.mk "b@x.COM" (Some 40) None)
  /\ sendViaEmail utc "c0de03" Sample.store 1000 Sample.a
       (SendViaEmailBody.mk "B@X.com" (Some 40) None None)
     = sendViaEmail utc "c0de03" Sample.store 1000 Sample.a
         (SendViaEmailBody.mk "b@x.COM" (Some 40) None None).
Proof.
  apply (recipient_address_ignores_case Sample.store utc 1000 Sample.a "B@X.com" "b@x.COM").
  reflexivity.
Defined.

(** ** Permission gates *)

Lemma includes_In (l : list string) (x : string) : Rbac.includes l x = true <-> In x l.
Proof.
  unfold Rbac.includes. rewrite existsb_exists. split.
  - intros (y & Hin & Hy). apply String.eqb_eq in Hy. subst. exact Hin.
  - intros Hin. exists x. split; [exact Hin | apply String.eqb_refl].
Qed.

(** X28. A permission gate lets an authenticated administrator pass exactly
    when the role is SUPER_ADMIN or one of the listed permissions is among
    the administrator's own; a gate that lists no permission therefore
    admits super administrators only.  A role gate admits exactly the listed
    roles, with no exception for super administrators.  Without an
    authenticated administrator both gates answer 401. *)
Theorem permission_gates (required roles : list string) (a : Rbac.Admin) :
  (Rbac.requirePermission required (Some a) = Rbac.Next <->
     Rbac.role a = "SUPER_ADMIN"
     \/ exists p, In p required /\ In p (Rbac.permissions a))
  /\ (Rbac.requirePermission [] (Some a) = Rbac.Next <-> Rbac.role a = "SUPER_ADMIN")
  /\ (Rbac.requireRole roles (Some a) = Rbac.Next <-> In (Rbac.role a) roles)
  /\ Rbac.requirePermission required None = Rbac.Answer 401 Rbac.UNAUTHORIZED
  /\ Rbac.requireRole roles None = Rbac.Answer 401 Rbac.UNAUTHORIZED.
Proof.
  assert (Hperm : forall req,
    Rbac.requirePermission req (Some a) = Rbac.Next <->
    Rbac.role a = "SUPER_ADMIN" \/ exists p, In p req /\ In p (Rbac.permissions a)).
  { intros req. unfold Rbac.requirePermission.
    destruct (String.eqb (Rbac.role a) "SUPER_ADMIN") eqn:Hr.
    - apply String.eqb_eq in Hr. tauto.
    - apply String.eqb_neq in Hr.
      destruct (existsb _ req) eqn:Hex; cbn [negb].
      + apply existsb_exists in Hex as (p & Hin & Hp). apply includes_In in Hp.
        split; [eauto | reflexivity].
      + split; [discriminate|]. intros [?|(p & Hin & Hp)]; [tauto|].
        apply includes_In in Hp.
        assert (existsb (fun permission => Rbac.includes (Rbac.permissions a) permission) req
                = true) by (apply existsb_exists; eauto).
        congruence. }
  split; [apply Hperm|]. split.
  - rewrite Hperm. split; [intros [?|(p & [] & _)]; assumption | auto].
  - split; [|split; reflexivity].
    unfold Rbac.requireRole. destruct (Rbac.includes roles (Rbac.role a)) eqn:Hi; cbn [negb].
    + apply includes_In in Hi. tauto.
    + split; [discriminate|]. intros Hin. apply includes_In in Hin. congruence.
Qed.
